(** * torchmd-net datasets: COMP6 and mdCATH

    A shallow embedding of [torchmdnet/datasets/comp6.py] and
    [torchmdnet/datasets/mdcath.py], and the properties of their indexing,
    filtering and materialisation logic.

    Conventions of the embedding.
    - Python integers are [Z]; Python [float] and numpy [float64] are Rocq's
      primitive binary64 [float]; [bytes] and [str] keys are [string].
    - A Python [dict] is an association list in insertion order, and an HDF5
      group is one in iteration order: [g[k]] is [dict_getitem] ([KeyError]
      when the key has no binding) and [g.keys()] is [dict_keys].
    - A Python exception is a value of [exn]; code that may raise returns a
      [result].  A method that mutates [self] takes the object and returns the
      updated object together with its [result].
    - Attributes of archive groups are record fields: an archive is taken to
      carry every attribute the code reads. *)

From Stdlib Require Import ZArith Ascii String List Bool Lia Floats.
From stdpp Require Import base option list strings.
Import ListNotations.

#[local] Set Warnings "-inexact-float".
#[local] Open Scope Z_scope.

(** ** Python values, exceptions and sequences *)

Module Py.

Inductive exn : Type :=
| KeyError
| IndexError
| UnboundLocalError
| ZeroDivisionError
| ValueError
| AssertionError
| TypeError
| OSError.

Inductive result (A : Type) : Type :=
| Ok (a : A)
| Raise (e : exn).
Arguments Ok {A} a.
Arguments Raise {A} e.

#[export] Instance result_ret : MRet result := fun _ a => Ok a.
#[export] Instance result_bind : MBind result := fun _ _ f m =>
  match m with
  | Ok a => f a
  | Raise e => Raise e
  end.

Definition is_Ok {A} (r : result A) : bool :=
  match r with Ok _ => true | Raise _ => false end.

(** [assert cond] *)
Definition py_assert (cond : bool) : result unit :=
  if cond then Ok tt else Raise AssertionError.

(** [for x in l: body], threading the variables the body assigns; an
    exception leaves the loop. *)
Fixpoint for_each {S A} (l : list A) (body : S -> A -> result S) (s : S) : result S :=
  match l with
  | [] => Ok s
  | x :: l' =>
      match body s x with
      | Ok s' => for_each l' body s'
      | Raise e => Raise e
      end
  end.

(** [l[i]] on a list, a tuple or the first axis of an array: a negative
    index counts from the end, anything outside [-len, len) raises. *)
Definition py_index {A} (l : list A) (i : Z) : result A :=
  let n := Z.of_nat (length l) in
  let k := if i <? 0 then i + n else i in
  if (0 <=? k) && (k <? n) then
    match l !! Z.to_nat k with
    | Some x => Ok x
    | None => Raise IndexError
    end
  else Raise IndexError.

(** [a[[j]]]: numpy indexing of the first axis by a list of positions. *)
Definition np_take {A} (a : list A) (js : list Z) : result (list A) :=
  mapM (py_index a) js.

(** [sum(xs)] over integers. *)
Definition py_sum (xs : list Z) : Z := fold_left Z.add xs 0.

(** The sum of a list of integers, as a spec writes it. *)
Definition Zsum (l : list Z) : Z := foldr Z.add 0 l.

(** [enumerate(l)] *)
Fixpoint enumerate_from {A} (k : Z) (l : list A) : list (Z * A) :=
  match l with
  | [] => []
  | x :: l' => (k, x) :: enumerate_from (k + 1) l'
  end.
Definition enumerate {A} (l : list A) : list (Z * A) := enumerate_from 0 l.

(** [range(n)] *)
Definition range (n : Z) : list Z := seqZ 0 n.

(** [math.ceil(n / s)] for integers [n] and [s <> 0].  The quotient is a
    binary64 value; it is the exact ceiling as long as the operands stay
    below 2^53, which frame counts do. *)
Definition ceil_div (n s : Z) : Z := - ((- n) / s).

(** The elements of [l] at positions [c], [c + s], [c + 2 s], ... *)
Fixpoint stride_from {A} (s c : nat) (l : list A) : list A :=
  match l with
  | [] => []
  | x :: l' =>
      match c with
      | O => x :: stride_from s (Nat.pred s) l'
      | S c' => stride_from s c' l'
      end
  end.

(** [a[::s]] on the first axis. *)
Definition slice_step {A} (l : list A) (s : Z) : result (list A) :=
  if s =? 0 then Raise ValueError
  else if 0 <? s then Ok (stride_from (Z.to_nat s) 0 l)
  else Ok (stride_from (Z.to_nat (- s)) 0 (rev l)).

(** A Python [dict] (and an HDF5 group), in insertion (iteration) order. *)
Definition dict (K V : Type) : Type := list (K * V).

Section Dict.
Context {K V : Type} `{EqDecision K}.

Fixpoint dict_get (d : dict K V) (k : K) : option V :=
  match d with
  | [] => None
  | (k', v) :: d' => if decide (k = k') then Some v else dict_get d' k
  end.

(** [k in d] *)
Definition dict_mem (d : dict K V) (k : K) : bool :=
  match dict_get d k with Some _ => true | None => false end.

(** [d[k] = v] *)
Fixpoint dict_set (d : dict K V) (k : K) (v : V) : dict K V :=
  match d with
  | [] => [(k, v)]
  | (k', v') :: d' =>
      if decide (k = k') then (k', v) :: d' else (k', v') :: dict_set d' k v
  end.

(** [d.keys()] *)
Definition dict_keys (d : dict K V) : list K := map fst d.

(** [d[k]] *)
Definition dict_getitem (d : dict K V) (k : K) : result V :=
  match dict_get d k with
  | Some v => Ok v
  | None => Raise KeyError
  end.
End Dict.

(** [os.path.join(a, b)] on POSIX paths. *)
Definition path_join (a b : string) : string :=
  match b with
  | String "/"%char _ => b
  | _ =>
      if (String.eqb a "" || String.eqb (substring (String.length a - 1) 1 a) "/")%bool
      then a +:+ b
      else a +:+ "/" +:+ b
  end.

End Py.
Import Py.

(** ** Arrays *)

(** A numeric array of rank 3, as [h5py] and [numpy] hand it over: the frames
    along the first axis, and the sizes of the two other axes, which an array
    keeps even when it has no frame. *)
Record Array3 : Type := {
  arr_frames : list (list (list float));
  arr_shape1 : Z;
  arr_shape2 : Z
}.

Definition shape0 (a : Array3) : Z := Z.of_nat (length (arr_frames a)).

(** Every frame has [arr_shape1] rows of [arr_shape2] entries. *)
Definition Array3_wf (a : Array3) : bool :=
  forallb (fun fr =>
    (Z.of_nat (length fr) =? arr_shape1 a)
    && forallb (fun row => Z.of_nat (length row) =? arr_shape2 a) fr)
    (arr_frames a).

(** The cast of a binary64 value to [float32], round to nearest even, written
    back as the binary64 value that holds it. *)
Definition to_float32 (x : float) : float :=
  match Prim2SF x with
  | S754_finite s m e =>
      match binary_round 24 128 s m e with
      | S754_finite s' m' e' => SF2Prim (binary_round 53 1024 s' m' e')
      | r => SF2Prim r
      end
  | _ => x
  end.

Definition frame_map (f : float -> float) (fr : list (list float)) : list (list float) :=
  map (map f) fr.

Definition array_map (f : float -> float) (a : Array3) : Array3 :=
  {| arr_frames := map (frame_map f) (arr_frames a);
     arr_shape1 := arr_shape1 a;
     arr_shape2 := arr_shape2 a |}.

(** ** comp6.py *)

Module COMP6Base.

#[local] Open Scope float_scope.

Definition ELEMENT_ENERGIES : dict Z float :=
  [ (1%Z, -0.500607632585);
    (6%Z, -37.8302333826);
    (7%Z, -54.5680045287);
    (8%Z, -75.0362229210) ].

Definition ATOMIC_NUMBERS : dict string Z :=
  [ ("H"%string, 1%Z); ("C"%string, 6%Z); ("N"%string, 7%Z); ("O"%string, 8%Z) ].

Definition HARTREE_TO_EV : float := 27.211386246.

(** One molecule of an archive: [mol["species"]], [mol["coordinates"]],
    [mol["energies"]] and [mol["forces"]].  The numeric datasets are taken to
    hold float64 values, so that the products with [HARTREE_TO_EV] are
    binary64 products. *)
Record Molecule : Type := {
  species : list string;
  coordinates : Array3;
  energies : list float;
  forces : Array3
}.

(** An archive file: its top-level groups, each a group of molecules. *)
Definition Archive : Type := dict string (dict string Molecule).

(** The fields of a sample, [Data(z=, pos=, y=, neg_dy=[, mol_id=])]. *)
Record Data : Type := {
  z : list Z;
  pos : list (list float);
  y : float;
  neg_dy : list (list float);
  mol_id : option string
}.

(** The part of [self] that [sample_iter] reads; a raw path is the base
    name of the file together with the archive stored there. *)
Record t : Type := {
  raw_paths : list (string * Archive);
  pre_filter : option (Data -> bool);
  pre_transform : option (Data -> Data)
}.

(** [sum(xs)] over floats: Python adds from the integer [0], left to right. *)
Definition float_sum (xs : list float) : float := fold_left PrimFloat.add xs 0.

Definition compute_reference_energy (atomic_numbers : list Z) : result float :=
  es ← mapM (dict_getitem ELEMENT_ENERGIES) atomic_numbers;
  mret (float_sum es * HARTREE_TO_EV).

(** A generator run to its end: what it yielded, and the exception that
    ended it, if one did. *)
Definition gen (A : Type) : Type := (list A * option exn)%type.

Definition gen_of_result {A} (r : result (list A)) : gen A :=
  match r with
  | Ok xs => (xs, None)
  | Raise e => ([], Some e)
  end.

(** [for x in l: yield from body(x)] *)
Fixpoint gen_for {A B} (body : A -> gen B) (l : list A) : gen B :=
  match l with
  | [] => ([], None)
  | x :: l' =>
      match body x with
      | (ys, Some e) => (ys, Some e)
      | (ys, None) => let '(zs, r) := gen_for body l' in (ys ++ zs, r)
      end
  end.

(** [zip(a, b, c)] *)
Fixpoint zip3 {A B C} (a : list A) (b : list B) (c : list C) : list (A * B * C) :=
  match a, b, c with
  | x :: a', y :: b', w :: c' => (x, y, w) :: zip3 a' b' c'
  | _, _, _ => []
  end.

(** The body of the frame loop for one frame. *)
Definition emit (self : t) (tag : option string) (zs : list Z)
    (frame : list (list float) * float * list (list float)) : list Data :=
  let '(p, e, f) := frame in
  let data := {| z := zs; pos := p; y := e; neg_dy := f; mol_id := tag |} in
  if match pre_filter self with
     | Some keep => negb (keep data)
     | None => false
     end
  then []
  else match pre_transform self with
       | Some tr => [tr data]
       | None => [data]
       end.

(** The body of the molecule loop: everything one molecule yields, or the
    exception it raises before its first sample. *)
Definition molecule_samples (self : t) (mol_ids : bool) (path : string)
    (item : string * Molecule) : result (list Data) :=
  let '(id, mol) := item in
  zs ← mapM (dict_getitem ATOMIC_NUMBERS) (species mol);
  let all_pos := array_map to_float32 (coordinates mol) in
  let all_y := map (fun e => e * HARTREE_TO_EV) (energies mol) in
  let all_neg_dy :=
    array_map to_float32 (array_map (fun x => x * HARTREE_TO_EV) (forces mol)) in
  ref ← compute_reference_energy zs;
  let all_y := map (fun e => e - ref) all_y in
  let n_y := Z.of_nat (length all_y) in
  let n_z := Z.of_nat (length zs) in
  _ ← py_assert (shape0 all_pos =? n_y)%Z;
  _ ← py_assert (arr_shape1 all_pos =? n_z)%Z;
  _ ← py_assert (arr_shape2 all_pos =? 3)%Z;
  _ ← py_assert (shape0 all_neg_dy =? n_y)%Z;
  _ ← py_assert (arr_shape1 all_neg_dy =? n_z)%Z;
  _ ← py_assert (arr_shape2 all_neg_dy =? 3)%Z;
  let tag := if mol_ids then Some (path +:+ "_" +:+ id)%string else None in
  mret (flat_map (emit self tag zs)
          (zip3 (arr_frames all_pos) all_y (arr_frames all_neg_dy))).

(** The body of the file loop. *)
Definition archive_samples (self : t) (mol_ids : bool)
    (file : string * Archive) : gen Data :=
  let '(path, archive) := file in
  match py_index (map snd archive) 0 with
  | Raise e => ([], Some e)
  | Ok molecules =>
      gen_for (fun item => gen_of_result (molecule_samples self mol_ids path item))
        molecules
  end.

Definition sample_iter (self : t) (mol_ids : bool) : gen Data :=
  gen_for (archive_samples self mol_ids) (raw_paths self).

(** *** The quantities the properties speak of *)

(** The same object with neither [pre_filter] nor [pre_transform]. *)
Definition plain (self : t) : t :=
  {| raw_paths := raw_paths self; pre_filter := None; pre_transform := None |}.

(** What [pre_filter] decides and what [pre_transform] does, [None] standing
    for no filter and no transform. *)
Definition keeps (self : t) (d : Data) : bool :=
  match pre_filter self with Some keep => keep d | None => true end.

Definition transformed (self : t) (d : Data) : Data :=
  match pre_transform self with Some tr => tr d | None => d end.

(** The six shape assertions of [sample_iter] on a molecule. *)
Definition shapes_ok (mol : Molecule) : bool :=
  ((shape0 (coordinates mol) =? Z.of_nat (length (energies mol)))
   && (arr_shape1 (coordinates mol) =? Z.of_nat (length (species mol)))
   && (arr_shape2 (coordinates mol) =? 3)
   && (shape0 (forces mol) =? Z.of_nat (length (energies mol)))
   && (arr_shape1 (forces mol) =? Z.of_nat (length (species mol)))
   && (arr_shape2 (forces mol) =? 3))%Z.

End COMP6Base.

Module COMP6v1.

Section Aggregator.
Context {Sample : Type}.

(** A sub-dataset as the aggregator uses it: [len(subset)] and
    [subset[i]]. *)
Record Subset : Type := {
  sub_len : nat;
  sub_getitem : Z -> result Sample
}.

Record t : Type := {
  subsets : list Subset;
  num_samples : Z;
  subset_indices : list (Z * Z)
}.

(** The rows [[i_subset, i_sample]] the constructor appends. *)
Definition index_rows (subs : list (Z * Subset)) : list (Z * Z) :=
  flat_map (fun '(i_subset, subset) =>
              map (fun i_sample => (i_subset, i_sample))
                  (range (Z.of_nat (sub_len subset))))
           subs.

(** [__init__], from the sub-datasets already built. *)
Definition init (subs : list Subset) : t :=
  {| subsets := subs;
     num_samples := py_sum (map (fun s => Z.of_nat (sub_len s)) subs);
     subset_indices := index_rows (enumerate subs) |}.

Definition len (self : t) : Z := num_samples self.

(** The first line of [get]: the row of the lookup table. *)
Definition resolve (self : t) (idx : Z) : result (Z * Z) :=
  py_index (subset_indices self) idx.

Definition get (self : t) (idx : Z) : result Sample :=
  '(i_subset, i_sample) ← resolve self idx;
  subset ← py_index (subsets self) i_subset;
  sub_getitem subset i_sample.

(** The lengths of the sub-datasets, in the configured order. *)
Definition lengths (subs : list Subset) : list Z :=
  map (fun s => Z.of_nat (sub_len s)) subs.

End Aggregator.
Arguments Subset : clear implicits.
Arguments t : clear implicits.

End COMP6v1.

(** ** mdcath.py *)

Module mdCATH.

(** *** The archives *)

(** The attributes of one replica group of [mdCATH_source.h5]. *)
Record ReplicaAttrs : Type := {
  attr_numFrames : Z;
  attr_min_gyration_radius : float;
  attr_max_gyration_radius : float;
  attr_alpha : float;
  attr_beta : float;
  attr_coil : float
}.

(** One domain group of [mdCATH_source.h5]: its attributes, and its
    children by temperature label, each a group of replicas. *)
Record SourceDomain : Type := {
  attr_numProteinAtoms : Z;
  attr_numResidues : Z;
  attr_numNoHAtoms : Z;
  children : dict string (dict string ReplicaAttrs)
}.

(** A dataset of a replica of [cath_dataset_<pdb>.h5] with its [unit]
    attribute. *)
Record Dataset3 : Type := {
  value : Array3;
  unit_attr : string
}.

Record ReplicaGroup : Type := {
  coords : Dataset3;
  forces : Dataset3
}.

(** [f[pdb]] of a domain file: the dataset [z] and the groups
    [sims<temp>K]. *)
Record DomainGroup : Type := {
  z : list Z;
  sims : dict string (dict string ReplicaGroup)
}.

(** The directory [root]: the source file and the domain files by name. *)
Record Root : Type := {
  source : dict string SourceDomain;
  files : dict string (dict string DomainGroup)
}.

(** *** The object *)

Record Config : Type := {
  numAtoms : Z;
  numNoHAtoms : option Z;
  numResidues : Z;
  temperatures : list string;
  skipFrames : Z;
  pdb_list : option (list string);
  min_gyration_radius : option float;
  max_gyration_radius : option float;
  alpha_beta_coil : option (float * float * float);
  numFrames : option Z
}.

(** One entry of [self.idx]: the tuple [(z, coords[j], forces[j], [j])]. *)
Definition Entry : Type :=
  (list Z * list (list float) * list (list float) * list Z)%type.

Record t : Type := {
  config : Config;
  idx : option (list Entry);
  to_download : dict string (list (string * string));
  num_conformers : Z
}.

(** The sample [get] returns: [data.z], [data.pos], [data.neg_dy]. *)
Record Data : Type := {
  data_z : list Z;
  data_pos : list (list float);
  data_neg_dy : list (list float)
}.

(** A method: it may update [self], and returns or raises. *)
Definition method (A : Type) : Type := t -> t * result A.

#[export] Instance method_ret : MRet method := fun _ a self => (self, Ok a).
#[export] Instance method_bind : MBind method := fun _ _ f m self =>
  match m self with
  | (self', Ok a) => f a self'
  | (self', Raise e) => (self', Raise e)
  end.

Definition lift {A} (r : result A) : method A := fun self => (self, r).

(** [for x in l: body] inside a method. *)
Fixpoint for_ {A} (l : list A) (body : A -> method unit) : method unit :=
  match l with
  | [] => mret tt
  | x :: l' => _ ← body x; for_ l' body
  end.

(** *** Phase 1: [process_data_source] *)

(** [np.isclose(a, b)] with the default tolerances. *)
Definition isclose (a b : float) : bool :=
  (PrimFloat.leb (abs (a - b)) (1e-8 + 1e-5 * abs b) && is_finite b
   || PrimFloat.eqb a b)%float.

(** The variables [process_data_source] assigns in its loops: the two
    attributes of [self] and the local [temp], unbound until the
    temperature loop binds it. *)
Record Scan : Type := {
  scan_to_download : dict string (list (string * string));
  scan_num_conformers : Z;
  scan_temp : option string
}.

(** The three domain-level tests, [true] when the domain is skipped. *)
Definition domain_rejected (cfg : Config) (pdb_group : SourceDomain) : bool :=
  (numAtoms cfg <? attr_numProteinAtoms pdb_group)
  || (numResidues cfg <? attr_numResidues pdb_group)
  || match numNoHAtoms cfg with
     | Some m => m <? attr_numNoHAtoms pdb_group
     | None => false
     end.

(** The four replica-level tests, [true] when the replica is skipped. *)
Definition replica_rejected (cfg : Config) (a : ReplicaAttrs) : bool :=
  match numFrames cfg with
  | Some m => attr_numFrames a <? m
  | None => false
  end
  || match min_gyration_radius cfg with
     | Some m => PrimFloat.ltb (attr_min_gyration_radius a) m
     | None => false
     end
  || match max_gyration_radius cfg with
     | Some m => PrimFloat.ltb m (attr_max_gyration_radius a)
     | None => false
     end
  || match alpha_beta_coil cfg with
     | Some (alpha, beta, coil) =>
         negb (isclose (attr_alpha a) alpha
               && isclose (attr_beta a) beta
               && isclose (attr_coil a) coil)
     | None => false
     end.

(** [for temp in self.temperatures: if temp not in pdb_group.keys(): continue]:
    the body does nothing in either branch, the loop only binds [temp]. *)
Definition temperature_loop (cfg : Config) (pdb_group : SourceDomain)
    (temp : option string) : option string :=
  fold_left (fun _ label =>
               if negb (dict_mem (children pdb_group) label) then Some label
               else Some label)
            (temperatures cfg) temp.

(** The body of [for replica in pdb_group[temp].keys()]. *)
Definition replica_body (cfg : Config) (pdb temp : string)
    (pdb_group : SourceDomain) (s : Scan) (replica : string) : result Scan :=
  group ← dict_getitem (children pdb_group) temp;
  a ← dict_getitem group replica;
  if replica_rejected cfg a then Ok s
  else
    let td := scan_to_download s in
    let td := if negb (dict_mem td pdb) then dict_set td pdb [] else td in
    pairs ← dict_getitem td pdb;
    let td := dict_set td pdb (pairs ++ [(temp, replica)]) in
    if skipFrames cfg =? 0 then Raise ZeroDivisionError
    else
      Ok {| scan_to_download := td;
            scan_num_conformers :=
              scan_num_conformers s + ceil_div (attr_numFrames a) (skipFrames cfg);
            scan_temp := scan_temp s |}.

(** The body of [for pdb in domains]. *)
Definition domain_body (cfg : Config) (f : dict string SourceDomain)
    (s : Scan) (pdb : string) : result Scan :=
  pdb_group ← dict_getitem f pdb;
  if domain_rejected cfg pdb_group then Ok s
  else
    let s := {| scan_to_download := scan_to_download s;
                scan_num_conformers := scan_num_conformers s;
                scan_temp := temperature_loop cfg pdb_group (scan_temp s) |} in
    match scan_temp s with
    | None => Raise UnboundLocalError
    | Some temp =>
        group ← dict_getitem (children pdb_group) temp;
        for_each (dict_keys group) (replica_body cfg pdb temp pdb_group) s
    end.

Definition process_data_source (cfg : Config) (root : Root) : result Scan :=
  let f := source root in
  let domains :=
    match pdb_list cfg with
    | None => dict_keys f
    | Some l => l
    end in
  for_each domains (domain_body cfg f)
    {| scan_to_download := []; scan_num_conformers := 0; scan_temp := None |}.

(** [__init__] *)
Definition init (cfg : Config) (root : Root) : result t :=
  s ← process_data_source cfg root;
  mret {| config := cfg;
          idx := None;
          to_download := scan_to_download s;
          num_conformers := scan_num_conformers s |}.

Definition len : method Z := fun self => (self, Ok (num_conformers self)).

(** *** Phase 2: [_setup_idx] and [get] *)

Definition array_slice_step (a : Array3) (s : Z) : result Array3 :=
  frames ← slice_step (arr_frames a) s;
  mret {| arr_frames := frames;
          arr_shape1 := arr_shape1 a;
          arr_shape2 := arr_shape2 a |}.

Definition process_specific_group (cfg : Config) (root : Root)
    (pdb file : string) (group_info : string * string)
    : result (list Z * Array3 * Array3) :=
  f ← match dict_get (files root) file with
      | Some f => Ok f
      | None => Raise OSError
      end;
  dom ← dict_getitem f pdb;
  let z := z dom in
  sim ← dict_getitem (sims dom) ("sims" +:+ fst group_info +:+ "K");
  group ← dict_getitem sim (snd group_info);
  coords' ← array_slice_step (value (coords group)) (skipFrames cfg);
  forces' ← array_slice_step (value (forces group)) (skipFrames cfg);
  _ ← py_assert (shape0 coords' =? shape0 forces');
  _ ← py_assert (arr_shape1 coords' =? Z.of_nat (length z));
  _ ← py_assert (arr_shape1 forces' =? Z.of_nat (length z));
  _ ← py_assert (String.eqb (unit_attr (coords group)) "Angstrom");
  _ ← py_assert (String.eqb (unit_attr (forces group)) "kcal/mol/Angstrom");
  mret (z, coords', forces').

(** [self.idx.extend(entries)] *)
Definition idx_extend (entries : list Entry) : method unit := fun self =>
  match idx self with
  | Some l =>
      ({| config := config self;
          idx := Some (l ++ entries);
          to_download := to_download self;
          num_conformers := num_conformers self |}, Ok tt)
  | None => (self, Raise TypeError)
  end.

(** The entries of one replica,
    [[(data[0], data[1][j], data[2][j], [j]) for j in conformer_indices]]. *)
Definition conformer_entries (data : list Z * Array3 * Array3) : result (list Entry) :=
  let '(data0, data1, data2) := data in
  let conformer_indices := range (shape0 data1) in
  mapM (fun j =>
          c ← py_index (arr_frames data1) j;
          f ← py_index (arr_frames data2) j;
          mret (data0, c, f, [j]))
       conformer_indices.

Definition file_name (pdb_id : string) : string :=
  "cath_dataset_" +:+ pdb_id +:+ ".h5".

(** [self.idx = []] *)
Definition idx_reset : method unit := fun self =>
  ({| config := config self;
      idx := Some [];
      to_download := to_download self;
      num_conformers := num_conformers self |}, Ok tt).

(** [assert len(self.idx) == self.num_conformers] *)
Definition idx_check : method unit := fun self =>
  match idx self with
  | Some l => (self, py_assert (Z.of_nat (length l) =? num_conformers self))
  | None => (self, Raise TypeError)
  end.

(** The body of the inner loop of [_setup_idx]. *)
Definition extend_unit (cfg : Config) (root : Root) (files : list string)
    (i : Z) (pdb : string) (pair : string * string) : method unit :=
  let '(temp, replica) := pair in
  file ← lift (py_index files i);
  data ← lift (process_specific_group cfg root pdb file (temp, replica));
  entries ← lift (conformer_entries data);
  idx_extend entries.

(** The two nested loops of [_setup_idx]. *)
Definition idx_build (cfg : Config) (root : Root) (files : list string)
    (items : dict string (list (string * string))) : method unit :=
  for_ (enumerate items) (fun '(i, (pdb, group_info)) =>
    for_ group_info (extend_unit cfg root files i pdb)).

Definition _setup_idx (root : Root) : method unit := fun self =>
  let files := map file_name (dict_keys (to_download self)) in
  (_ ← idx_reset;
   _ ← idx_build (config self) root files (to_download self);
   idx_check) self.

(** The fields of the sample [get] builds from an entry. *)
Definition sample_of_entry (entry : Entry) : result Data :=
  let '(fields_data0, fields_data1, fields_data2, i) := entry in
  z ← np_take fields_data0 i;
  pos ← np_take fields_data1 i;
  neg_dy ← np_take fields_data2 i;
  mret {| data_z := z;
          data_pos := frame_map to_float32 pos;
          data_neg_dy := frame_map to_float32 neg_dy |}.

(** [self.idx[index]] *)
Definition idx_getitem (index : Z) : method Entry := fun self =>
  match idx self with
  | Some l => (self, py_index l index)
  | None => (self, Raise TypeError)
  end.

Definition get (root : Root) (index : Z) : method Data := fun self =>
  (_ ← match idx self with
       | None => _setup_idx root
       | Some _ => mret tt
       end;
   entry ← idx_getitem index;
   lift (sample_of_entry entry)) self.

(** *** The quantities the properties speak of *)

(** The (domain, temperature, replica) units of a qualifying set, in the
    order phase 2 visits them. *)
Definition units (td : dict string (list (string * string)))
    : list (string * (string * string)) :=
  flat_map (fun '(pdb, group_info) => map (pair pdb) group_info) td.

(** The replica group of a unit in the source file. *)
Definition unit_attrs (root : Root) (u : string * (string * string))
    : option ReplicaAttrs :=
  let '(pdb, (temp, replica)) := u in
  pdb_group ← dict_get (source root) pdb;
  group ← dict_get (children pdb_group) temp;
  dict_get group replica.

(** The frames a unit contributes to the count of phase 1. *)
Definition unit_count (cfg : Config) (root : Root) (u : string * (string * string)) : Z :=
  match unit_attrs root u with
  | Some a => ceil_div (attr_numFrames a) (skipFrames cfg)
  | None => 0
  end.

(** The sum, over the units, of ceil(unit frame count / stride). *)
Definition frame_total (cfg : Config) (root : Root)
    (us : list (string * (string * string))) : Z :=
  Zsum (map (unit_count cfg root) us).

(** The configuration with another list of temperature labels. *)
Definition with_temperatures (labels : list string) (cfg : Config) : Config :=
  {| numAtoms := numAtoms cfg;
     numNoHAtoms := numNoHAtoms cfg;
     numResidues := numResidues cfg;
     temperatures := labels;
     skipFrames := skipFrames cfg;
     pdb_list := pdb_list cfg;
     min_gyration_radius := min_gyration_radius cfg;
     max_gyration_radius := max_gyration_radius cfg;
     alpha_beta_coil := alpha_beta_coil cfg;
     numFrames := numFrames cfg |}.

(** A unit as the scan qualifies it: its domain passes the domain-level
    tests, its temperature label is the one [temp] is bound to when the
    replica loop runs, its replica is in the source file under that label and
    passes the replica-level tests. *)
Definition scanned (cfg : Config) (root : Root) (u : string * (string * string)) : Prop :=
  let '(pdb, (temp, replica)) := u in
  ∃ pdb_group group a,
    dict_get (source root) pdb = Some pdb_group
    ∧ domain_rejected cfg pdb_group = false
    ∧ last (temperatures cfg) = Some temp
    ∧ dict_get (children pdb_group) temp = Some group
    ∧ dict_get group replica = Some a
    ∧ replica_rejected cfg a = false.

(** A unit whose domain file agrees with the source file: the file is
    there, its two arrays have as many frames as the [numFrames] attribute
    says, one row per atomic number, and the expected units. *)
Definition unit_consistent (root : Root) (u : string * (string * string)) : Prop :=
  let '(pdb, (temp, replica)) := u in
  ∃ a f dom sim group,
    unit_attrs root u = Some a
    ∧ dict_get (files root) (file_name pdb) = Some f
    ∧ dict_get f pdb = Some dom
    ∧ dict_get (sims dom) ("sims" +:+ temp +:+ "K") = Some sim
    ∧ dict_get sim replica = Some group
    ∧ shape0 (value (coords group)) = attr_numFrames a
    ∧ shape0 (value (forces group)) = attr_numFrames a
    ∧ arr_shape1 (value (coords group)) = Z.of_nat (length (z dom))
    ∧ arr_shape1 (value (forces group)) = Z.of_nat (length (z dom))
    ∧ unit_attr (coords group) = "Angstrom"
    ∧ unit_attr (forces group) = "kcal/mol/Angstrom".

(** Two states of the object that differ at most in the flat index. *)
Definition same_counts (self self' : t) : Prop :=
  config self' = config self
  ∧ to_download self' = to_download self
  ∧ num_conformers self' = num_conformers self.

(** The object between two calls that returned: the flat index is either
    not built, or built with the length phase 1 counted. *)
Definition settled (self : t) : Prop :=
  match idx self with
  | None => True
  | Some l => Z.of_nat (length l) = num_conformers self
  end.

(** [raw_file_names]; [self] is [None] as long as [process_data_source]
    has not set [to_download]. *)
Definition raw_file_names (self : option t) : list string :=
  match self with
  | None => ["mdCATH_source.h5"%string]
  | Some self => map file_name (dict_keys (to_download self))
  end.

Definition url : string := "https://zenodo.org/record/<record_id>/files/".

(** [download]: the URLs it hands to [download_url], in order. *)
Definition download (self : option t) : list string :=
  match self with
  | None => [path_join url "mdCATH_source.h5"]
  | Some self =>
      match to_download self with
      | [] => [path_join url "mdCATH_source.h5"]
      | _ :: _ =>
          map (fun pdb_id => path_join url (file_name pdb_id))
              (dict_keys (to_download self))
      end
  end.

(** A pair is in the list a key of the qualifying set owns. *)
Definition recorded (td : dict string (list (string * string)))
    (pdb : string) (p : string * string) : Prop :=
  ∃ pairs, dict_get td pdb = Some pairs ∧ In p pairs.

(** The candidate domains of the scan. *)
Definition domains (cfg : Config) (root : Root) : list string :=
  match pdb_list cfg with
  | None => dict_keys (source root)
  | Some l => l
  end.

(** The pairs of a candidate domain that pass: none unless the domain is in
    the source file, passes the domain-level tests and holds the last
    requested label; otherwise that label with each replica, in the order of
    the source file, that passes the replica-level tests. *)
Definition qualifying_pairs (cfg : Config) (root : Root) (pdb : string)
    : list (string * string) :=
  match dict_get (source root) pdb, last (temperatures cfg) with
  | Some pdb_group, Some temp =>
      if domain_rejected cfg pdb_group then []
      else
        match dict_get (children pdb_group) temp with
        | Some group =>
            map (pair temp)
              (List.filter
                 (fun replica =>
                    match dict_get group replica with
                    | Some a => negb (replica_rejected cfg a)
                    | None => false
                    end)
                 (dict_keys group))
        | None => []
        end
  | _, _ => []
  end.

(** A qualifying set extended by the pairs of one more domain. *)
Definition with_pairs (base : dict string (list (string * string)))
    (pdb : string) (pairs : list (string * string))
    : dict string (list (string * string)) :=
  match pairs with
  | [] => base
  | _ :: _ => base ++ [(pdb, pairs)]
  end.

(** The qualifying set as a comprehension over the candidate domains. *)
Definition expected_to_download (cfg : Config) (root : Root) (candidates : list string)
    : dict string (list (string * string)) :=
  flat_map (fun pdb => with_pairs [] pdb (qualifying_pairs cfg root pdb)) candidates.

(** The entries the inner loop of [_setup_idx] appends for a unit. *)
Definition unit_entries (cfg : Config) (root : Root) (u : string * (string * string))
    : result (list Entry) :=
  let '(pdb, group_info) := u in
  data ← process_specific_group cfg root pdb (file_name pdb) group_info;
  conformer_entries data.

(** [n] calls of [len] in a row: the object afterwards, and the values
    returned. *)
Fixpoint len_calls (n : nat) (self : t) : t * list (result Z) :=
  match n with
  | O => (self, [])
  | S n' =>
      let '(self', r) := len self in
      let '(self'', rs) := len_calls n' self' in
      (self'', r :: rs)
  end.

End mdCATH.

(** ** Concrete archives and objects

    Small inputs on which the definitions above are evaluated. *)

Module Scenario.

(** A sub-dataset of [n] samples; its sample [j] is the pair of its name
    and [j]. *)
Definition listed (name : string) (n : nat) : COMP6v1.Subset (string * Z) :=
  {| COMP6v1.sub_len := n;
     COMP6v1.sub_getitem := fun j =>
       if (0 <=? j) && (j <? Z.of_nat n) then Ok (name, j) else Raise IndexError |}.

(** The aggregator over two sub-datasets of lengths 3 and 4. *)
Definition agg34 : COMP6v1.t (string * Z) :=
  COMP6v1.init [listed "a"%string 3; listed "b"%string 4].

End Scenario.

Module EnumeratorScenario.
#[local] Open Scope float_scope.

Definition frame (x : float) : list (list float) := [[x; 0; 0]; [0; x; 0]].

Definition array2 (a b : float) : Array3 :=
  {| arr_frames := [frame a; frame b]; arr_shape1 := 2; arr_shape2 := 3 |}.

(** Two hydrogen atoms, two frames. *)
Definition mol_h2 : COMP6Base.Molecule :=
  {| COMP6Base.species := ["H"; "H"]%string;
     COMP6Base.coordinates := array2 0.5 0.75;
     COMP6Base.energies := [-1; -1.25];
     COMP6Base.forces := array2 0.125 0.25 |}.

(** The same molecule with a symbol outside the table. *)
Definition mol_xe : COMP6Base.Molecule :=
  {| COMP6Base.species := ["H"; "Xe"]%string;
     COMP6Base.coordinates := array2 0.5 0.75;
     COMP6Base.energies := [-1; -1.25];
     COMP6Base.forces := array2 0.125 0.25 |}.

Definition molecules_bad : dict string COMP6Base.Molecule :=
  [("m0", mol_h2); ("m1", mol_xe); ("m2", mol_h2)]%string.

Definition archive_bad : COMP6Base.Archive := [("group"%string, molecules_bad)].

Definition archive_ok : COMP6Base.Archive := [("group"%string, [("m0"%string, mol_h2)])].

Definition enum_bad : COMP6Base.t :=
  {| COMP6Base.raw_paths := [("a.h5"%string, archive_bad); ("b.h5"%string, archive_ok)];
     COMP6Base.pre_filter := None;
     COMP6Base.pre_transform := None |}.

Definition enum_ok : COMP6Base.t :=
  {| COMP6Base.raw_paths := [("b.h5"%string, archive_ok)];
     COMP6Base.pre_filter := None;
     COMP6Base.pre_transform := None |}.

End EnumeratorScenario.

Module IndexerScenario.
Import mdCATH.
#[local] Open Scope float_scope.

Definition replica_attrs (n : Z) : ReplicaAttrs :=
  {| attr_numFrames := n;
     attr_min_gyration_radius := 1.25;
     attr_max_gyration_radius := 1.75;
     attr_alpha := 0.25;
     attr_beta := 0.25;
     attr_coil := 0.5 |}.

(** One domain of 50 atoms and 10 residues, with one replica of 7 frames at
    320 K and two replicas of 10 and 5 frames at 348 K. *)
Definition domain_1abc : SourceDomain :=
  {| attr_numProteinAtoms := 50;
     attr_numResidues := 10;
     attr_numNoHAtoms := 25;
     children :=
       [ ("320", [("0", replica_attrs 7)]);
         ("348", [("0", replica_attrs 10); ("1", replica_attrs 5)]) ]%string |}.

(** The frame of two atoms whose coordinates are all [x]. *)
Definition flat_frame (x : float) : list (list float) := [[x; x; x]; [x; x; x]].

(** [n] frames of two atoms; frame [k] holds the value [k]. *)
Definition frames (n : nat) : Array3 :=
  {| arr_frames := map (fun k => flat_frame (PrimFloat.of_uint63 (Uint63.of_Z (Z.of_nat k))))
                       (seq 0 n);
     arr_shape1 := 2;
     arr_shape2 := 3 |}.

Definition replica_group (n : nat) : ReplicaGroup :=
  {| coords := {| value := frames n; unit_attr := "Angstrom" |};
     forces := {| value := frames n; unit_attr := "kcal/mol/Angstrom" |} |}.

(** The domain file of the domain above: a carbon and a hydrogen atom. *)
Definition file_1abc : dict string DomainGroup :=
  [ ("1abc"%string,
     {| z := [6; 1]%Z;
        sims := [ ("sims320K", [("0", replica_group 7)]);
                  ("sims348K", [("0", replica_group 10); ("1", replica_group 5)])
                ]%string |}) ].

Definition root : Root :=
  {| source := [("1abc"%string, domain_1abc)];
     files := [("cath_dataset_1abc.h5"%string, file_1abc)] |}.

(** The default configuration, for the given labels and stride. *)
Definition cfg (labels : list string) (stride : Z) : Config :=
  {| numAtoms := 5000;
     numNoHAtoms := None;
     numResidues := 1000;
     temperatures := labels;
     skipFrames := stride;
     pdb_list := None;
     min_gyration_radius := None;
     max_gyration_radius := None;
     alpha_beta_coil := None;
     numFrames := None |}.

(** The object [__init__] builds for the label 348 and the given stride. *)
Definition indexer (stride : Z) : t :=
  {| config := cfg ["348"%string] stride;
     idx := None;
     to_download := [("1abc", [("348", "0"); ("348", "1")])]%string;
     num_conformers := ceil_div 10 stride + ceil_div 5 stride |}.

End IndexerScenario.

Module EnumeratorScenarioMore.
#[local] Open Scope float_scope.

(** Two hydrogen atoms with two coordinate frames and one energy. *)
Definition mol_short : COMP6Base.Molecule :=
  {| COMP6Base.species := ["H"; "H"]%string;
     COMP6Base.coordinates := EnumeratorScenario.array2 0.5 0.75;
     COMP6Base.energies := [-1];
     COMP6Base.forces := EnumeratorScenario.array2 0.125 0.25 |}.

(** Three files, the second without any group. *)
Definition enum_empty : COMP6Base.t :=
  {| COMP6Base.raw_paths :=
       [("b.h5"%string, EnumeratorScenario.archive_ok);
        ("empty.h5"%string, []);
        ("c.h5"%string, EnumeratorScenario.archive_ok)];
     COMP6Base.pre_filter := None;
     COMP6Base.pre_transform := None |}.

End EnumeratorScenarioMore.

Module IndexerScenarioMore.
Import mdCATH.

(** The default configuration for the label 348 and stride 1, restricted to
    the listed domains. *)
Definition cfg_listed (l : list string) : Config :=
  {| numAtoms := 5000;
     numNoHAtoms := None;
     numResidues := 1000;
     temperatures := ["348"%string];
     skipFrames := 1;
     pdb_list := Some l;
     min_gyration_radius := None;
     max_gyration_radius := None;
     alpha_beta_coil := None;
     numFrames := None |}.

(** The object [__init__] builds when no domain is listed. *)
Definition empty_indexer : t :=
  {| config := cfg_listed [];
     idx := None;
     to_download := [];
     num_conformers := 0 |}.

End IndexerScenarioMore.

(** ** The qualifying units in the words of the specification

    The second definition the frame-count invariant is compared with: it
    follows the specification (the qualification scan, steps 1 and 2), not
    [process_data_source]. *)

Module mdCATHSpec.
Import mdCATH.

(** The replicas of a temperature group that pass every replica-level
    test, in the order of the source file. *)
Definition passing_replicas (cfg : Config) (group : dict string ReplicaAttrs)
    : list string :=
  List.filter
    (fun replica =>
       match dict_get group replica with
       | Some a => negb (replica_rejected cfg a)
       | None => false
       end)
    (dict_keys group).

(** For each candidate domain that passes the domain-level tests, for each
    requested temperature label present for that domain, every replica that
    passes the replica-level tests; a requested label the domain does not
    hold contributes nothing. *)
Definition qualifying_units (cfg : Config) (root : Root)
    : list (string * (string * string)) :=
  flat_map
    (fun pdb =>
       match dict_get (source root) pdb with
       | Some pdb_group =>
           if domain_rejected cfg pdb_group then []
           else
             flat_map
               (fun temp =>
                  match dict_get (children pdb_group) temp with
                  | Some group =>
                      map (fun replica => (pdb, (temp, replica)))
                          (passing_replicas cfg group)
                  | None => []
                  end)
               (temperatures cfg)
       | None => []
       end)
    (domains cfg root).

(** The total the specification asks of phase 1: the sum, over all
    qualifying units, of ceil(unit frame count / stride). *)
Definition total_frame_count (cfg : Config) (root : Root) : Z :=
  frame_total cfg root (qualifying_units cfg root).

End mdCATHSpec.

Module MismatchScenario.
Import mdCATH.

(** The domain file of [IndexerScenario] with a frame missing: replica 0 at
    348 K holds 9 frames where the source file announces 10. *)
Definition file_short : dict string DomainGroup :=
  [ ("1abc"%string,
     {| z := [6; 1]%Z;
        sims := [ ("sims320K", [("0", IndexerScenario.replica_group 7)]);
                  ("sims348K", [("0", IndexerScenario.replica_group 9);
                                ("1", IndexerScenario.replica_group 5)])
                ]%string |}) ].

Definition root_short : Root :=
  {| source := source IndexerScenario.root;
     files := [("cath_dataset_1abc.h5"%string, file_short)] |}.

End MismatchScenario.

(** * Properties *)

(** ** Python sequences and dictionaries *)

Lemma fold_left_Zadd (l : list Z) (a : Z) : fold_left Z.add l a = a + Zsum l.
Proof.
  revert a; induction l as [|x l IH]; intros a; simpl; [lia|].
  rewrite IH. lia.
Qed.

Lemma py_sum_Zsum (l : list Z) : py_sum l = Zsum l.
Proof. unfold py_sum. rewrite fold_left_Zadd. lia. Qed.

Lemma Zsum_app (l1 l2 : list Z) : Zsum (l1 ++ l2) = Zsum l1 + Zsum l2.
Proof. induction l1 as [|x l1 IH]; simpl; lia. Qed.

Lemma py_index_lookup {A} (l : list A) (i : Z) (x : A) :
  0 <= i -> l !! Z.to_nat i = Some x -> py_index l i = Ok x.
Proof.
  intros Hi Hl. unfold py_index.
  apply lookup_lt_Some in Hl as Hlt.
  destruct (Z.ltb_spec i 0); [lia|].
  destruct (Z.leb_spec 0 i); [|lia].
  destruct (Z.ltb_spec i (Z.of_nat (length l))); [|lia]. simpl.
  by rewrite Hl.
Qed.

Lemma py_index_in_range {A} (l : list A) (i : Z) :
  0 <= i < Z.of_nat (length l) -> ∃ x, l !! Z.to_nat i = Some x ∧ py_index l i = Ok x.
Proof.
  intros Hi. destruct (lookup_lt_is_Some_2 l (Z.to_nat i)) as [x Hx]; [lia|].
  exists x. split; [done|]. apply py_index_lookup; [lia|done].
Qed.

Lemma py_index_from_end {A} (l : list A) (i : Z) :
  - Z.of_nat (length l) <= i < 0 -> py_index l i = py_index l (Z.of_nat (length l) + i).
Proof.
  intros Hi. unfold py_index.
  destruct (Z.ltb_spec i 0); [|lia].
  destruct (Z.ltb_spec (Z.of_nat (length l) + i) 0); [lia|].
  replace (i + Z.of_nat (length l)) with (Z.of_nat (length l) + i) by lia.
  reflexivity.
Qed.

Lemma py_index_out_of_range {A} (l : list A) (i : Z) :
  Z.of_nat (length l) <= i ∨ i < - Z.of_nat (length l) -> py_index l i = Raise IndexError.
Proof.
  intros Hi. unfold py_index.
  destruct (Z.ltb_spec i 0).
  - destruct (Z.leb_spec 0 (i + Z.of_nat (length l))); [|done].
    destruct (Z.ltb_spec (i + Z.of_nat (length l)) (Z.of_nat (length l))); [|done]. lia.
  - destruct (Z.leb_spec 0 i); [|done].
    destruct (Z.ltb_spec i (Z.of_nat (length l))); [lia|done].
Qed.

Lemma py_index_Ok {A} (l : list A) (i : Z) (x : A) :
  py_index l i = Ok x ->
  - Z.of_nat (length l) <= i < Z.of_nat (length l)
  ∧ l !! Z.to_nat (if i <? 0 then i + Z.of_nat (length l) else i) = Some x.
Proof.
  unfold py_index. intros H.
  destruct (Z.leb_spec 0 (if i <? 0 then i + Z.of_nat (length l) else i)); [|done].
  destruct (Z.ltb_spec (if i <? 0 then i + Z.of_nat (length l) else i)
              (Z.of_nat (length l))); [|done].
  simpl in H.
  destruct (l !! Z.to_nat _) eqn:E; [|done].
  split; [|congruence].
  destruct (Z.ltb_spec i 0); lia.
Qed.

Section DictFacts.
Context {K V : Type} `{EqDecision K}.
Implicit Types (d : dict K V) (k : K) (v : V).

Lemma dict_get_set d k v k' :
  dict_get (dict_set d k v) k' = if decide (k' = k) then Some v else dict_get d k'.
Proof.
  induction d as [|[k0 v0] d IH]; simpl.
  - repeat case_decide; congruence.
  - destruct (decide (k = k0)) as [->|Hne]; simpl.
    + repeat case_decide; congruence.
    + rewrite IH. repeat case_decide; congruence.
Qed.

Lemma dict_get_Some_In d k v : dict_get d k = Some v -> In (k, v) d.
Proof.
  induction d as [|[k0 v0] d IH]; simpl; [done|].
  case_decide; [intros [= ->]; subst; auto | auto].
Qed.

Lemma dict_get_keys d k : In k (dict_keys d) -> ∃ v, dict_get d k = Some v.
Proof.
  induction d as [|[k0 v0] d IH]; simpl; [done|].
  intros [->|Hin]; case_decide; eauto; congruence.
Qed.

Lemma dict_mem_keys d k : dict_mem d k = true <-> In k (dict_keys d).
Proof.
  unfold dict_mem. split.
  - destruct (dict_get d k) eqn:E; [|done]. intros _.
    apply dict_get_Some_In in E. apply (in_map fst) in E. exact E.
  - intros [v Hv]%dict_get_keys. by rewrite Hv.
Qed.

Lemma dict_keys_set_NoDup d k v : NoDup (dict_keys d) -> NoDup (dict_keys (dict_set d k v)).
Proof.
  assert (Hin : ∀ d k0, In k0 (dict_keys (dict_set d k v)) -> k0 = k ∨ In k0 (dict_keys d)).
  { clear. induction d as [|[k1 v1] d IH]; simpl; intros k0.
    - intros [->|[]]; auto.
    - case_decide; simpl; [tauto|]. intros [->|Hin]; [tauto|].
      apply IH in Hin. tauto. }
  induction d as [|[k0 v0] d IH]; simpl; intros Hnd.
  - constructor; [rewrite list_elem_of_In; simpl; tauto | constructor].
  - apply NoDup_cons in Hnd as [Hnotin Hnd].
    case_decide; simpl.
    + apply NoDup_cons; done.
    + apply NoDup_cons. split; [|auto].
      rewrite list_elem_of_In in *. intros Hin'%Hin. destruct Hin'; [congruence|done].
Qed.

Lemma dict_get_In_NoDup d k v : NoDup (dict_keys d) -> In (k, v) d -> dict_get d k = Some v.
Proof.
  induction d as [|[k0 v0] d IH]; simpl; [done|].
  intros [Hnotin Hnd]%NoDup_cons [[= -> ->]|Hin].
  - by case_decide.
  - case_decide; [|auto]. subst. exfalso. apply Hnotin.
    rewrite list_elem_of_In. apply (in_map fst) in Hin. exact Hin.
Qed.
End DictFacts.

(** ** Strides *)

(** For a positive stride the quotient is the least number of strides that
    cover [n]. *)
Lemma ceil_div_spec (n s q : Z) : 0 < s -> (ceil_div n s <= q <-> n <= q * s).
Proof.
  intros Hs. unfold ceil_div.
  pose proof (Z.div_mod (- n) s ltac:(lia)).
  pose proof (Z.mod_pos_bound (- n) s Hs).
  split; intros; nia.
Qed.

(** For a negative stride it is still the ceiling of the quotient. *)
Lemma ceil_div_spec_neg (n s q : Z) : s < 0 -> (ceil_div n s <= q <-> q * s <= n).
Proof.
  intros Hs. unfold ceil_div.
  pose proof (Z.div_mod (- n) s ltac:(lia)).
  pose proof (Z.mod_neg_bound (- n) s Hs).
  split; intros; nia.
Qed.

Lemma ceil_div_1 (n : Z) : ceil_div n 1 = n.
Proof. unfold ceil_div. rewrite Z.div_1_r. lia. Qed.

Lemma length_stride_from {A} (s c : nat) (l : list A) :
  (0 < s)%nat ->
  Z.of_nat (length (stride_from s c l))
  = Z.max 0 (ceil_div (Z.of_nat (length l) - Z.of_nat c) (Z.of_nat s)).
Proof.
  intros Hs. revert c. induction l as [|x l IH]; intros c; simpl length.
  - simpl. unfold ceil_div.
    pose proof (Z.div_mod (- (Z.of_nat 0 - Z.of_nat c)) (Z.of_nat s) ltac:(lia)).
    pose proof (Z.mod_pos_bound (- (Z.of_nat 0 - Z.of_nat c)) (Z.of_nat s) ltac:(lia)).
    nia.
  - destruct c as [|c]; simpl stride_from; simpl length.
    + rewrite !Nat2Z.inj_succ, IH. unfold ceil_div.
      set (n := Z.of_nat (length l)). set (k := Z.of_nat s).
      assert (Hk : 0 < k) by lia. assert (Hn : 0 <= n) by lia.
      replace (Z.of_nat (Nat.pred s)) with (k - 1) by lia.
      assert (E : (- (Z.succ n - Z.of_nat 0)) / k = (- (n - (k - 1))) / k - 1).
      { replace (- (Z.succ n - Z.of_nat 0)) with (- (n - (k - 1)) + (-1) * k) by lia.
        rewrite Z.div_add by lia. lia. }
      rewrite E.
      pose proof (Z.div_mod (- (n - (k - 1))) k ltac:(lia)).
      pose proof (Z.mod_pos_bound (- (n - (k - 1))) k ltac:(lia)).
      nia.
    + rewrite IH. f_equal. f_equal. lia.
Qed.

Lemma length_slice_step {A} (l : list A) (s : Z) :
  0 < s ->
  ∃ l', slice_step l s = Ok l' ∧ Z.of_nat (length l') = ceil_div (Z.of_nat (length l)) s.
Proof.
  intros Hs. unfold slice_step.
  destruct (Z.eqb_spec s 0); [lia|].
  destruct (Z.ltb_spec 0 s); [|lia].
  eexists; split; [reflexivity|].
  rewrite length_stride_from by lia.
  rewrite Z2Nat.id by lia. rewrite Z.sub_0_r.
  assert (0 <= ceil_div (Z.of_nat (length l)) s); [|lia].
  destruct (Z.le_gt_cases 0 (ceil_div (Z.of_nat (length l)) s)) as [?|Hlt]; [done|].
  assert (ceil_div (Z.of_nat (length l)) s <= -1) as Hle by lia.
  apply ceil_div_spec in Hle; lia.
Qed.

(** ** The suite aggregator *)

Lemma enumerate_from_app {A} (k : Z) (l1 l2 : list A) :
  enumerate_from k (l1 ++ l2)
  = enumerate_from k l1 ++ enumerate_from (k + Z.of_nat (length l1)) l2.
Proof.
  revert k; induction l1 as [|x l1 IH]; intros k; simpl.
  - f_equal. lia.
  - rewrite IH. do 3 f_equal. lia.
Qed.

Section AggregatorFacts.
Context {Sample : Type}.
Implicit Types (subs pre post : list (COMP6v1.Subset Sample)).
Implicit Types (sub : COMP6v1.Subset Sample).
Import COMP6v1.

Lemma length_index_rows k subs :
  Z.of_nat (length (index_rows (enumerate_from k subs))) = Zsum (lengths subs).
Proof.
  revert k; induction subs as [|sub subs IH]; intros k; simpl; [done|].
  rewrite length_app, Nat2Z.inj_add, IH, length_map.
  unfold range. rewrite length_seqZ. lia.
Qed.

Lemma index_rows_split k pre sub post :
  index_rows (enumerate_from k (pre ++ sub :: post))
  = index_rows (enumerate_from k pre)
    ++ map (pair (k + Z.of_nat (length pre))) (range (Z.of_nat (sub_len sub)))
    ++ index_rows (enumerate_from (k + Z.of_nat (length pre) + 1) post).
Proof.
  rewrite enumerate_from_app. unfold index_rows at 1.
  rewrite flat_map_app. reflexivity.
Qed.

Lemma Zsum_lengths_nonneg subs : 0 <= Zsum (lengths subs).
Proof. induction subs; simpl; lia. Qed.

Lemma len_init subs : len (init subs) = Zsum (lengths subs).
Proof. unfold len, init; simpl. by rewrite py_sum_Zsum. Qed.

Lemma length_subset_indices subs :
  Z.of_nat (length (subset_indices (init subs))) = len (init subs).
Proof. rewrite len_init. apply length_index_rows. Qed.

(** Row [offset + j] of the table names sub-dataset [length pre] and its
    local index [j]. *)
Lemma resolve_row pre sub post j :
  0 <= j < Z.of_nat (sub_len sub) ->
  resolve (init (pre ++ sub :: post)) (Zsum (lengths pre) + j)
  = Ok (Z.of_nat (length pre), j).
Proof.
  intros Hj. unfold resolve. simpl. unfold enumerate.
  pose proof (Zsum_lengths_nonneg pre) as Hpre.
  apply py_index_lookup; [lia|].
  rewrite index_rows_split.
  pose proof (length_index_rows 0 pre) as Hlen.
  rewrite lookup_app_r by lia.
  rewrite lookup_app_l.
  2:{ rewrite length_map. unfold range. rewrite length_seqZ. lia. }
  rewrite list_lookup_fmap. unfold range.
  replace (Z.to_nat (Zsum (lengths pre) + j) - length (index_rows (enumerate_from 0 pre)))%nat
    with (Z.to_nat j) by lia.
  rewrite lookup_seqZ_lt by lia. simpl. do 2 f_equal; lia.
Qed.

Lemma get_row pre sub post j :
  0 <= j < Z.of_nat (sub_len sub) ->
  get (init (pre ++ sub :: post)) (Zsum (lengths pre) + j) = sub_getitem sub j.
Proof.
  intros Hj. unfold get. rewrite resolve_row by done. simpl.
  rewrite (py_index_lookup _ _ sub); [done|lia|].
  rewrite Nat2Z.id. by rewrite list_lookup_middle.
Qed.

(** Every index of [0, total) is such a row. *)
Lemma row_of_index subs i :
  0 <= i < Zsum (lengths subs) ->
  ∃ pre sub post j,
    subs = pre ++ sub :: post ∧ 0 <= j < Z.of_nat (sub_len sub)
    ∧ i = Zsum (lengths pre) + j.
Proof.
  revert i; induction subs as [|s subs IH]; intros i Hi; simpl in Hi; [lia|].
  destruct (Z.lt_ge_cases i (Z.of_nat (sub_len s))) as [Hlt|Hge].
  - exists [], s, subs, i. simpl. split_and!; [done|lia|lia|lia].
  - destruct (IH (i - Z.of_nat (sub_len s))) as (pre & sub & post & j & -> & Hj & Hi');
      [lia|].
    exists (s :: pre), sub, post, j. simpl. split_and!; [done|lia|lia|lia].
Qed.

Lemma resolve_out_of_range subs i :
  len (init subs) <= i ∨ i < - len (init subs) ->
  resolve (init subs) i = Raise IndexError.
Proof.
  intros Hi. unfold resolve. apply py_index_out_of_range.
  by rewrite length_subset_indices.
Qed.

Lemma resolve_from_end subs i :
  - len (init subs) <= i < 0 ->
  resolve (init subs) i = resolve (init subs) (len (init subs) + i).
Proof.
  intros Hi. unfold resolve. rewrite <- length_subset_indices.
  apply py_index_from_end. by rewrite length_subset_indices.
Qed.

Lemma get_resolve (self : COMP6v1.t Sample) i j :
  resolve self i = resolve self j -> get self i = get self j.
Proof. unfold get. by intros ->. Qed.

Lemma get_out_of_range subs i :
  len (init subs) <= i ∨ i < - len (init subs) ->
  get (init subs) i = Raise IndexError.
Proof. intros Hi. unfold get. by rewrite resolve_out_of_range. Qed.

End AggregatorFacts.

(** The scenario of two sub-datasets of lengths 3 and 4, evaluated. *)
Example aggregator_3_4_scenario :
  COMP6v1.len Scenario.agg34 = 7
  ∧ map (COMP6v1.resolve Scenario.agg34) [0; 1; 2; 3; 4; 5; 6]
    = [Ok (0, 0); Ok (0, 1); Ok (0, 2); Ok (1, 0); Ok (1, 1); Ok (1, 2); Ok (1, 3)]
  ∧ map (COMP6v1.get Scenario.agg34) [0; 1; 2; 3; 4; 5; 6]
    = [Ok ("a", 0); Ok ("a", 1); Ok ("a", 2);
       Ok ("b", 0); Ok ("b", 1); Ok ("b", 2); Ok ("b", 3)]%string
  ∧ COMP6v1.get Scenario.agg34 7 = Raise IndexError.
Proof. repeat split. Qed.

(** C4, as stated, fails: [get] has no bounds check of its own, and the index
    -1, which is outside [0, 7), is not refused but resolved from the end of
    the lookup table. *)
Lemma aggregator_get_negative_index_not_refused :
  ¬ (∀ i : Z, ¬ (0 <= i < COMP6v1.len Scenario.agg34) ->
              COMP6v1.get Scenario.agg34 i = Raise IndexError).
Proof.
  intros H. specialize (H (-1)).
  assert (COMP6v1.get Scenario.agg34 (-1) = Ok ("b"%string, 3)) as E by reflexivity.
  rewrite E in H. discriminate H. vm_compute. intros [? _]. done.
Qed.

(** C4, amended: [length()] is the precomputed sum of the sub-dataset
    lengths; every [i] of [0, total) is row [offset + j] of the lookup table
    for one sub-dataset and one local index [j], rows are contiguous per
    sub-dataset and in the configured order, and [get(i)] is that
    sub-dataset's sample [j]; [get] does no validation of its own: the table
    lookup raises [IndexError] for [i >= total] and for [i < -total], and
    resolves [-total <= i < 0] to row [total + i]. *)
Theorem aggregator_routing {Sample : Type} (subs : list (COMP6v1.Subset Sample)) :
  let agg := COMP6v1.init subs in
  let total := COMP6v1.len agg in
  total = Zsum (COMP6v1.lengths subs)
  ∧ (∀ pre sub post j,
       subs = pre ++ sub :: post -> 0 <= j < Z.of_nat (COMP6v1.sub_len sub) ->
       let i := Zsum (COMP6v1.lengths pre) + j in
       0 <= i < total
       ∧ COMP6v1.resolve agg i = Ok (Z.of_nat (length pre), j)
       ∧ COMP6v1.get agg i = COMP6v1.sub_getitem sub j)
  ∧ (∀ i, 0 <= i < total ->
       ∃ pre sub post j,
         subs = pre ++ sub :: post ∧ 0 <= j < Z.of_nat (COMP6v1.sub_len sub)
         ∧ i = Zsum (COMP6v1.lengths pre) + j)
  ∧ (∀ i, total <= i ∨ i < - total ->
       COMP6v1.resolve agg i = Raise IndexError
       ∧ COMP6v1.get agg i = Raise IndexError)
  ∧ (∀ i, - total <= i < 0 ->
       COMP6v1.resolve agg i = COMP6v1.resolve agg (total + i)
       ∧ COMP6v1.get agg i = COMP6v1.get agg (total + i)).
Proof.
  intros agg total. subst agg total. split_and!.
  - apply len_init.
  - intros pre sub post j -> Hj. cbv zeta. split; [|split].
    + rewrite len_init. unfold COMP6v1.lengths. rewrite map_app, Zsum_app. simpl.
      pose proof (Zsum_lengths_nonneg pre). pose proof (Zsum_lengths_nonneg post).
      unfold COMP6v1.lengths in *. lia.
    + by apply resolve_row.
    + by apply get_row.
  - intros i Hi. apply row_of_index. by rewrite <- len_init.
  - intros i Hi. split; [by apply resolve_out_of_range | by apply get_out_of_range].
  - intros i Hi. pose proof (resolve_from_end subs i Hi) as E.
    split; [done | by apply get_resolve].
Qed.

Lemma aggregator_routing_witness :
  COMP6v1.len Scenario.agg34 = 7
  ∧ COMP6v1.resolve Scenario.agg34 (3 + 2) = Ok (1, 2)
  ∧ COMP6v1.get Scenario.agg34 (3 + 2) = Ok ("b"%string, 2)
  ∧ COMP6v1.get Scenario.agg34 7 = Raise IndexError
  ∧ COMP6v1.get Scenario.agg34 (-7) = COMP6v1.get Scenario.agg34 (7 + -7).
Proof.
  destruct (aggregator_routing [Scenario.listed "a" 3; Scenario.listed "b" 4])
    as (Hlen & Hrow & _ & Hout & Hneg).
  destruct (Hrow [Scenario.listed "a" 3] (Scenario.listed "b" 4) [] 2 eq_refl)
    as (_ & Hres & Hget); [simpl; lia|].
  split_and!.
  - exact Hlen.
  - exact Hres.
  - exact Hget.
  - apply (Hout 7). left. vm_compute. discriminate.
  - apply (Hneg (-7)). vm_compute. split; [discriminate | reflexivity].
Defined.

(** ** Code that raises *)

Section MapM.
Context {A B : Type} (f : A -> result B).

Lemma mapM_result_cons (x : A) (l : list A) :
  mapM f (x :: l)
  = match f x with
    | Ok y => match mapM f l with Ok k => Ok (y :: k) | Raise e => Raise e end
    | Raise e => Raise e
    end.
Proof. reflexivity. Qed.

Lemma mapM_Ok (l : list A) (ys : list B) :
  mapM f l = Ok ys <-> Forall2 (fun x y => f x = Ok y) l ys.
Proof.
  revert ys; induction l as [|x l IH]; intros ys.
  - split.
    + intros [= <-]. constructor.
    + intros H; inversion H; done.
  - rewrite mapM_result_cons. split.
    + destruct (f x) as [b|e] eqn:Ex; [|done].
      destruct (mapM f l) as [bs|e] eqn:El; [|done].
      intros [= <-]. constructor; [done|]. by apply IH.
    + intros H; inversion H as [|? b ? bs Hx Hl]; subst.
      apply IH in Hl. by rewrite Hx, Hl.
Qed.

Lemma mapM_Raise (l : list A) (x : A) (e0 : exn) :
  In x l -> f x = Raise e0 -> ∃ e x', In x' l ∧ f x' = Raise e ∧ mapM f l = Raise e.
Proof.
  induction l as [|a l IH]; [done|].
  intros Hin Hx. rewrite mapM_result_cons.
  destruct (f a) as [b|e] eqn:Ea.
  - destruct Hin as [->|Hin]; [congruence|].
    destruct (IH Hin Hx) as (e & x' & Hx' & Hfx' & ->). exists e, x'. simpl. auto.
  - exists e, a. simpl. auto.
Qed.

Lemma length_mapM (l : list A) (ys : list B) : mapM f l = Ok ys -> length ys = length l.
Proof. rewrite mapM_Ok. intros H. symmetry. by eapply Forall2_length. Qed.
End MapM.

Lemma py_assert_Ok (b : bool) (u : unit) : py_assert b = Ok u -> b = true.
Proof. by destruct b. Qed.

(** ** The per-archive sample enumerator *)

Section EnumeratorFacts.
Import COMP6Base.
#[local] Open Scope float_scope.

Lemma gen_for_app {A B} (body : A -> gen B) (l1 l2 : list A) :
  gen_for body (l1 ++ l2)
  = match gen_for body l1 with
    | (ys, Some e) => (ys, Some e)
    | (ys, None) => let '(zs, r) := gen_for body l2 in (ys ++ zs, r)
    end.
Proof.
  induction l1 as [|x l1 IH]; simpl.
  - by destruct (gen_for body l2).
  - destruct (body x) as [ys [e|]]; [done|].
    rewrite IH. destruct (gen_for body l1) as [zs [e|]]; [done|].
    destruct (gen_for body l2) as [ws r]. by rewrite app_assoc.
Qed.

Lemma gen_for_In {A B} (body : A -> gen B) (l : list A) (y : B) :
  In y (fst (gen_for body l)) -> ∃ x, In x l ∧ In y (fst (body x)).
Proof.
  induction l as [|x l IH]; simpl; [done|].
  destruct (body x) as [ys [e|]] eqn:Ex; simpl.
  - intros Hy. exists x. rewrite Ex. auto.
  - destruct (gen_for body l) as [zs r]; simpl in *.
    intros [Hy|Hy]%in_app_or.
    + exists x. rewrite Ex. auto.
    + destruct (IH Hy) as (x' & ? & ?). eauto.
Qed.

(** The table has exactly the four entries H, C, N and O. *)
Lemma ATOMIC_NUMBERS_absent (sym : string) :
  dict_get ATOMIC_NUMBERS sym = None
  <-> ¬ In sym ["H"; "C"; "N"; "O"]%string.
Proof.
  unfold ATOMIC_NUMBERS; simpl.
  repeat case_decide; subst; split; intros Habs; try done;
    try (exfalso; apply Habs; tauto).
  intros [?|[?|[?|[?|[]]]]]; congruence.
Qed.

Lemma ATOMIC_NUMBERS_values (sym : string) (n : Z) :
  dict_get ATOMIC_NUMBERS sym = Some n -> In n [1; 6; 7; 8]%Z.
Proof.
  unfold ATOMIC_NUMBERS; simpl. repeat case_decide; intros [= <-]; tauto.
Qed.

Lemma dict_getitem_Ok {K V} `{EqDecision K} (d : dict K V) (k : K) (v : V) :
  dict_getitem d k = Ok v <-> dict_get d k = Some v.
Proof. unfold dict_getitem. destruct (dict_get d k); split; congruence. Qed.

Lemma dict_getitem_Raise {K V} `{EqDecision K} (d : dict K V) (k : K) (e : exn) :
  dict_getitem d k = Raise e -> e = KeyError ∧ dict_get d k = None.
Proof. unfold dict_getitem. destruct (dict_get d k); [done|]. by intros [= <-]. Qed.

(** The reference energy of atomic numbers that come out of the symbol table
    is always defined. *)
Lemma compute_reference_energy_defined (syms : list string) (zs : list Z) :
  Forall2 (fun sym n => dict_get ATOMIC_NUMBERS sym = Some n) syms zs ->
  ∃ es, Forall2 (fun n e => dict_get ELEMENT_ENERGIES n = Some e) zs es
        ∧ compute_reference_energy zs = Ok (float_sum es * HARTREE_TO_EV).
Proof.
  intros Hz.
  assert (∃ es, Forall2 (fun n e => dict_get ELEMENT_ENERGIES n = Some e) zs es)
    as [es Hes].
  { induction Hz as [|sym n syms zs Hn _ [es IH]]; [exists []; constructor|].
    apply ATOMIC_NUMBERS_values in Hn.
    assert (∃ e, dict_get ELEMENT_ENERGIES n = Some e) as [e He].
    { destruct Hn as [<-|[<-|[<-|[<-|[]]]]]; eexists; reflexivity. }
    exists (e :: es). by constructor. }
  exists es. split; [done|]. unfold compute_reference_energy.
  assert (mapM (dict_getitem ELEMENT_ENERGIES) zs = Ok es) as ->; [|done].
  apply mapM_Ok. eapply Forall2_impl; [exact Hes|].
  intros n e H. by apply dict_getitem_Ok.
Qed.

Lemma unknown_symbol_raises (self : COMP6Base.t) (mol_ids : bool) (path id : string)
    (mol : Molecule) (sym : string) :
  In sym (species mol) -> dict_get ATOMIC_NUMBERS sym = None ->
  molecule_samples self mol_ids path (id, mol) = Raise KeyError.
Proof.
  intros Hin Hsym. unfold molecule_samples.
  destruct (mapM_Raise (dict_getitem ATOMIC_NUMBERS) (species mol) sym KeyError Hin)
    as (e & x' & _ & Hx' & ->).
  { unfold dict_getitem. by rewrite Hsym. }
  apply dict_getitem_Raise in Hx' as [-> _]. done.
Qed.

End EnumeratorFacts.

Section EnumeratorClaims.
Import COMP6Base.
#[local] Open Scope float_scope.

Lemma emit_In (self : COMP6Base.t) tag zs p e f d :
  In d (emit self tag zs (p, e, f)) ->
  d = let d0 := {| z := zs; pos := p; y := e; neg_dy := f; mol_id := tag |} in
      match pre_transform self with Some tr => tr d0 | None => d0 end.
Proof.
  unfold emit. destruct (pre_filter self) as [keep|].
  - destruct (negb _); [done|]. destruct (pre_transform self); intros [<-|[]]; done.
  - destruct (pre_transform self); intros [<-|[]]; done.
Qed.

Lemma zip3_In {A B C} (a : list A) (b : list B) (c : list C) x y w :
  In (x, y, w) (zip3 a b c) -> In y b.
Proof.
  revert b c; induction a as [|x' a IH]; intros [|y' b] [|w' c]; simpl; try done.
  intros [[= -> -> ->]|Hin]; [auto|]. right. eauto.
Qed.

Lemma emit_plain (self : COMP6Base.t) tag zs p e f :
  pre_filter self = None -> pre_transform self = None ->
  emit self tag zs (p, e, f)
  = [{| z := zs; pos := p; y := e; neg_dy := f; mol_id := tag |}].
Proof. intros Hf Ht. unfold emit. by rewrite Hf, Ht. Qed.

Lemma map_y_plain (self : COMP6Base.t) tag zs
    (a : list (list (list float))) (b : list float) (c : list (list (list float))) :
  pre_filter self = None -> pre_transform self = None ->
  length a = length b -> length c = length b ->
  map y (flat_map (emit self tag zs) (zip3 a b c)) = b.
Proof.
  intros Hf Ht. revert a c; induction b as [|e b IH]; intros a c Ha Hc;
    destruct a as [|p a], c as [|f c]; try discriminate; cbn [zip3 flat_map]; [done|].
  rewrite map_app, emit_plain by done. cbn [map app y]. f_equal.
  apply IH; simpl in *; lia.
Qed.

(** What a molecule that passes every check yields. *)
Lemma molecule_samples_Ok (self : COMP6Base.t) (mol_ids : bool) (path id : string)
    (mol : Molecule) (samples : list Data) :
  molecule_samples self mol_ids path (id, mol) = Ok samples ->
  ∃ zs es tag,
    Forall2 (fun sym n => dict_get ATOMIC_NUMBERS sym = Some n) (species mol) zs
    ∧ Forall2 (fun n e => dict_get ELEMENT_ENERGIES n = Some e) zs es
    ∧ length (arr_frames (coordinates mol)) = length (energies mol)
    ∧ length (arr_frames (forces mol)) = length (energies mol)
    ∧ samples
      = flat_map (emit self tag zs)
          (zip3 (arr_frames (array_map to_float32 (coordinates mol)))
                (map (fun e => e - float_sum es * HARTREE_TO_EV)
                     (map (fun e => e * HARTREE_TO_EV) (energies mol)))
                (arr_frames (array_map to_float32
                   (array_map (fun x => x * HARTREE_TO_EV) (forces mol))))).
Proof.
  unfold molecule_samples. intros H.
  destruct (mapM (dict_getitem ATOMIC_NUMBERS) (species mol)) as [zs|e] eqn:Ez; [|done].
  simpl in H.
  assert (Forall2 (fun sym n => dict_get ATOMIC_NUMBERS sym = Some n) (species mol) zs)
    as Hzs.
  { apply mapM_Ok in Ez. eapply Forall2_impl; [exact Ez|].
    intros sym n Hn. by apply dict_getitem_Ok. }
  destruct (compute_reference_energy_defined _ _ Hzs) as (es & Hes & Href).
  rewrite Href in H. simpl in H.
  repeat match type of H with
  | context [py_assert ?b] =>
      let E := fresh "Hassert" in destruct b eqn:E; simpl in H; [|done]
  end.
  injection H as <-.
  exists zs, es. eexists. split_and!; [done|done| | |reflexivity].
  - apply Z.eqb_eq in Hassert. unfold shape0 in Hassert. simpl in Hassert.
    rewrite !length_map in Hassert. lia.
  - apply Z.eqb_eq in Hassert2. unfold shape0 in Hassert2. simpl in Hassert2.
    rewrite !length_map in Hassert2. lia.
Qed.

Lemma sample_iter_In (self : COMP6Base.t) (mol_ids : bool) (d : Data) :
  In d (fst (sample_iter self mol_ids)) ->
  ∃ path archive molecules id mol samples,
    In (path, archive) (raw_paths self)
    ∧ py_index (map snd archive) 0 = Ok molecules
    ∧ In (id, mol) molecules
    ∧ molecule_samples self mol_ids path (id, mol) = Ok samples
    ∧ In d samples.
Proof.
  unfold sample_iter. intros ([path archive] & Hfile & Hd)%gen_for_In.
  unfold archive_samples in Hd.
  destruct (py_index (map snd archive) 0) as [molecules|e] eqn:Hgroup; [|done].
  apply gen_for_In in Hd as ([id mol] & Hmol & Hd).
  destruct (molecule_samples self mol_ids path (id, mol)) as [samples|e] eqn:Hs; [|done].
  exists path, archive, molecules, id, mol, samples. done.
Qed.

(** [list(h5py.File(path).values())[0]] is the first top-level group. *)
Lemma archive_samples_first_group (self : COMP6Base.t) (mol_ids : bool)
    (path gname : string) (molecules : dict string Molecule) (others : Archive) :
  archive_samples self mol_ids (path, (gname, molecules) :: others)
  = gen_for (fun item => gen_of_result (molecule_samples self mol_ids path item))
      molecules.
Proof. reflexivity. Qed.

End EnumeratorClaims.

(** C6. A molecule whose species list holds a symbol outside the four-entry
    table (H, C, N, O) makes the enumerator fail with [KeyError] (the spec's
    UnknownElement) while it maps the symbols: the molecule yields nothing,
    and the enumeration ends there with an exception, so that neither the
    rest of that archive nor any later archive is read; what was yielded
    before is what the files and molecules before it yielded. *)
Theorem unknown_element_aborts (self : COMP6Base.t) (mol_ids : bool)
    (fpre fpost : list (string * COMP6Base.Archive)) (path gname id : string)
    (pre post : dict string COMP6Base.Molecule) (others : COMP6Base.Archive)
    (mol : COMP6Base.Molecule) (sym : string) :
  In sym (COMP6Base.species mol) ->
  ¬ In sym ["H"; "C"; "N"; "O"]%string ->
  COMP6Base.raw_paths self
  = fpre ++ (path, (gname, pre ++ (id, mol) :: post) :: others) :: fpost ->
  COMP6Base.molecule_samples self mol_ids path (id, mol) = Raise KeyError
  ∧ (∃ e, snd (COMP6Base.sample_iter self mol_ids) = Some e)
  ∧ COMP6Base.sample_iter self mol_ids
    = match COMP6Base.gen_for (COMP6Base.archive_samples self mol_ids) fpre with
      | (ys, Some e) => (ys, Some e)
      | (ys, None) =>
          match COMP6Base.gen_for
                  (fun item => COMP6Base.gen_of_result
                                 (COMP6Base.molecule_samples self mol_ids path item))
                  pre with
          | (zs, Some e) => (ys ++ zs, Some e)
          | (zs, None) => (ys ++ zs, Some KeyError)
          end
      end.
Proof.
  intros Hin Hsym%ATOMIC_NUMBERS_absent Hpaths.
  pose proof (unknown_symbol_raises self mol_ids path id mol sym Hin Hsym) as Hraise.
  assert (COMP6Base.sample_iter self mol_ids
    = match COMP6Base.gen_for (COMP6Base.archive_samples self mol_ids) fpre with
      | (ys, Some e) => (ys, Some e)
      | (ys, None) =>
          match COMP6Base.gen_for
                  (fun item => COMP6Base.gen_of_result
                                 (COMP6Base.molecule_samples self mol_ids path item))
                  pre with
          | (zs, Some e) => (ys ++ zs, Some e)
          | (zs, None) => (ys ++ zs, Some KeyError)
          end
      end) as Heq.
  { unfold COMP6Base.sample_iter. rewrite Hpaths, gen_for_app.
    destruct (COMP6Base.gen_for _ fpre) as [ys [e|]]; [done|].
    cbn [COMP6Base.gen_for]. rewrite archive_samples_first_group, gen_for_app.
    destruct (COMP6Base.gen_for _ pre) as [zs [e|]]; [done|].
    cbn [COMP6Base.gen_for]. rewrite Hraise. cbn. by rewrite app_nil_r. }
  split_and!; [done| |done].
  rewrite Heq.
  destruct (COMP6Base.gen_for _ fpre) as [ys [e|]]; [by eexists|].
  destruct (COMP6Base.gen_for _ pre) as [zs [e|]]; by eexists.
Qed.

Lemma unknown_element_aborts_witness :
  COMP6Base.molecule_samples EnumeratorScenario.enum_bad false "a.h5"
    ("m1"%string, EnumeratorScenario.mol_xe) = Raise KeyError
  ∧ snd (COMP6Base.sample_iter EnumeratorScenario.enum_bad false) = Some KeyError
  ∧ map COMP6Base.y (fst (COMP6Base.sample_iter EnumeratorScenario.enum_bad false))
    = [0.033069049932180405; -6.7697775115678205]%float.
Proof.
  destruct (unknown_element_aborts EnumeratorScenario.enum_bad false
              [] [("b.h5"%string, EnumeratorScenario.archive_ok)]
              "a.h5" "group" "m1"
              [("m0"%string, EnumeratorScenario.mol_h2)]
              [("m2"%string, EnumeratorScenario.mol_h2)] []
              EnumeratorScenario.mol_xe "Xe")
    as (Hmol & _ & Hiter).
  - simpl. tauto.
  - simpl. intros [?|[?|[?|[?|[]]]]]; discriminate.
  - reflexivity.
  - split; [exact Hmol|]. rewrite Hiter. split; vm_compute; reflexivity.
Defined.

(** C5. Every sample the enumerator yields is built from a frame of a
    molecule of one of its archives, and the energy given to that frame is
    the raw archive energy times 27.211386246, minus the molecule's
    reference energy: the sum, over its atoms, of the baseline energy at each
    atomic number, times the same constant (an optional transform is applied
    to the sample afterwards).  With no filter and no transform, the energies
    a molecule yields are exactly these values, one per frame, in order. *)
Theorem emitted_energy_shifted (self : COMP6Base.t) (mol_ids : bool) :
  (∀ d, In d (fst (COMP6Base.sample_iter self mol_ids)) ->
     ∃ path archive molecules id mol zs es raw d0,
       In (path, archive) (COMP6Base.raw_paths self)
       ∧ py_index (map snd archive) 0 = Ok molecules
       ∧ In (id, mol) molecules
       ∧ Forall2 (fun sym n => dict_get COMP6Base.ATOMIC_NUMBERS sym = Some n)
           (COMP6Base.species mol) zs
       ∧ Forall2 (fun n e => dict_get COMP6Base.ELEMENT_ENERGIES n = Some e) zs es
       ∧ In raw (COMP6Base.energies mol)
       ∧ COMP6Base.z d0 = zs
       ∧ COMP6Base.y d0
         = (raw * COMP6Base.HARTREE_TO_EV
            - COMP6Base.float_sum es * COMP6Base.HARTREE_TO_EV)%float
       ∧ d = match COMP6Base.pre_transform self with
             | Some tr => tr d0
             | None => d0
             end)
  ∧ (∀ path id mol samples,
       COMP6Base.pre_filter self = None -> COMP6Base.pre_transform self = None ->
       COMP6Base.molecule_samples self mol_ids path (id, mol) = Ok samples ->
       ∃ zs es,
         Forall2 (fun sym n => dict_get COMP6Base.ATOMIC_NUMBERS sym = Some n)
           (COMP6Base.species mol) zs
         ∧ Forall2 (fun n e => dict_get COMP6Base.ELEMENT_ENERGIES n = Some e) zs es
         ∧ map COMP6Base.y samples
           = map (fun raw => (raw * COMP6Base.HARTREE_TO_EV
                              - COMP6Base.float_sum es * COMP6Base.HARTREE_TO_EV)%float)
                 (COMP6Base.energies mol)).
Proof.
  split.
  - intros d (path & archive & molecules & id & mol & samples & Hfile & Hgroup & Hmol
              & Hsamples & Hd)%sample_iter_In.
    apply molecule_samples_Ok in Hsamples as (zs & es & tag & Hzs & Hes & _ & _ & ->).
    apply in_flat_map in Hd as ([[p e] f] & Hframe & Hd).
    apply zip3_In in Hframe as Hy.
    apply in_map_iff in Hy as (e' & <- & He').
    apply in_map_iff in He' as (raw & <- & Hraw).
    apply emit_In in Hd. cbv zeta in Hd.
    exists path, archive, molecules, id, mol, zs, es, raw.
    exists {| COMP6Base.z := zs; COMP6Base.pos := p;
              COMP6Base.y := (raw * COMP6Base.HARTREE_TO_EV
                              - COMP6Base.float_sum es * COMP6Base.HARTREE_TO_EV)%float;
              COMP6Base.neg_dy := f; COMP6Base.mol_id := tag |}.
    split_and!; done.
  - intros path id mol samples Hf Ht Hsamples.
    apply molecule_samples_Ok in Hsamples as (zs & es & tag & Hzs & Hes & Hc & Hfo & ->).
    exists zs, es. split_and!; [done|done|].
    rewrite map_y_plain; try done.
    + by rewrite map_map.
    + simpl. by rewrite !length_map.
    + simpl. by rewrite !length_map.
Qed.

Lemma emitted_energy_shifted_witness :
  map COMP6Base.y (fst (COMP6Base.sample_iter EnumeratorScenario.enum_ok true))
  = [(-1 * COMP6Base.HARTREE_TO_EV
      - (0 + -0.500607632585 + -0.500607632585) * COMP6Base.HARTREE_TO_EV)%float;
     (-1.25 * COMP6Base.HARTREE_TO_EV
      - (0 + -0.500607632585 + -0.500607632585) * COMP6Base.HARTREE_TO_EV)%float].
Proof.
  destruct (emitted_energy_shifted EnumeratorScenario.enum_ok true) as [_ Hmol].
  destruct (Hmol "b.h5"%string "m0"%string EnumeratorScenario.mol_h2
              (fst (COMP6Base.sample_iter EnumeratorScenario.enum_ok true))
              eq_refl eq_refl)
    as (zs & es & Hzs & Hes & Hy).
  - vm_compute. reflexivity.
  - rewrite Hy.
    inversion Hzs as [|? n1 ? zs1 Hn1 Hzs1]; subst.
    inversion Hzs1 as [|? n2 ? zs2 Hn2 Hzs2]; subst.
    inversion Hzs2; subst.
    injection Hn1 as <-. injection Hn2 as <-.
    inversion Hes as [|? e1 ? es1 He1 Hes1]; subst.
    inversion Hes1 as [|? e2 ? es2 He2 Hes2]; subst.
    inversion Hes2; subst.
    injection He1 as <-. injection He2 as <-.
    reflexivity.
Defined.

(** ** Loops *)

Lemma for_each_inv {S A} (P : S -> Prop) (body : S -> A -> result S) (l : list A) :
  (∀ s x s', In x l -> P s -> body s x = Ok s' -> P s') ->
  ∀ s s', P s -> for_each l body s = Ok s' -> P s'.
Proof.
  induction l as [|x l IH]; simpl; intros Hbody s s' Hs.
  - by intros [= <-].
  - destruct (body s x) as [s1|e] eqn:E; [|done].
    apply IH; [intros; eapply Hbody; eauto | eapply Hbody; eauto].
Qed.

Lemma for_each_ext {S A} (body body' : S -> A -> result S) (l : list A) (s : S) :
  (∀ s x, In x l -> body s x = body' s x) -> for_each l body s = for_each l body' s.
Proof.
  revert s; induction l as [|x l IH]; simpl; intros s Hext; [done|].
  rewrite <- Hext by auto. destruct (body s x); [|done]. apply IH. auto.
Qed.

(** ** Phase 1 of the selective indexer *)

Section ScanFacts.
Import mdCATH.
Implicit Types (cfg : Config) (s : Scan) (td : dict string (list (string * string))).

(** The three lines that record a qualifying pair: the key is created with
    an empty list when it is new, then the pair is appended. *)
Lemma record_pair td pdb (p : string * string) :
  let td0 := if negb (dict_mem td pdb) then dict_set td pdb [] else td in
  let pairs := default [] (dict_get td pdb) in
  dict_getitem td0 pdb = Ok pairs
  ∧ ∀ k, dict_get (dict_set td0 pdb (pairs ++ [p])) k
         = if decide (k = pdb) then Some (pairs ++ [p]) else dict_get td k.
Proof.
  cbv zeta. unfold dict_mem, dict_getitem.
  destruct (dict_get td pdb) as [pairs|] eqn:E; simpl.
  - rewrite E. split; [done|]. intros k. by rewrite dict_get_set.
  - rewrite dict_get_set. rewrite decide_True by done. split; [done|].
    intros k. rewrite !dict_get_set. case_decide; [done|]. done.
Qed.

Lemma units_cons pdb (pairs : list (string * string)) td :
  units ((pdb, pairs) :: td) = map (pair pdb) pairs ++ units td.
Proof. reflexivity. Qed.

(** Appending a pair to the list of a key adds one unit, whatever is summed
    over the units. *)
Lemma Zsum_units_append (w : string * (string * string) -> Z) td pdb pairs p :
  dict_get td pdb = Some pairs ->
  Zsum (map w (units (dict_set td pdb (pairs ++ [p]))))
  = Zsum (map w (units td)) + w (pdb, p).
Proof.
  induction td as [|[k v] td IH]; simpl dict_get; simpl dict_set; [done|].
  case_decide as Hk.
  - intros [= ->]. subst k. rewrite !units_cons, !map_app, !Zsum_app. simpl. lia.
  - intros Hget. rewrite !units_cons, !map_app, !Zsum_app, IH by done. lia.
Qed.

Lemma units_new_key td pdb :
  dict_get td pdb = None -> units (dict_set td pdb []) = units td.
Proof.
  induction td as [|[k v] td IH]; simpl dict_get; simpl dict_set; [done|].
  case_decide; [done|]. intros Hget. by rewrite !units_cons, IH.
Qed.

Lemma Zsum_units_record (w : string * (string * string) -> Z) td pdb p :
  let td0 := if negb (dict_mem td pdb) then dict_set td pdb [] else td in
  let pairs := default [] (dict_get td pdb) in
  Zsum (map w (units (dict_set td0 pdb (pairs ++ [p]))))
  = Zsum (map w (units td)) + w (pdb, p).
Proof.
  cbv zeta. unfold dict_mem.
  destruct (dict_get td pdb) as [pairs|] eqn:E; simpl.
  - by apply Zsum_units_append.
  - etrans; [apply (Zsum_units_append w (dict_set td pdb []) pdb [] p)|].
    + rewrite dict_get_set. by rewrite decide_True.
    + by rewrite units_new_key.
Qed.

Lemma In_units td pdb p :
  In (pdb, p) (units td) <-> ∃ pairs, In (pdb, pairs) td ∧ In p pairs.
Proof.
  unfold units. rewrite in_flat_map. split.
  - intros ([k v] & Hkv & Hin). apply in_map_iff in Hin as (p' & [= <- <-] & Hp). eauto.
  - intros (pairs & Hkv & Hp). exists (pdb, pairs). split; [done|].
    apply in_map_iff. eauto.
Qed.

(** What an iteration of the replica loop that does not raise has done:
    nothing, or recorded the pair and counted its frames. *)
Lemma replica_body_Ok cfg pdb temp pdb_group s replica s' :
  replica_body cfg pdb temp pdb_group s replica = Ok s' ->
  ∃ group a,
    dict_get (children pdb_group) temp = Some group
    ∧ dict_get group replica = Some a
    ∧ ((replica_rejected cfg a = true ∧ s' = s)
       ∨ (replica_rejected cfg a = false
          ∧ skipFrames cfg ≠ 0
          ∧ scan_temp s' = scan_temp s
          ∧ scan_num_conformers s'
            = scan_num_conformers s + ceil_div (attr_numFrames a) (skipFrames cfg)
          ∧ scan_to_download s'
            = let td := scan_to_download s in
              let td0 := if negb (dict_mem td pdb) then dict_set td pdb [] else td in
              dict_set td0 pdb (default [] (dict_get td pdb) ++ [(temp, replica)]))).
Proof.
  unfold replica_body. intros H.
  destruct (dict_getitem (children pdb_group) temp) as [group|] eqn:Eg; [|done].
  apply dict_getitem_Ok in Eg. simpl in H.
  destruct (dict_getitem group replica) as [a|] eqn:Ea; [|done].
  apply dict_getitem_Ok in Ea. simpl in H.
  exists group, a. split_and!; [done|done|].
  destruct (replica_rejected cfg a); [left; split; congruence|right].
  destruct (record_pair (scan_to_download s) pdb (temp, replica)) as [Hget _].
  cbv zeta in Hget. rewrite Hget in H. simpl in H.
  destruct (Z.eqb_spec (skipFrames cfg) 0); [done|].
  injection H as <-. simpl. done.
Qed.

(** What an iteration of the domain loop that does not raise has done:
    skipped the domain, or run the replica loop for the label [temp] is
    bound to after the temperature loop. *)
Lemma domain_body_Ok cfg (f : dict string SourceDomain) s pdb s' :
  domain_body cfg f s pdb = Ok s' ->
  ∃ pdb_group,
    dict_get f pdb = Some pdb_group
    ∧ ((domain_rejected cfg pdb_group = true ∧ s' = s)
       ∨ (domain_rejected cfg pdb_group = false
          ∧ ∃ temp group,
              temperature_loop cfg pdb_group (scan_temp s) = Some temp
              ∧ dict_get (children pdb_group) temp = Some group
              ∧ for_each (dict_keys group) (replica_body cfg pdb temp pdb_group)
                  {| scan_to_download := scan_to_download s;
                     scan_num_conformers := scan_num_conformers s;
                     scan_temp := Some temp |} = Ok s')).
Proof.
  unfold domain_body. intros H.
  destruct (dict_getitem f pdb) as [pdb_group|] eqn:Eg; [|done].
  apply dict_getitem_Ok in Eg. simpl in H.
  exists pdb_group. split; [done|].
  destruct (domain_rejected cfg pdb_group); [left; split; congruence|right].
  split; [done|]. simpl in H.
  destruct (temperature_loop cfg pdb_group (scan_temp s)) as [temp|]; [|done].
  destruct (dict_getitem (children pdb_group) temp) as [group|] eqn:Egr; [|done].
  apply dict_getitem_Ok in Egr. simpl in H.
  exists temp, group. done.
Qed.

(** After the temperature loop [temp] is bound to the last label. *)
Lemma temperature_loop_last cfg pdb_group (temp0 : option string) :
  temperature_loop cfg pdb_group temp0
  = match last (temperatures cfg) with
    | Some label => Some label
    | None => temp0
    end.
Proof.
  unfold temperature_loop. generalize (temperatures cfg) as ts. intros ts.
  revert temp0; induction ts as [|t ts IH] using rev_ind; intros temp0; [done|].
  rewrite fold_left_app, last_snoc. simpl. by destruct (negb _).
Qed.

End ScanFacts.

Section ScanInduction.
Import mdCATH.
Variables (cfg : Config) (root : Root).
Variable P : dict string (list (string * string)) -> Z -> Prop.

Hypothesis P_init : P [] 0.
Hypothesis P_record :
  ∀ td n pdb pdb_group temp group replica a,
    dict_get (source root) pdb = Some pdb_group ->
    domain_rejected cfg pdb_group = false ->
    last (temperatures cfg) = Some temp ->
    dict_get (children pdb_group) temp = Some group ->
    dict_get group replica = Some a ->
    replica_rejected cfg a = false ->
    skipFrames cfg ≠ 0 ->
    P td n ->
    P (dict_set (if negb (dict_mem td pdb) then dict_set td pdb [] else td) pdb
         (default [] (dict_get td pdb) ++ [(temp, replica)]))
      (n + ceil_div (attr_numFrames a) (skipFrames cfg)).

(** Whatever holds of the empty qualifying set and is kept by recording one
    qualifying pair holds of the result of the scan. *)
Lemma scan_induction (s : Scan) :
  process_data_source cfg root = Ok s ->
  P (scan_to_download s) (scan_num_conformers s).
Proof.
  unfold process_data_source. intros Hscan.
  set (Q := fun s : Scan =>
    P (scan_to_download s) (scan_num_conformers s)
    ∧ (scan_temp s = None ∨ scan_temp s = last (temperatures cfg))).
  enough (Q s) as [? _] by done.
  revert Hscan. apply for_each_inv; [|split; simpl; auto].
  clear s. intros s pdb s' _ [HP Htemp] Hbody.
  apply domain_body_Ok in Hbody
    as (pdb_group & Hg & [[_ ->]|(Hdom & temp & group & Hloop & Hgroup & Hreplicas)]);
    [by split|].
  rewrite temperature_loop_last in Hloop.
  assert (last (temperatures cfg) = Some temp) as Hlast.
  { destruct (last (temperatures cfg)); [done|]. destruct Htemp; congruence. }
  assert (Q {| scan_to_download := scan_to_download s;
               scan_num_conformers := scan_num_conformers s;
               scan_temp := Some temp |}) as Hs0.
  { split; simpl; [done | right; congruence]. }
  eapply for_each_inv; [| exact Hs0 | exact Hreplicas].
  intros s1 replica s1' _ [HP1 Ht1] Hbody.
  apply replica_body_Ok in Hbody
    as (group' & a & Hgroup' & Ha & [[_ ->]|(Hrep & Hskip & Ht & Hn & Htd)]);
    [by split|].
  assert (group' = group) as -> by congruence.
  split; [|by rewrite Ht].
  rewrite Hn, Htd. by eapply P_record.
Qed.

End ScanInduction.

Section ScanClaims.
Import mdCATH.

Lemma In_dict_get_NoDup {V} (d : dict string V) (k : string) (v : V) :
  NoDup (dict_keys d) -> (In (k, v) d <-> dict_get d k = Some v).
Proof.
  intros Hnd. split; [by apply dict_get_In_NoDup | apply dict_get_Some_In].
Qed.

(** The three facts the scan keeps: a key is recorded once; a recorded key
    owns a non-empty list of units the scan qualified; and the count is the
    sum over the recorded units. *)
Lemma scan_facts (cfg : Config) (root : Root) (s : Scan) :
  process_data_source cfg root = Ok s ->
  NoDup (dict_keys (scan_to_download s))
  ∧ (∀ pdb pairs, dict_get (scan_to_download s) pdb = Some pairs ->
       pairs ≠ [] ∧ ∀ p, In p pairs -> scanned cfg root (pdb, p))
  ∧ scan_num_conformers s = frame_total cfg root (units (scan_to_download s)).
Proof.
  apply (scan_induction cfg root (fun td n =>
    NoDup (dict_keys td)
    ∧ (∀ pdb pairs, dict_get td pdb = Some pairs ->
         pairs ≠ [] ∧ ∀ p, In p pairs -> scanned cfg root (pdb, p))
    ∧ n = frame_total cfg root (units td))).
  - split_and!; [constructor|done|done].
  - intros td n pdb pdb_group temp group replica a Hg Hdom Hlast Hgroup Ha Hrep Hskip
      (Hnd & Hpairs & Hn).
    destruct (record_pair td pdb (temp, replica)) as [_ Hget]. cbv zeta in Hget.
    split_and!.
    + apply dict_keys_set_NoDup. destruct (negb _); [by apply dict_keys_set_NoDup|done].
    + intros k pairs. rewrite Hget. case_decide as Hk; [|by apply Hpairs].
      intros [= <-]. subst k. split; [by destruct (default [] _)|].
      intros p [Hp|[<-|[]]]%in_app_or.
      * destruct (dict_get td pdb) as [pairs|] eqn:E; [|done].
        by apply (Hpairs pdb pairs).
      * exists pdb_group, group, a. done.
    + unfold frame_total. rewrite Zsum_units_record. fold (frame_total cfg root (units td)).
      rewrite <- Hn. f_equal. unfold unit_count, unit_attrs. rewrite Hg. simpl.
      rewrite Hgroup. simpl. by rewrite Ha.
Qed.

Lemma domain_rejected_false (cfg : Config) (pdb_group : SourceDomain) :
  domain_rejected cfg pdb_group = false ->
  attr_numProteinAtoms pdb_group <= numAtoms cfg
  ∧ attr_numResidues pdb_group <= numResidues cfg
  ∧ (∀ m, numNoHAtoms cfg = Some m -> attr_numNoHAtoms pdb_group <= m).
Proof.
  unfold domain_rejected. intros H.
  apply orb_false_elim in H as [H Hno]. apply orb_false_elim in H as [Ha Hr].
  apply Z.ltb_ge in Ha, Hr. split_and!; [done|done|].
  intros m Hm. rewrite Hm in Hno. by apply Z.ltb_ge in Hno.
Qed.

Lemma init_Ok (cfg : Config) (root : Root) (self : t) :
  init cfg root = Ok self ->
  ∃ s, process_data_source cfg root = Ok s
       ∧ self = {| config := cfg; idx := None;
                   to_download := scan_to_download s;
                   num_conformers := scan_num_conformers s |}.
Proof.
  unfold init. destruct (process_data_source cfg root) as [s|]; [|done].
  intros [= <-]. eauto.
Qed.

(** The scan reads the temperature list only to bind [temp], so only its
    last label matters. *)
Lemma scan_last_label (cfg : Config) (root : Root) (earlier : list string)
    (label : string) :
  temperatures cfg = earlier ++ [label] ->
  process_data_source cfg root
  = process_data_source (with_temperatures [label] cfg) root.
Proof.
  intros Hts. unfold process_data_source.
  change (pdb_list (with_temperatures [label] cfg)) with (pdb_list cfg).
  apply for_each_ext. intros s pdb _. unfold domain_body.
  destruct (dict_getitem (source root) pdb) as [pdb_group|]; [|done]. simpl.
  change (domain_rejected (with_temperatures [label] cfg) pdb_group)
    with (domain_rejected cfg pdb_group).
  destruct (domain_rejected cfg pdb_group); [done|].
  rewrite !temperature_loop_last. simpl temperatures. rewrite Hts, last_snoc. simpl.
  reflexivity.
Qed.

End ScanClaims.

(** The arrays of the scenario are well formed, and its units agree with
    the source file. *)
Example indexer_scenario_well_formed :
  Array3_wf (IndexerScenario.frames 10) = true
  ∧ Array3_wf (IndexerScenario.frames 5) = true
  ∧ mdCATH.unit_consistent IndexerScenario.root ("1abc", ("348", "0"))%string
  ∧ mdCATH.unit_consistent IndexerScenario.root ("1abc", ("348", "1"))%string.
Proof.
  split_and!; [reflexivity|reflexivity| |];
    do 5 eexists; split_and!; reflexivity.
Qed.

(** The scenario object is the one [__init__] builds. *)
Example indexer_scenario_init :
  mdCATH.init (IndexerScenario.cfg ["348"%string] 1) IndexerScenario.root
  = Ok (IndexerScenario.indexer 1)
  ∧ mdCATH.init (IndexerScenario.cfg ["348"%string] 2) IndexerScenario.root
    = Ok (IndexerScenario.indexer 2).
Proof. split; reflexivity. Qed.

(** C7. After the scan, every key of the qualifying set is a domain of the
    source file within every configured maximum (atoms, residues and, when
    configured, non-hydrogen atoms), it is recorded once, and it owns a
    non-empty list of pairs the scan qualified; no key owns an empty list. *)
Theorem qualifying_set_within_maxima (cfg : mdCATH.Config) (root : mdCATH.Root)
    (self : mdCATH.t) :
  mdCATH.init cfg root = Ok self ->
  NoDup (dict_keys (mdCATH.to_download self))
  ∧ (∀ pdb, In pdb (dict_keys (mdCATH.to_download self)) ->
       ∃ pdb_group pairs,
         dict_get (mdCATH.source root) pdb = Some pdb_group
         ∧ mdCATH.attr_numProteinAtoms pdb_group <= mdCATH.numAtoms cfg
         ∧ mdCATH.attr_numResidues pdb_group <= mdCATH.numResidues cfg
         ∧ (∀ m, mdCATH.numNoHAtoms cfg = Some m ->
                 mdCATH.attr_numNoHAtoms pdb_group <= m)
         ∧ dict_getitem (mdCATH.to_download self) pdb = Ok pairs
         ∧ pairs ≠ []
         ∧ ∀ p, In p pairs -> mdCATH.scanned cfg root (pdb, p))
  ∧ (∀ pdb pairs, In (pdb, pairs) (mdCATH.to_download self) -> pairs ≠ []).
Proof.
  intros (s & Hscan & ->)%init_Ok. simpl.
  destruct (scan_facts cfg root s Hscan) as (Hnd & Hpairs & _).
  split_and!; [done| |].
  - intros pdb [pairs Hget]%dict_get_keys.
    destruct (Hpairs pdb pairs Hget) as [Hne Hall].
    destruct pairs as [|[temp replica] pairs]; [done|].
    destruct (Hall (temp, replica)) as (pdb_group & group & a & Hg & Hdom & _); [by left|].
    apply domain_rejected_false in Hdom as (Ha & Hr & Hno).
    exists pdb_group, ((temp, replica) :: pairs).
    split_and!; try done. unfold dict_getitem. by rewrite Hget.
  - intros pdb pairs Hin%In_dict_get_NoDup; [|done]. by apply (Hpairs pdb pairs).
Qed.

Lemma qualifying_set_within_maxima_witness :
  ∃ pdb_group pairs,
    dict_get (mdCATH.source IndexerScenario.root) "1abc" = Some pdb_group
    ∧ mdCATH.attr_numProteinAtoms pdb_group <= 5000
    ∧ mdCATH.attr_numResidues pdb_group <= 1000
    ∧ dict_getitem (mdCATH.to_download (IndexerScenario.indexer 1)) "1abc" = Ok pairs
    ∧ pairs ≠ [].
Proof.
  destruct (qualifying_set_within_maxima (IndexerScenario.cfg ["348"%string] 1)
              IndexerScenario.root (IndexerScenario.indexer 1) eq_refl)
    as (_ & Hkeys & _).
  destruct (Hkeys "1abc"%string) as (pdb_group & pairs & Hg & Ha & Hr & _ & Hp & Hne & _).
  - simpl. tauto.
  - exists pdb_group, pairs. split_and!; done.
Defined.

(** C9. When the list of requested temperatures is not empty, every pair the
    scan records carries its last label, and its replica is a replica of that
    label in the source file.  The labels before the last one play no part:
    the scan, whether it returns or raises, is the scan for the last label
    alone, so no replica of an earlier label is examined or recorded, present
    in the source file or not. *)
Theorem recorded_pairs_carry_last_label (cfg : mdCATH.Config) (root : mdCATH.Root)
    (earlier : list string) (label : string) :
  mdCATH.temperatures cfg = earlier ++ [label] ->
  mdCATH.process_data_source cfg root
  = mdCATH.process_data_source (mdCATH.with_temperatures [label] cfg) root
  ∧ (∀ self, mdCATH.init cfg root = Ok self ->
       ∀ pdb pairs temp replica,
         In (pdb, pairs) (mdCATH.to_download self) -> In (temp, replica) pairs ->
         temp = label
         ∧ ∃ pdb_group group,
             dict_get (mdCATH.source root) pdb = Some pdb_group
             ∧ dict_get (mdCATH.children pdb_group) label = Some group
             ∧ In replica (dict_keys group)).
Proof.
  intros Hts. split; [by eapply scan_last_label|].
  intros self (s & Hscan & ->)%init_Ok pdb pairs temp replica Hin Hp. simpl in Hin.
  destruct (scan_facts cfg root s Hscan) as (Hnd & Hpairs & _).
  apply In_dict_get_NoDup in Hin; [|done].
  destruct (Hpairs pdb pairs Hin) as [_ Hall].
  destruct (Hall _ Hp) as (pdb_group & group & a & Hg & _ & Hlast & Hgroup & Ha & _).
  rewrite Hts, last_snoc in Hlast. injection Hlast as <-.
  split; [done|]. exists pdb_group, group. split_and!; [done|done|].
  apply dict_get_Some_In in Ha. apply (in_map fst) in Ha. exact Ha.
Qed.

Lemma recorded_pairs_carry_last_label_witness :
  mdCATH.process_data_source (IndexerScenario.cfg ["320"; "348"]%string 1)
    IndexerScenario.root
  = mdCATH.process_data_source (IndexerScenario.cfg ["348"]%string 1)
      IndexerScenario.root
  ∧ ∀ pairs temp replica,
      In ("1abc"%string, pairs) [("1abc", [("348", "0"); ("348", "1")])]%string ->
      In (temp, replica) pairs -> temp = "348"%string.
Proof.
  destruct (recorded_pairs_carry_last_label
              (IndexerScenario.cfg ["320"; "348"]%string 1) IndexerScenario.root
              ["320"%string] "348"%string eq_refl) as [Heq Hlabel].
  split; [exact Heq|].
  intros pairs temp replica Hin Hp.
  by destruct (Hlabel
                 {| mdCATH.config := IndexerScenario.cfg ["320"; "348"]%string 1;
                    mdCATH.idx := None;
                    mdCATH.to_download :=
                      [("1abc", [("348", "0"); ("348", "1")])]%string;
                    mdCATH.num_conformers := 15 |}
                 eq_refl "1abc"%string pairs temp replica Hin Hp) as [-> _].
Defined.

(** C3 fails on the code.  With the labels 320 and 348 requested and both
    present for the domain, the replica of 320 is not examined: only the pairs
    of the last label are recorded.  With the label 400 requested last and
    absent for the domain, the scan raises [KeyError] instead of leaving the
    label out. *)
Lemma requested_temperature_not_scanned :
  mdCATH.process_data_source (IndexerScenario.cfg ["320"; "348"]%string 1)
    IndexerScenario.root
  = Ok {| mdCATH.scan_to_download := [("1abc", [("348", "0"); ("348", "1")])]%string;
          mdCATH.scan_num_conformers := 15;
          mdCATH.scan_temp := Some "348"%string |}
  ∧ mdCATH.unit_attrs IndexerScenario.root ("1abc", ("320", "0"))%string
    = Some (IndexerScenario.replica_attrs 7)
  ∧ mdCATH.replica_rejected (IndexerScenario.cfg ["320"; "348"]%string 1)
      (IndexerScenario.replica_attrs 7) = false
  ∧ mdCATH.process_data_source (IndexerScenario.cfg ["348"; "400"]%string 1)
      IndexerScenario.root
    = Raise KeyError.
Proof. repeat split. Qed.

(** ** Phase 2 of the selective indexer *)

Section IndexFacts.
Import mdCATH.
Implicit Types (self : t) (cfg : Config) (root : Root).

Lemma for__cons {A} (x : A) (l : list A) (body : A -> method unit) self :
  for_ (x :: l) body self
  = match body x self with
    | (self', Ok _) => for_ l body self'
    | (self', Raise e) => (self', Raise e)
    end.
Proof. reflexivity. Qed.

(** What every iteration keeps, the loop keeps, whether it ends or raises. *)
Lemma for__inv {A} (P : t -> Prop) (l : list A) (body : A -> method unit) :
  (∀ x self self' r, In x l -> P self -> body x self = (self', r) -> P self') ->
  ∀ self self' r, P self -> for_ l body self = (self', r) -> P self'.
Proof.
  induction l as [|x l IH]; intros Hbody self self' r HP.
  - by intros [= <- <-].
  - rewrite for__cons. destruct (body x self) as [self1 [[]|e]] eqn:E.
    + apply IH; [intros; eapply Hbody; eauto; by right|].
      eapply Hbody; [by left|done|exact E].
    + intros [= <- <-]. eapply Hbody; [by left|done|exact E].
Qed.

Lemma same_counts_refl self : same_counts self self.
Proof. by split_and!. Qed.

Lemma idx_extend_spec (entries : list Entry) self :
  match idx self with
  | Some l =>
      ∃ self', idx_extend entries self = (self', Ok tt)
               ∧ same_counts self self' ∧ idx self' = Some (l ++ entries)
  | None => idx_extend entries self = (self, Raise TypeError)
  end.
Proof.
  unfold idx_extend. destruct (idx self) as [l|]; [|done].
  eexists. split; [reflexivity|]. split; [by split_and!|done].
Qed.

(** An iteration of the inner loop either raises and leaves the object as it
    is, or appends the entries of its unit. *)
Lemma extend_unit_spec cfg root files i pdb (p : string * string) self self' r :
  extend_unit cfg root files i pdb p self = (self', r) ->
  (self' = self ∧ ∃ e, r = Raise e)
  ∨ (∃ l file data entries,
       idx self = Some l
       ∧ py_index files i = Ok file
       ∧ process_specific_group cfg root pdb file p = Ok data
       ∧ conformer_entries data = Ok entries
       ∧ r = Ok tt ∧ same_counts self self' ∧ idx self' = Some (l ++ entries)).
Proof.
  destruct p as [temp replica]. unfold extend_unit, mbind, method_bind, lift.
  destruct (py_index files i) as [file|e] eqn:Hfile; [|intros [= <- <-]; eauto].
  destruct (process_specific_group cfg root pdb file (temp, replica)) as [data|e] eqn:Hdata;
    [|intros [= <- <-]; eauto].
  destruct (conformer_entries data) as [entries|e] eqn:Hentries;
    [|intros [= <- <-]; eauto].
  pose proof (idx_extend_spec entries self) as Hext.
  destruct (idx self) as [l|].
  - destruct Hext as (self1 & -> & Hsame & Hidx). intros [= <- <-].
    right. exists l, file, data, entries. by split_and!.
  - rewrite Hext. intros [= <- <-]. eauto.
Qed.

Lemma same_counts_trans self1 self2 self3 :
  same_counts self1 self2 -> same_counts self2 self3 -> same_counts self1 self3.
Proof. intros (?&?&?) (?&?&?). split_and!; congruence. Qed.

(** The loops of [_setup_idx] change nothing but the flat index, and leave a
    flat index in place. *)
Lemma idx_build_frame cfg root files items self self' r :
  is_Some (idx self) ->
  idx_build cfg root files items self = (self', r) ->
  same_counts self self' ∧ is_Some (idx self').
Proof.
  intros Hidx. unfold idx_build.
  apply (for__inv (fun s => same_counts self s ∧ is_Some (idx s)));
    [|split; [apply same_counts_refl|done]].
  intros [i [pdb group_info]] s s' r' _ Hs Hbody. cbn beta iota in Hbody.
  revert Hbody.
  apply (for__inv (fun s => same_counts self s ∧ is_Some (idx s))); [|done].
  intros p s1 s1' r1 _ [Hsame Hsome] Hunit.
  apply extend_unit_spec in Hunit
    as [[-> _]|(l & file & data & entries & _ & _ & _ & _ & _ & Hsame' & Hidx')];
    [done|].
  split; [by eapply same_counts_trans|by rewrite Hidx'].
Qed.

(** [_setup_idx], step by step. *)
Lemma _setup_idx_unfold root self :
  _setup_idx root self
  = let files := map file_name (dict_keys (to_download self)) in
    match idx_build (config self) root files (to_download self)
            (fst (idx_reset self)) with
    | (self1, Ok _) => idx_check self1
    | (self1, Raise e) => (self1, Raise e)
    end.
Proof. reflexivity. Qed.

Lemma _setup_idx_spec root self self' r :
  _setup_idx root self = (self', r) ->
  same_counts self self'
  ∧ ∃ l, idx self' = Some l
         ∧ (r = Ok tt -> Z.of_nat (length l) = num_conformers self)
         ∧ (∀ self1, idx_build (config self) root
                       (map file_name (dict_keys (to_download self)))
                       (to_download self) (fst (idx_reset self)) = (self1, Ok tt) ->
              self' = self1
              ∧ (Z.of_nat (length l) ≠ num_conformers self -> r = Raise AssertionError)
              ∧ (Z.of_nat (length l) = num_conformers self -> r = Ok tt)).
Proof.
  rewrite _setup_idx_unfold. cbv zeta.
  destruct (idx_build _ _ _ _ _) as [self1 r1] eqn:Hbuild.
  apply idx_build_frame in Hbuild as [Hsame [l Hl]]; [|by eexists].
  assert (same_counts self self1) as Hsame'.
  { destruct Hsame as (?&?&?). by split_and!. }
  destruct Hsame' as (Hc & Htd & Hn).
  destruct r1 as [[]|e].
  - unfold idx_check. rewrite Hl, Hn. intros [= <- <-].
    split; [by split_and!|]. exists l. split; [done|].
    destruct (Z.eqb_spec (Z.of_nat (length l)) (num_conformers self)) as [Heq|Hne]; simpl.
    + split; [done|]. intros ? [= <-]. by split_and!.
    + split; [done|]. intros ? [= <-]. by split_and!.
  - intros [= <- <-]. split; [by split_and!|]. exists l. split; [done|].
    split; [done|]. intros ? [=].
Qed.

End IndexFacts.

Section ConsistentArchives.
Import mdCATH.
Implicit Types (self : t) (cfg : Config) (root : Root).

Lemma mapM_total {A B} (f : A -> result B) (l : list A) :
  (∀ x, In x l -> ∃ y, f x = Ok y) -> ∃ ys, mapM f l = Ok ys.
Proof.
  induction l as [|x l IH]; intros Hf; [by exists []|].
  destruct (Hf x) as [y Hy]; [by left|].
  destruct IH as [ys Hys]; [intros; apply Hf; by right|].
  exists (y :: ys). by rewrite mapM_result_cons, Hy, Hys.
Qed.

Lemma conformer_entries_total (z : list Z) (c f : Array3) :
  shape0 f = shape0 c ->
  ∃ entries, conformer_entries (z, c, f) = Ok entries
             ∧ Z.of_nat (length entries) = shape0 c.
Proof.
  intros Hshape. unfold conformer_entries.
  destruct (mapM_total
    (fun j => c0 ← py_index (arr_frames c) j;
              f0 ← py_index (arr_frames f) j; mret (z, c0, f0, [j]))
    (range (shape0 c))) as [entries Hentries].
  - intros j Hj. apply list_elem_of_In in Hj. unfold range in Hj.
    apply elem_of_seqZ in Hj.
    destruct (py_index_in_range (arr_frames c) j) as (c0 & _ & ->); [unfold shape0 in *; lia|].
    destruct (py_index_in_range (arr_frames f) j) as (f0 & _ & ->); [unfold shape0 in *; lia|].
    by eexists.
  - exists entries. split; [done|].
    apply length_mapM in Hentries.
    etrans; [exact (f_equal Z.of_nat Hentries)|]. unfold range.
    rewrite length_seqZ. unfold shape0. lia.
Qed.

Lemma process_specific_group_consistent cfg root pdb temp replica :
  0 < skipFrames cfg ->
  unit_consistent root (pdb, (temp, replica)) ->
  ∃ z c f,
    process_specific_group cfg root pdb (file_name pdb) (temp, replica) = Ok (z, c, f)
    ∧ shape0 c = unit_count cfg root (pdb, (temp, replica))
    ∧ shape0 f = shape0 c.
Proof.
  intros Hskip (a & file & dom & sim & group & Ha & Hfile & Hdom & Hsim & Hgroup
                & Hc & Hf & Hc1 & Hf1 & Hcu & Hfu).
  unfold process_specific_group. rewrite Hfile. simpl.
  unfold dict_getitem. rewrite Hdom. simpl. rewrite Hsim. simpl. rewrite Hgroup. simpl.
  unfold array_slice_step.
  destruct (length_slice_step (arr_frames (value (coords group))) _ Hskip)
    as (cs & -> & Hcs).
  destruct (length_slice_step (arr_frames (value (forces group))) _ Hskip)
    as (fs & -> & Hfs).
  simpl. unfold shape0 in *. simpl. rewrite Hc in Hcs. rewrite Hf in Hfs.
  rewrite Hcs, Hfs, Z.eqb_refl. simpl.
  rewrite Hc1, Hf1, Z.eqb_refl. simpl.
  rewrite Hcu, Hfu. simpl.
  eexists _, _, _. split; [reflexivity|]. simpl.
  unfold unit_count. rewrite Ha. by rewrite Hcs, Hfs.
Qed.

Lemma extend_unit_consistent cfg root files i pdb temp replica self l :
  0 < skipFrames cfg ->
  unit_consistent root (pdb, (temp, replica)) ->
  py_index files i = Ok (file_name pdb) ->
  idx self = Some l ->
  ∃ self' entries,
    extend_unit cfg root files i pdb (temp, replica) self = (self', Ok tt)
    ∧ same_counts self self'
    ∧ idx self' = Some (l ++ entries)
    ∧ Z.of_nat (length entries) = unit_count cfg root (pdb, (temp, replica)).
Proof.
  intros Hskip Hunit Hfile Hidx.
  destruct (process_specific_group_consistent cfg root pdb temp replica Hskip Hunit)
    as (z & c & f & Hdata & Hcount & Hshape).
  destruct (conformer_entries_total z c f Hshape) as (entries & Hentries & Hlen).
  pose proof (idx_extend_spec entries self) as Hext. rewrite Hidx in Hext.
  destruct Hext as (self' & Hext & Hsame & Hidx').
  exists self', entries.
  unfold extend_unit, mbind, method_bind, lift.
  rewrite Hfile, Hdata, Hentries, Hext. split_and!; [done|done|done|congruence].
Qed.

(** A loop whose iterations all append to the flat index appends, in all,
    the sum of what they append. *)
Lemma for__count {A} (w : A -> Z) (body : A -> method unit) (l : list A) self0 :
  (∀ x self l0, In x l -> same_counts self0 self -> idx self = Some l0 ->
     ∃ self' es, body x self = (self', Ok tt) ∧ same_counts self0 self'
                 ∧ idx self' = Some (l0 ++ es) ∧ Z.of_nat (length es) = w x) ->
  ∀ self l0, same_counts self0 self -> idx self = Some l0 ->
    ∃ self' es, for_ l body self = (self', Ok tt) ∧ same_counts self0 self'
                ∧ idx self' = Some (l0 ++ es)
                ∧ Z.of_nat (length es) = Zsum (map w l).
Proof.
  induction l as [|x l IH]; intros Hbody self l0 Hsame Hidx.
  - exists self, []. rewrite app_nil_r. by split_and!.
  - destruct (Hbody x self l0) as (self1 & es1 & Hx & Hsame1 & Hidx1 & Hlen1);
      [by left|done|done|].
    destruct (IH (fun y s k Hy => Hbody y s k (or_intror Hy)) self1 (l0 ++ es1))
      as (self' & es & Hl & Hsame' & Hidx' & Hlen); [done|done|].
    exists self', (es1 ++ es). rewrite for__cons, Hx, Hl.
    split_and!; [done|done|by rewrite app_assoc|].
    rewrite length_app, Nat2Z.inj_add. simpl. lia.
Qed.

Lemma enumerate_from_In {A} (k : Z) (l : list A) (i : Z) (x : A) :
  In (i, x) (enumerate_from k l) -> ∃ n, i = k + Z.of_nat n ∧ l !! n = Some x.
Proof.
  revert k; induction l as [|y l IH]; intros k; simpl; [done|].
  intros [[= <- <-]|Hin].
  - exists 0%nat. split; [lia|done].
  - destruct (IH _ Hin) as (n & -> & Hn). exists (S n). split; [lia|done].
Qed.

Lemma Zsum_units_enumerate (w : string * (string * string) -> Z) (k : Z)
    (td : dict string (list (string * string))) :
  Zsum (map (fun '(i, (pdb, group_info)) => Zsum (map (fun p => w (pdb, p)) group_info))
            (enumerate_from k td))
  = Zsum (map w (units td)).
Proof.
  revert k; induction td as [|[pdb group_info] td IH]; intros k; [done|].
  simpl enumerate_from. rewrite units_cons, map_app, Zsum_app. simpl.
  rewrite IH, map_map. done.
Qed.

(** When every unit of the qualifying set has a domain file that agrees with
    the source file, the loops of [_setup_idx] end, and the flat index they
    build has one entry per frame phase 1 counted. *)
Lemma idx_build_consistent root self :
  0 < skipFrames (config self) ->
  (∀ u, In u (units (to_download self)) -> unit_consistent root u) ->
  ∃ self' l,
    idx_build (config self) root (map file_name (dict_keys (to_download self)))
      (to_download self) (fst (idx_reset self)) = (self', Ok tt)
    ∧ same_counts self self'
    ∧ idx self' = Some l
    ∧ Z.of_nat (length l)
      = frame_total (config self) root (units (to_download self)).
Proof.
  intros Hskip Hunits. unfold idx_build, frame_total.
  rewrite <- (Zsum_units_enumerate _ 0).
  destruct (for__count
    (fun '(i, (pdb, group_info)) =>
       Zsum (map (fun p => unit_count (config self) root (pdb, p)) group_info))
    (fun '(i, (pdb, group_info)) =>
       for_ group_info
         (extend_unit (config self) root
            (map file_name (dict_keys (to_download self))) i pdb))
    (enumerate (to_download self)) self) with (self := fst (idx_reset self)) (l0 := @nil Entry)
    as (self' & es & Hfor & Hsame & Hidx & Hlen).
  - intros [i [pdb group_info]] s l0 Hin Hsame Hidx.
    apply enumerate_from_In in Hin as (n & -> & Hn).
    assert (py_index (map file_name (dict_keys (to_download self))) (0 + Z.of_nat n)
            = Ok (file_name pdb)) as Hfile.
    { apply py_index_lookup; [lia|]. unfold dict_keys.
      rewrite !list_lookup_fmap. replace (Z.to_nat (0 + Z.of_nat n)) with n by lia.
      by rewrite Hn. }
    apply (for__count (fun p => unit_count (config self) root (pdb, p))); [|done|done].
    intros [temp replica] s1 l1 Hp Hsame1 Hidx1.
    destruct Hsame1 as (Hc & Htd & Hnum).
    destruct (extend_unit_consistent (config self) root
                (map file_name (dict_keys (to_download self))) (0 + Z.of_nat n)
                pdb temp replica s1 l1) as (s2 & es & Hext & Hsame2 & Hidx2 & Hlen2);
      [done| |done|done|].
    { apply Hunits. apply In_units. exists group_info. split; [|done].
      apply list_elem_of_In. by eapply list_elem_of_lookup_2. }
    exists s2, es. split_and!; [done| |done|done].
    destruct Hsame2 as (?&?&?). split_and!; congruence.
  - by split_and!.
  - done.
  - exists self', es. by split_and!.
Qed.

End ConsistentArchives.

Section GetFacts.
Import mdCATH.
Implicit Types (self : t) (root : Root).

Lemma get_built root (i : Z) self (l : list Entry) :
  idx self = Some l ->
  get root i self = (self, entry ← py_index l i; sample_of_entry entry).
Proof.
  intros Hl. unfold get, mbind at 1 2, method_bind, idx_getitem, lift. rewrite Hl.
  unfold mret, method_ret. rewrite Hl. by destruct (py_index l i).
Qed.

Lemma get_unbuilt root (i : Z) self :
  idx self = None ->
  get root i self
  = match _setup_idx root self with
    | (self1, Ok _) => get root i self1
    | (self1, Raise e) => (self1, Raise e)
    end.
Proof.
  intros Hnone.
  destruct (_setup_idx root self) as [self1 r] eqn:Hsetup.
  pose proof (_setup_idx_spec root self self1 r Hsetup) as (_ & l & Hl & _).
  unfold get at 1, mbind at 1 2, method_bind. rewrite Hnone, Hsetup.
  destruct r as [[]|e]; [|done].
  rewrite (get_built root i self1 l Hl).
  unfold idx_getitem, lift. rewrite Hl. by destruct (py_index l i).
Qed.

(** [get] changes nothing but the flat index. *)
Lemma get_same_counts root (i : Z) self self' (r : result Data) :
  get root i self = (self', r) -> same_counts self self'.
Proof.
  destruct (idx self) as [l|] eqn:Hidx.
  - rewrite (get_built root i self l Hidx). intros [= <- _]. apply same_counts_refl.
  - rewrite get_unbuilt by done.
    destruct (_setup_idx root self) as [self1 r1] eqn:Hsetup.
    pose proof (_setup_idx_spec root self self1 r1 Hsetup) as (Hsame & l & Hl & _).
    destruct r1 as [[]|e]; [|by intros [= <- _]].
    rewrite (get_built root i self1 l Hl). by intros [= <- _].
Qed.

(** A [get] that returns leaves the flat index built, with the length
    phase 1 counted. *)
Lemma get_Ok_settled root (i : Z) self self' (d : Data) :
  settled self -> get root i self = (self', Ok d) ->
  ∃ l, idx self' = Some l ∧ Z.of_nat (length l) = num_conformers self'.
Proof.
  unfold settled. intros Hset.
  destruct (idx self) as [l|] eqn:Hidx.
  - rewrite (get_built root i self l Hidx). intros [= <- _]. eauto.
  - rewrite get_unbuilt by done.
    destruct (_setup_idx root self) as [self1 r1] eqn:Hsetup.
    pose proof (_setup_idx_spec root self self1 r1 Hsetup)
      as ((_ & _ & Hn) & l & Hl & Hok & _).
    destruct r1 as [[]|e]; [|done].
    rewrite (get_built root i self1 l Hl). intros [= <- _].
    exists l. split; [done|]. rewrite Hn. by apply Hok.
Qed.

Lemma len_calls_repeat (n : nat) self :
  len_calls n self = (self, repeat (Ok (num_conformers self)) n).
Proof.
  induction n as [|n IH]; [done|]. simpl. by rewrite IH.
Qed.

(** On a settled object a negative index of [-length, -1] reads the flat
    index from its end. *)
Lemma get_from_end root (i : Z) self :
  settled self -> - num_conformers self <= i <= -1 ->
  get root i self = get root (num_conformers self + i) self.
Proof.
  unfold settled. intros Hset Hi.
  destruct (idx self) as [l|] eqn:Hidx.
  - rewrite !(get_built root _ self l Hidx). rewrite <- Hset.
    rewrite (py_index_from_end l i) by lia. done.
  - rewrite !get_unbuilt by done.
    destruct (_setup_idx root self) as [self1 r1] eqn:Hsetup.
    pose proof (_setup_idx_spec root self self1 r1 Hsetup)
      as ((_ & _ & Hn) & l & Hl & Hok & _).
    destruct r1 as [[]|e]; [|done].
    rewrite !(get_built root _ self1 l Hl). rewrite <- (Hok eq_refl).
    rewrite (py_index_from_end l i); [done|]. rewrite (Hok eq_refl). lia.
Qed.

Lemma get_built_from_end root (i : Z) self (l : list Entry) :
  idx self = Some l -> Z.of_nat (length l) = num_conformers self ->
  - num_conformers self <= i <= -1 ->
  ∃ entry, l !! Z.to_nat (num_conformers self + i) = Some entry
           ∧ get root i self = (self, sample_of_entry entry).
Proof.
  intros Hidx Hlen Hi.
  destruct (py_index_in_range l (num_conformers self + i)) as (entry & Hentry & Hpy);
    [lia|].
  exists entry. split; [done|].
  rewrite (get_built root i self l Hidx), (py_index_from_end l i) by lia.
  rewrite Hlen, Hpy. done.
Qed.

(** The object is settled after construction, and after every [get] that
    returned. *)
Lemma settled_after_init (cfg : Config) root self :
  init cfg root = Ok self -> settled self.
Proof. intros (s & _ & ->)%init_Ok. exact I. Qed.

Lemma settled_after_get root (i : Z) self self' (d : Data) :
  settled self -> get root i self = (self', Ok d) -> settled self'.
Proof.
  intros Hset Hget. destruct (get_Ok_settled root i self self' d Hset Hget) as (l & Hl & Hn).
  unfold settled. by rewrite Hl.
Qed.

End GetFacts.

(** X18. After a construction that returns, the frame count phase 1
    accumulated is the sum, over the units the scan recorded in
    [to_download] (each a unit the scan qualified, under the label the
    replica loop ran with), of ceil(unit frame count / stride).  The flat
    index [_setup_idx] leaves when it returns has exactly that many entries;
    when its loops end with another number of entries it raises
    [AssertionError] instead of returning; and when the stride is positive
    and the domain files agree with the source file, it does return, with
    that many entries. *)
Theorem frame_count_invariant (cfg : mdCATH.Config) (root : mdCATH.Root)
    (self : mdCATH.t) :
  mdCATH.init cfg root = Ok self ->
  let us := mdCATH.units (mdCATH.to_download self) in
  mdCATH.num_conformers self = mdCATH.frame_total cfg root us
  ∧ (∀ u, In u us -> mdCATH.scanned cfg root u)
  ∧ (∀ self' r, mdCATH._setup_idx root self = (self', r) ->
       ∃ l, mdCATH.idx self' = Some l
            ∧ (r = Ok tt -> Z.of_nat (length l) = mdCATH.frame_total cfg root us)
            ∧ (∀ self1,
                 mdCATH.idx_build cfg root
                   (map mdCATH.file_name (dict_keys (mdCATH.to_download self)))
                   (mdCATH.to_download self) (fst (mdCATH.idx_reset self))
                 = (self1, Ok tt) ->
                 Z.of_nat (length l) ≠ mdCATH.frame_total cfg root us ->
                 r = Raise AssertionError))
  ∧ (0 < mdCATH.skipFrames cfg ->
     (∀ u, In u us -> mdCATH.unit_consistent root u) ->
     ∃ self' l, mdCATH._setup_idx root self = (self', Ok tt)
                ∧ mdCATH.idx self' = Some l
                ∧ Z.of_nat (length l) = mdCATH.frame_total cfg root us).
Proof.
  intros (s & Hscan & Hself)%init_Ok us. subst us.
  assert (mdCATH.config self = cfg) as Hc by (by subst self).
  assert (mdCATH.to_download self = mdCATH.scan_to_download s) as Htd by (by subst self).
  assert (mdCATH.num_conformers self = mdCATH.scan_num_conformers s) as Hnum
    by (by subst self).
  clear Hself.
  destruct (scan_facts cfg root s Hscan) as (Hnd & Hpairs & Hn).
  rewrite <- Htd in Hnd, Hpairs, Hn. rewrite <- Hnum in Hn.
  split_and!.
  - exact Hn.
  - intros [pdb p] (pairs & Hin & Hp)%In_units.
    apply In_dict_get_NoDup in Hin; [|done]. by apply (Hpairs pdb pairs).
  - intros self' r Hsetup.
    apply _setup_idx_spec in Hsetup as (_ & l & Hl & Hok & Hbuild).
    rewrite Hc in Hbuild. rewrite Hn in Hok, Hbuild.
    exists l. split_and!; [done|done|].
    intros self1 Hself1 Hne. destruct (Hbuild self1 Hself1) as (_ & Hraise & _). auto.
  - intros Hskip Hunits. rewrite <- Hc in Hskip.
    destruct (idx_build_consistent root self Hskip Hunits)
      as (self1 & l & Hbuild & _ & Hl & Hlen).
    destruct (mdCATH._setup_idx root self) as [self' r] eqn:Hsetup.
    apply _setup_idx_spec in Hsetup as (_ & l' & Hl' & _ & Hspec).
    destruct (Hspec self1 Hbuild) as (-> & _ & Hok).
    assert (l' = l) as -> by congruence.
    exists self1, l. rewrite Hc in Hlen. split_and!; [|done|done].
    f_equal. apply Hok. rewrite Hlen. by rewrite Hn.
Qed.

Lemma frame_count_invariant_witness :
  mdCATH.num_conformers (IndexerScenario.indexer 2) = 8
  ∧ ∃ l, mdCATH.idx (fst (mdCATH._setup_idx IndexerScenario.root
                            (IndexerScenario.indexer 2))) = Some l
         ∧ Z.of_nat (length l) = 8.
Proof.
  destruct (frame_count_invariant (IndexerScenario.cfg ["348"%string] 2)
              IndexerScenario.root (IndexerScenario.indexer 2) eq_refl)
    as (Hn & _ & Hsetup & _).
  split; [reflexivity|].
  destruct (Hsetup
              (fst (mdCATH._setup_idx IndexerScenario.root (IndexerScenario.indexer 2)))
              (snd (mdCATH._setup_idx IndexerScenario.root (IndexerScenario.indexer 2))))
    as (l & Hl & Hok & _).
  - by destruct (mdCATH._setup_idx _ _).
  - exists l. split; [exact Hl|]. rewrite Hok; [reflexivity|]. vm_compute. reflexivity.
Defined.

(** C1 fails on the code.  (a) With the labels 320 and 348 requested, both
    present for the one domain, three units qualify in the words of the
    specification -- the replica of 7 frames at 320 K and the replicas of 10
    and 5 frames at 348 K -- and their frames sum to 22 at stride 1; the scan
    records only the two units of the last label and counts 15, and the flat
    index phase 2 builds has 15 entries.  (b) The check of the two phases
    runs once, at the end of the build: with a domain file that holds 9
    frames where the source file announces 10, the first [get] raises
    [AssertionError] and leaves the index of 14 entries in place; the next
    [get] finds an index, builds and checks nothing, and returns a sample,
    while [len] still answers 15. *)
Lemma frame_count_misses_qualifying_units :
  let cfg := IndexerScenario.cfg ["320"; "348"]%string 1 in
  let root := IndexerScenario.root in
  (mdCATHSpec.qualifying_units cfg root
   = [("1abc", ("320", "0")); ("1abc", ("348", "0")); ("1abc", ("348", "1"))]%string
   ∧ mdCATHSpec.total_frame_count cfg root = 22
   ∧ ∃ self,
       mdCATH.init cfg root = Ok self
       ∧ mdCATH.units (mdCATH.to_download self)
         = [("1abc", ("348", "0")); ("1abc", ("348", "1"))]%string
       ∧ mdCATH.num_conformers self = 15
       ∧ snd (mdCATH.len self) = Ok 15
       ∧ ∃ l, mdCATH._setup_idx root self
              = ({| mdCATH.config := cfg;
                    mdCATH.idx := Some l;
                    mdCATH.to_download := mdCATH.to_download self;
                    mdCATH.num_conformers := 15 |}, Ok tt)
              ∧ length l = 15%nat)
  ∧ (let short := MismatchScenario.root_short in
     let first := mdCATH.get short 0 (IndexerScenario.indexer 1) in
     mdCATH.init (IndexerScenario.cfg ["348"%string] 1) short
     = Ok (IndexerScenario.indexer 1)
     ∧ snd first = Raise AssertionError
     ∧ (∃ l, mdCATH.idx (fst first) = Some l ∧ length l = 14%nat)
     ∧ snd (mdCATH.len (fst first)) = Ok 15
     ∧ snd (mdCATH.get short 0 (fst first))
       = Ok {| mdCATH.data_z := [6];
               mdCATH.data_pos := [[0; 0; 0]]%float;
               mdCATH.data_neg_dy := [[0; 0; 0]]%float |}
     ∧ snd (mdCATH.get short 14 (fst first)) = Raise IndexError).
Proof.
  cbv zeta. split.
  - split_and!; try (vm_compute; reflexivity).
    eexists. split; [vm_compute; reflexivity|].
    split_and!; try (vm_compute; reflexivity).
    eexists. split; vm_compute; reflexivity.
  - split_and!; try (vm_compute; reflexivity).
    eexists. split; vm_compute; reflexivity.
Qed.

(** The scenario of the spec: one domain, two replicas of 10 and 5 frames at
    the requested temperature; 15 frames with stride 1, 8 with stride 2. *)
Example indexer_scenario_lengths :
  snd (mdCATH.len (IndexerScenario.indexer 1)) = Ok 15
  ∧ snd (mdCATH.len (IndexerScenario.indexer 2)) = Ok 8.
Proof. split; reflexivity. Qed.

(** C2 fails on the code.  An entry of the flat index holds the
    atomic-number array, one coordinate frame, one force frame and the list
    [[j]] of the frame offset, and [get] indexes all three arrays by that
    list: at flat position 1 of a domain with the atomic numbers 6 and 1 it
    returns the one atomic number at offset 1 and the one row 1 of the frame,
    and at flat position 2, where the offset exceeds the number of atoms, it
    raises [IndexError]. *)
Lemma get_indexes_by_frame_offset :
  let self := IndexerScenario.indexer 1 in
  let built := fst (mdCATH.get IndexerScenario.root 1 self) in
  (∃ l, mdCATH.idx built = Some l
        ∧ l !! 1%nat = Some ([6; 1], IndexerScenario.flat_frame 1,
                             IndexerScenario.flat_frame 1, [1]))
  ∧ snd (mdCATH.get IndexerScenario.root 1 self)
    = Ok {| mdCATH.data_z := [1];
            mdCATH.data_pos := [[1; 1; 1]]%float;
            mdCATH.data_neg_dy := [[1; 1; 1]]%float |}
  ∧ snd (mdCATH.get IndexerScenario.root 2 self) = Raise IndexError
  ∧ snd (mdCATH.len self) = Ok 15.
Proof.
  cbv zeta. split_and!; try (vm_compute; reflexivity).
  eexists. split; vm_compute; reflexivity.
Qed.

(** C8. [len] returns the frame count of phase 1 and leaves the object as
    it is; after construction the flat index is not built, and it is still
    not built after any number of calls of [len], all of which return the
    same count; a [get] changes nothing the count depends on, so [len]
    returns the same count after it, also when it has built the flat index. *)
Theorem len_stable_and_lazy (cfg : mdCATH.Config) (root : mdCATH.Root)
    (self : mdCATH.t) :
  mdCATH.init cfg root = Ok self ->
  (∃ s, mdCATH.process_data_source cfg root = Ok s
        ∧ mdCATH.len self = (self, Ok (mdCATH.scan_num_conformers s)))
  ∧ mdCATH.idx self = None
  ∧ (∀ n, mdCATH.len_calls n self
          = (self, repeat (Ok (mdCATH.num_conformers self)) n))
  ∧ (∀ i self' r, mdCATH.get root i self = (self', r) ->
       (Py.is_Ok r = true -> is_Some (mdCATH.idx self'))
       ∧ ∀ n, mdCATH.len_calls n self'
              = (self', repeat (Ok (mdCATH.num_conformers self)) n)).
Proof.
  intros (s & Hscan & ->)%init_Ok.
  split_and!.
  - by exists s.
  - done.
  - intros n. apply len_calls_repeat.
  - intros i self' r Hget. split.
    + destruct r as [d|]; [|done]. intros _.
      eapply get_Ok_settled in Hget as (l & Hl & _); [by exists l | exact I].
    + intros n. apply get_same_counts in Hget as (_ & _ & Hn).
      rewrite len_calls_repeat. by rewrite Hn.
Qed.

Lemma len_stable_and_lazy_witness :
  mdCATH.len_calls 3 (IndexerScenario.indexer 2)
  = (IndexerScenario.indexer 2, [Ok 8; Ok 8; Ok 8])
  ∧ mdCATH.idx (fst (mdCATH.len_calls 3 (IndexerScenario.indexer 2))) = None
  ∧ mdCATH.len_calls 2 (fst (mdCATH.get IndexerScenario.root 0 (IndexerScenario.indexer 2)))
    = (fst (mdCATH.get IndexerScenario.root 0 (IndexerScenario.indexer 2)), [Ok 8; Ok 8]).
Proof.
  destruct (len_stable_and_lazy (IndexerScenario.cfg ["348"%string] 2)
              IndexerScenario.root (IndexerScenario.indexer 2) eq_refl)
    as (_ & Hnone & Hlen & Hget).
  split_and!.
  - exact (Hlen 3%nat).
  - rewrite (Hlen 3%nat). exact Hnone.
  - destruct (Hget 0 (fst (mdCATH.get IndexerScenario.root 0 (IndexerScenario.indexer 2)))
                (snd (mdCATH.get IndexerScenario.root 0 (IndexerScenario.indexer 2))))
      as [_ Hcalls]; [by destruct (mdCATH.get _ _ _)|].
    exact (Hcalls 2%nat).
Defined.

(** C10 fails on the code.  For the label 348 and stride 2 the dataset
    has 8 samples.  The flat-index lookup of [get(-1)] is not refused: it
    yields the entry at position 8 + (-1) = 7, the frame of offset 2 of the
    second replica.  But [get] then indexes the two atomic numbers by that
    offset and raises [IndexError] where the claim has it return the sample;
    [get(7)] raises in the same way, and of the eight indices -8 .. -1 only
    four return.  The aggregator over sub-datasets of 3 and 4 samples does
    return for [get(-1)]: sample 3 of the second sub-dataset, as [get(6)]. *)
Lemma negative_index_sample_not_returned :
  let self := IndexerScenario.indexer 2 in
  let root := IndexerScenario.root in
  snd (mdCATH.len self) = Ok 8
  ∧ (∃ l, mdCATH.idx (fst (mdCATH.get root (-1) self)) = Some l
          ∧ length l = 8%nat
          ∧ py_index l (-1) = Ok ([6; 1], IndexerScenario.flat_frame 4,
                                  IndexerScenario.flat_frame 4, [2])
          ∧ l !! 7%nat = Some ([6; 1], IndexerScenario.flat_frame 4,
                               IndexerScenario.flat_frame 4, [2]))
  ∧ snd (mdCATH.get root (-1) self) = Raise IndexError
  ∧ snd (mdCATH.get root 7 self) = Raise IndexError
  ∧ map (fun i => Py.is_Ok (snd (mdCATH.get root i self))) [-8; -7; -6; -5; -4; -3; -2; -1]
    = [true; true; false; false; false; true; true; false]
  ∧ COMP6v1.len Scenario.agg34 = 7
  ∧ COMP6v1.get Scenario.agg34 (-1) = Ok ("b"%string, 3)
  ∧ COMP6v1.get Scenario.agg34 6 = Ok ("b"%string, 3).
Proof.
  cbv zeta. split_and!; try (vm_compute; reflexivity).
  eexists. split_and!; vm_compute; reflexivity.
Qed.

(** * Further properties of the code *)

(** ** The enumerator: filter, transform, shapes and contents *)

Section EnumeratorMore.
Import COMP6Base.
#[local] Open Scope float_scope.

Lemma emit_factor (self : COMP6Base.t) tag zs fr :
  emit self tag zs fr
  = map (transformed self) (List.filter (keeps self) (emit (plain self) tag zs fr)).
Proof.
  destruct fr as [[p e] f]. unfold emit, keeps, transformed, plain. simpl.
  destruct (pre_filter self) as [keep|]; [destruct (keep _)|];
    destruct (pre_transform self); reflexivity.
Qed.

Lemma flat_map_emit_factor (self : COMP6Base.t) tag zs
    (l : list (list (list float) * float * list (list float))) :
  flat_map (emit self tag zs) l
  = map (transformed self)
      (List.filter (keeps self) (flat_map (emit (plain self) tag zs) l)).
Proof.
  induction l as [|fr l IH]; [done|].
  cbn [flat_map]. rewrite List.filter_app, map_app, <- IH, <- emit_factor. done.
Qed.

Lemma molecule_samples_factor (self : COMP6Base.t) (mol_ids : bool) (path : string)
    (item : string * Molecule) :
  molecule_samples self mol_ids path item
  = match molecule_samples (plain self) mol_ids path item with
    | Ok xs => Ok (map (transformed self) (List.filter (keeps self) xs))
    | Raise e => Raise e
    end.
Proof.
  destruct item as [id mol]. unfold molecule_samples.
  destruct (mapM (dict_getitem ATOMIC_NUMBERS) (species mol)) as [zs|e]; [|done]. simpl.
  destruct (compute_reference_energy zs) as [ref|e]; [|done]. simpl.
  repeat match goal with
  | |- context [py_assert ?b] => destruct b; simpl; [|done]
  end.
  by rewrite flat_map_emit_factor.
Qed.

Lemma gen_for_factor {A B} (h : list B -> list B) (body body' : A -> gen B)
    (l : list A) :
  h [] = [] -> (∀ a b, h (a ++ b) = h a ++ h b) ->
  (∀ x, body x = (h (fst (body' x)), snd (body' x))) ->
  gen_for body l = (h (fst (gen_for body' l)), snd (gen_for body' l)).
Proof.
  intros Hnil Happ Hbody. induction l as [|x l IH]; simpl; [by rewrite Hnil|].
  rewrite Hbody. destruct (body' x) as [ys [e|]]; simpl; [done|].
  rewrite IH. destruct (gen_for body' l) as [zs r]. simpl. by rewrite Happ.
Qed.

(** X1. The filter sees every sample before the transform, and neither
    changes what is read or when the enumeration ends: the samples yielded
    are the samples of the same object without filter and transform, those
    the filter rejects left out, each of the others transformed; the
    enumeration ends with the same exception, or with none. *)
Theorem sample_iter_filter_then_transform (self : COMP6Base.t) (mol_ids : bool) :
  COMP6Base.sample_iter self mol_ids
  = (map (COMP6Base.transformed self)
       (List.filter (COMP6Base.keeps self)
          (fst (COMP6Base.sample_iter (COMP6Base.plain self) mol_ids))),
     snd (COMP6Base.sample_iter (COMP6Base.plain self) mol_ids)).
Proof.
  set (h := fun xs => map (transformed self) (List.filter (keeps self) xs)).
  assert (h [] = []) as Hnil by done.
  assert (∀ a b, h (a ++ b) = h a ++ h b) as Happ.
  { intros a b. unfold h. by rewrite List.filter_app, map_app. }
  unfold sample_iter. change (raw_paths (plain self)) with (raw_paths self).
  apply (gen_for_factor h); [done|done|].
  intros [path archive]. unfold archive_samples.
  destruct (py_index (map snd archive) 0) as [molecules|e]; [|done].
  apply (gen_for_factor h); [done|done|].
  intros item. rewrite molecule_samples_factor.
  by destruct (molecule_samples (plain self) mol_ids path item).
Qed.

Lemma ATOMIC_NUMBERS_present (sym : string) (n : Z) :
  dict_get ATOMIC_NUMBERS sym = Some n -> In sym ["H"; "C"; "N"; "O"]%string.
Proof.
  unfold ATOMIC_NUMBERS; simpl. repeat case_decide; subst; simpl; try tauto. done.
Qed.

(** What a molecule whose symbols are all in the table yields or raises. *)
Lemma molecule_samples_known (self : COMP6Base.t) (mol_ids : bool) (path id : string)
    (mol : Molecule) :
  (∀ sym, In sym (species mol) -> In sym ["H"; "C"; "N"; "O"]%string) ->
  ∃ zs es,
    Forall2 (fun sym n => dict_get ATOMIC_NUMBERS sym = Some n) (species mol) zs
    ∧ Forall2 (fun n e => dict_get ELEMENT_ENERGIES n = Some e) zs es
    ∧ molecule_samples self mol_ids path (id, mol)
      = if shapes_ok mol
        then Ok (flat_map
                   (emit self (if mol_ids then Some (path +:+ "_" +:+ id)%string else None) zs)
                   (zip3 (arr_frames (array_map to_float32 (coordinates mol)))
                      (map (fun e => e - float_sum es * HARTREE_TO_EV)
                         (map (fun e => e * HARTREE_TO_EV) (energies mol)))
                      (arr_frames (array_map to_float32
                         (array_map (fun x => x * HARTREE_TO_EV) (forces mol))))))
        else Raise AssertionError.
Proof.
  intros Hknown.
  destruct (mapM_total (dict_getitem ATOMIC_NUMBERS) (species mol)) as [zs Hzs].
  { intros sym Hsym. destruct (dict_get ATOMIC_NUMBERS sym) as [n|] eqn:E.
    - exists n. by apply dict_getitem_Ok.
    - apply ATOMIC_NUMBERS_absent in E. destruct E. auto. }
  assert (Forall2 (fun sym n => dict_get ATOMIC_NUMBERS sym = Some n) (species mol) zs)
    as Hzs2.
  { apply mapM_Ok in Hzs. eapply Forall2_impl; [exact Hzs|].
    intros sym n Hn. by apply dict_getitem_Ok. }
  destruct (compute_reference_energy_defined _ _ Hzs2) as (es & Hes & Href).
  exists zs, es. split_and!; [done|done|].
  unfold molecule_samples. rewrite Hzs. simpl. rewrite Href. simpl.
  apply length_mapM in Hzs.
  unfold shapes_ok, shape0. simpl. rewrite !length_map, Hzs.
  repeat match goal with
  | |- context [py_assert ?b] => destruct b; simpl; [|done]
  end.
  done.
Qed.

(** X2. A molecule whose symbols are all in the table is enumerated when its
    arrays agree (as many coordinate frames and force frames as energies, as
    many atom rows as symbols, three columns), and raises [AssertionError]
    before its first sample otherwise. *)
Theorem molecule_shapes_checked (self : COMP6Base.t) (mol_ids : bool)
    (path id : string) (mol : COMP6Base.Molecule) :
  (∀ sym, In sym (COMP6Base.species mol) -> In sym ["H"; "C"; "N"; "O"]%string) ->
  (COMP6Base.shapes_ok mol = true ->
   ∃ samples, COMP6Base.molecule_samples self mol_ids path (id, mol) = Ok samples)
  ∧ (COMP6Base.shapes_ok mol = false ->
     COMP6Base.molecule_samples self mol_ids path (id, mol) = Raise AssertionError).
Proof.
  intros Hknown.
  destruct (molecule_samples_known self mol_ids path id mol Hknown)
    as (zs & es & _ & _ & ->).
  split; intros ->; [by eexists|done].
Qed.

Lemma molecule_shapes_checked_witness :
  (∃ samples,
     COMP6Base.molecule_samples EnumeratorScenario.enum_ok false "b.h5" 
       ("m0"%string, EnumeratorScenario.mol_h2) = Ok samples)
  ∧ COMP6Base.molecule_samples EnumeratorScenario.enum_ok false "b.h5"
      ("m0"%string, EnumeratorScenarioMore.mol_short) = Raise AssertionError.
Proof.
  split.
  - apply (molecule_shapes_checked EnumeratorScenario.enum_ok false "b.h5" "m0"
             EnumeratorScenario.mol_h2).
    + simpl. intros sym [<-|[<-|[]]]; tauto.
    + reflexivity.
  - apply (molecule_shapes_checked EnumeratorScenario.enum_ok false "b.h5" "m0"
             EnumeratorScenarioMore.mol_short).
    + simpl. intros sym [<-|[<-|[]]]; tauto.
    + reflexivity.
Defined.

Lemma lookup_map {A B} (f : A -> B) (l : list A) (k : nat) :
  map f l !! k = option_map f (l !! k).
Proof. revert k; induction l as [|x l IH]; intros [|k]; simpl; auto. Qed.

Lemma zip3_lookup {A B C} (a : list A) (b : list B) (c : list C) (k : nat) x y w :
  zip3 a b c !! k = Some (x, y, w)
  <-> a !! k = Some x ∧ b !! k = Some y ∧ c !! k = Some w.
Proof.
  revert b c k; induction a as [|x' a IH]; intros [|y' b] [|w' c] k;
    try (simpl; split; [done|intros (?&?&?); done]).
  destruct k as [|k]; simpl.
  - split; [intros [= -> -> ->]; done | intros ([= ->] & [= ->] & [= ->]); done].
  - apply IH.
Qed.

Lemma length_zip3 {A B C} (a : list A) (b : list B) (c : list C) :
  length a = length b -> length c = length b -> length (zip3 a b c) = length b.
Proof.
  revert a c; induction b as [|y b IH]; intros [|x a] [|w c]; simpl; try done.
  intros [= Ha] [= Hc]. f_equal. by apply IH.
Qed.

Lemma flat_map_emit_plain (self : COMP6Base.t) tag zs
    (l : list (list (list float) * float * list (list float))) :
  pre_filter self = None -> pre_transform self = None ->
  flat_map (emit self tag zs) l
  = map (fun '(p, e, f) =>
           {| z := zs; pos := p; y := e; neg_dy := f; mol_id := tag |}) l.
Proof.
  intros Hf Ht. induction l as [|[[p e] f] l IH]; [done|].
  cbn [flat_map map]. rewrite emit_plain, IH by done. done.
Qed.

(** X3. Without filter and transform a molecule yields one sample per
    frame, in storage order: sample [k] carries the atomic numbers of the
    molecule, frame [k] of the coordinates cast to float32, energy [k]
    shifted as in C5, frame [k] of the forces times the unit constant cast to
    float32, and the tag [<path>_<molecule id>] when tags are asked for. *)
Theorem molecule_samples_per_frame (self : COMP6Base.t) (mol_ids : bool)
    (path id : string) (mol : COMP6Base.Molecule) (samples : list COMP6Base.Data) :
  COMP6Base.pre_filter self = None -> COMP6Base.pre_transform self = None ->
  COMP6Base.molecule_samples self mol_ids path (id, mol) = Ok samples ->
  length samples = length (COMP6Base.energies mol)
  ∧ ∃ zs ref,
      mapM (dict_getitem COMP6Base.ATOMIC_NUMBERS) (COMP6Base.species mol) = Ok zs
      ∧ COMP6Base.compute_reference_energy zs = Ok ref
      ∧ ∀ k d, samples !! k = Some d ->
          ∃ p raw f,
            arr_frames (COMP6Base.coordinates mol) !! k = Some p
            ∧ COMP6Base.energies mol !! k = Some raw
            ∧ arr_frames (COMP6Base.forces mol) !! k = Some f
            ∧ d = {| COMP6Base.z := zs;
                     COMP6Base.pos := frame_map to_float32 p;
                     COMP6Base.y := (raw * COMP6Base.HARTREE_TO_EV - ref)%float;
                     COMP6Base.neg_dy :=
                       frame_map to_float32
                         (frame_map (fun x => x * COMP6Base.HARTREE_TO_EV)%float f);
                     COMP6Base.mol_id :=
                       if mol_ids then Some (path +:+ "_" +:+ id)%string else None |}.
Proof.
  intros Hf Ht Hsamples.
  assert (∀ sym, In sym (species mol) -> In sym ["H"; "C"; "N"; "O"]%string) as Hknown.
  { intros sym Hsym. destruct (dict_get ATOMIC_NUMBERS sym) as [n|] eqn:E.
    - by eapply ATOMIC_NUMBERS_present.
    - by rewrite (unknown_symbol_raises self mol_ids path id mol sym Hsym E) in Hsamples. }
  destruct (molecule_samples_known self mol_ids path id mol Hknown)
    as (zs & es & Hzs & Hes & Heq).
  rewrite Heq in Hsamples. destruct (shapes_ok mol) eqn:Hshape; [|done].
  injection Hsamples as <-.
  unfold shapes_ok, shape0 in Hshape.
  repeat (apply andb_prop in Hshape as [Hshape ?]).
  repeat match goal with H : (_ =? _)%Z = true |- _ => apply Z.eqb_eq in H end.
  rewrite flat_map_emit_plain by done.
  split.
  - rewrite length_map, length_zip3; rewrite ?length_map; simpl; rewrite ?length_map; lia.
  - exists zs, (float_sum es * HARTREE_TO_EV). split_and!.
    + apply mapM_Ok. eapply Forall2_impl; [exact Hzs|].
      intros sym n Hn. by apply dict_getitem_Ok.
    + destruct (compute_reference_energy_defined _ _ Hzs) as (es' & Hes' & ->).
      do 3 f_equal. revert Hes Hes'. clear. revert es es'.
      induction zs as [|n zs IH]; intros es es' H1 H2;
        inversion H1; inversion H2; subst; [done|].
      f_equal; [congruence|by apply IH].
    + intros k d Hk. rewrite lookup_map in Hk.
      destruct (zip3 _ _ _ !! k) as [[[p e] f]|] eqn:Hzip; [|done].
      injection Hk as <-.
      apply zip3_lookup in Hzip as (Hp & He & Hfo). simpl in Hp, Hfo.
      rewrite lookup_map in Hp. rewrite !lookup_map in Hfo.
      rewrite (lookup_map (λ e : float, e - float_sum es * HARTREE_TO_EV)) in He.
      rewrite lookup_map in He.
      destruct (arr_frames (coordinates mol) !! k) as [p0|]; [|done].
      destruct (energies mol !! k) as [raw|]; [|done].
      destruct (arr_frames (forces mol) !! k) as [f0|]; [|done].
      simpl in Hp, He, Hfo. injection Hp as <-. injection He as <-. injection Hfo as <-.
      exists p0, raw, f0. done.
Qed.

Lemma molecule_samples_per_frame_witness :
  ∃ samples d,
    COMP6Base.molecule_samples EnumeratorScenario.enum_ok true "b.h5"
      ("m0"%string, EnumeratorScenario.mol_h2) = Ok samples
    ∧ length samples = 2%nat
    ∧ samples !! 1%nat = Some d
    ∧ COMP6Base.mol_id d = Some "b.h5_m0"%string
    ∧ COMP6Base.pos d = frame_map to_float32 (EnumeratorScenario.frame 0.75).
Proof.
  destruct (COMP6Base.molecule_samples EnumeratorScenario.enum_ok true "b.h5"
              ("m0"%string, EnumeratorScenario.mol_h2)) as [samples|] eqn:E;
    [|by vm_compute in E].
  destruct (molecule_samples_per_frame EnumeratorScenario.enum_ok true "b.h5" "m0"
              EnumeratorScenario.mol_h2 samples eq_refl eq_refl E)
    as (Hlen & zs & ref & _ & _ & Hk).
  destruct (lookup_lt_is_Some_2 samples 1) as [d Hd]; [rewrite Hlen; simpl; lia|].
  exists samples, d. split_and!; [done|exact Hlen|done| |].
  - destruct (Hk 1%nat d Hd) as (p & raw & f & _ & _ & _ & ->). reflexivity.
  - destruct (Hk 1%nat d Hd) as (p & raw & f & Hp & _ & _ & ->).
    simpl in Hp. injection Hp as <-. reflexivity.
Defined.

Lemma ELEMENT_ENERGIES_absent (n : Z) :
  dict_get ELEMENT_ENERGIES n = None <-> ¬ In n [1; 6; 7; 8]%Z.
Proof.
  unfold ELEMENT_ENERGIES; simpl.
  repeat case_decide; subst; split; intros Habs; try done;
    try (exfalso; apply Habs; tauto).
  intros [?|[?|[?|[?|[]]]]]; congruence.
Qed.

(** X4. [compute_reference_energy] is defined exactly on lists of the
    atomic numbers 1, 6, 7 and 8, where it is the left-to-right sum of the
    baseline energies times the unit constant; any other atomic number makes
    it raise [KeyError]. *)
Theorem compute_reference_energy_domain (atomic_numbers : list Z) :
  (Forall (fun n => In n [1; 6; 7; 8]%Z) atomic_numbers ->
   ∃ es, Forall2 (fun n e => dict_get COMP6Base.ELEMENT_ENERGIES n = Some e)
           atomic_numbers es
         ∧ COMP6Base.compute_reference_energy atomic_numbers
           = Ok (COMP6Base.float_sum es * COMP6Base.HARTREE_TO_EV)%float)
  ∧ (¬ Forall (fun n => In n [1; 6; 7; 8]%Z) atomic_numbers ->
     COMP6Base.compute_reference_energy atomic_numbers = Raise KeyError).
Proof.
  split.
  - intros Hall.
    destruct (mapM_total (dict_getitem ELEMENT_ENERGIES) atomic_numbers) as [es Hes].
    { intros n Hn. rewrite Forall_forall in Hall.
      destruct (dict_get ELEMENT_ENERGIES n) as [e|] eqn:E.
      - exists e. by apply dict_getitem_Ok.
      - apply ELEMENT_ENERGIES_absent in E. destruct E. apply Hall.
        by apply list_elem_of_In. }
    exists es. unfold compute_reference_energy. rewrite Hes. split; [|done].
    apply mapM_Ok in Hes. eapply Forall2_impl; [exact Hes|].
    intros n e Hn. by apply dict_getitem_Ok.
  - intros Hnot.
    assert (∃ n, In n atomic_numbers ∧ dict_get ELEMENT_ENERGIES n = None)
      as (n & Hn & Hnone).
    { induction atomic_numbers as [|n l IH]; [destruct Hnot; constructor|].
      destruct (dict_get ELEMENT_ENERGIES n) as [e|] eqn:E.
      - destruct IH as (n' & Hn' & Hnone).
        + intros Hl. apply Hnot. constructor; [|done].
          destruct (ELEMENT_ENERGIES_absent n) as [_ Hback].
          unfold ELEMENT_ENERGIES in E; simpl in E.
          repeat case_decide; subst; simpl; try tauto; done.
        + exists n'. split; [by right|done].
      - exists n. split; [by left|done]. }
    unfold compute_reference_energy.
    destruct (mapM_Raise (dict_getitem ELEMENT_ENERGIES) atomic_numbers n KeyError Hn)
      as (e & x' & _ & Hx' & ->).
    { unfold dict_getitem. by rewrite Hnone. }
    apply dict_getitem_Raise in Hx' as [-> _]. done.
Qed.

Lemma compute_reference_energy_domain_witness :
  (∃ es, Forall2 (fun n e => dict_get COMP6Base.ELEMENT_ENERGIES n = Some e)
           [1; 8; 1]%Z es
         ∧ COMP6Base.compute_reference_energy [1; 8; 1]%Z
           = Ok (COMP6Base.float_sum es * COMP6Base.HARTREE_TO_EV)%float)
  ∧ COMP6Base.compute_reference_energy [1; 9]%Z = Raise KeyError.
Proof.
  split.
  - apply (proj1 (compute_reference_energy_domain [1; 8; 1]%Z)).
    repeat constructor; simpl; tauto.
  - apply (proj2 (compute_reference_energy_domain [1; 9]%Z)).
    intros H. inversion H as [|? ? _ H9]; subst. inversion H9 as [|? ? Hin _]; subst.
    simpl in Hin. destruct Hin as [?|[?|[?|[?|[]]]]]; discriminate.
Defined.

(** X5. A file without a top-level group ends the enumeration with
    [IndexError]: what was yielded is what the files before it yielded, and
    no file after it is read. *)
Theorem empty_archive_ends_enumeration (self : COMP6Base.t) (mol_ids : bool)
    (fpre fpost : list (string * COMP6Base.Archive)) (path : string) :
  COMP6Base.raw_paths self = fpre ++ (path, []) :: fpost ->
  COMP6Base.sample_iter self mol_ids
  = match COMP6Base.gen_for (COMP6Base.archive_samples self mol_ids) fpre with
    | (ys, Some e) => (ys, Some e)
    | (ys, None) => (ys, Some IndexError)
    end.
Proof.
  intros Hpaths. unfold sample_iter. rewrite Hpaths, gen_for_app.
  destruct (gen_for _ fpre) as [ys [e|]]; [done|].
  cbn [gen_for]. change (archive_samples self mol_ids (path, []))
    with (@nil Data, Some IndexError).
  cbv beta iota. f_equal. apply app_nil_r.
Qed.

Lemma empty_archive_ends_enumeration_witness :
  snd (COMP6Base.sample_iter EnumeratorScenarioMore.enum_empty false) = Some IndexError
  ∧ length (fst (COMP6Base.sample_iter EnumeratorScenarioMore.enum_empty false)) = 2%nat.
Proof.
  rewrite (empty_archive_ends_enumeration EnumeratorScenarioMore.enum_empty false
             [("b.h5"%string, EnumeratorScenario.archive_ok)]
             [("c.h5"%string, EnumeratorScenario.archive_ok)] "empty.h5" eq_refl).
  split; reflexivity.
Defined.

End EnumeratorMore.

(** ** The aggregator: what a row of the table names *)

(** X6. Whenever the table lookup of [get] succeeds, also for a negative
    index, the row it yields names one of the configured sub-datasets and a
    local index inside that sub-dataset's length, and [get] returns that
    sub-dataset's sample at that local index: [get] never asks a sub-dataset
    for an index outside [0, len). *)
Theorem resolved_row_is_in_range {Sample : Type}
    (subs : list (COMP6v1.Subset Sample)) (i k j : Z) :
  COMP6v1.resolve (COMP6v1.init subs) i = Ok (k, j) ->
  ∃ sub, 0 <= k
         ∧ subs !! Z.to_nat k = Some sub
         ∧ 0 <= j < Z.of_nat (COMP6v1.sub_len sub)
         ∧ COMP6v1.get (COMP6v1.init subs) i = COMP6v1.sub_getitem sub j.
Proof.
  intros Hres.
  pose proof Hres as Hrange. unfold COMP6v1.resolve in Hrange.
  apply py_index_Ok in Hrange as [Hi _].
  rewrite length_subset_indices in Hi.
  set (p := if i <? 0 then COMP6v1.len (COMP6v1.init subs) + i else i).
  assert (0 <= p < COMP6v1.len (COMP6v1.init subs)) as Hp
    by (unfold p; destruct (Z.ltb_spec i 0); lia).
  assert (COMP6v1.resolve (COMP6v1.init subs) i = COMP6v1.resolve (COMP6v1.init subs) p)
    as Hip.
  { unfold p. destruct (Z.ltb_spec i 0); [|done]. apply resolve_from_end. lia. }
  rewrite len_init in Hp.
  destruct (row_of_index subs p Hp) as (pre & sub & post & j' & -> & Hj' & Hpj).
  rewrite Hip, Hpj, resolve_row in Hres by done. injection Hres as <- <-.
  exists sub. split_and!; [lia| |lia|lia|].
  - rewrite Nat2Z.id. by rewrite list_lookup_middle.
  - rewrite (get_resolve _ i p Hip), Hpj. by apply get_row.
Qed.

Lemma resolved_row_is_in_range_witness :
  ∃ sub, [Scenario.listed "a" 3; Scenario.listed "b" 4] !! Z.to_nat 1 = Some sub
         ∧ 0 <= 2 < Z.of_nat (COMP6v1.sub_len sub)
         ∧ COMP6v1.get Scenario.agg34 (-2) = COMP6v1.sub_getitem sub 2.
Proof.
  destruct (resolved_row_is_in_range [Scenario.listed "a" 3; Scenario.listed "b" 4]
              (-2) 1 2 eq_refl) as (sub & _ & Hsub & Hj & Hget).
  exists sub. split_and!; [exact Hsub|lia|lia|exact Hget].
Defined.

(** ** The scan: what it records, and when it raises *)

Lemma for_each_reaches {S A} (I M : S -> Prop) (body : S -> A -> result S)
    (l : list A) (x0 : A) :
  In x0 l ->
  (∀ s x s', I s -> body s x = Ok s' -> I s' ∧ (M s -> M s')) ->
  (∀ s s', I s -> body s x0 = Ok s' -> M s') ->
  ∀ s s', I s -> for_each l body s = Ok s' -> M s'.
Proof.
  intros Hin Hstep Hx0.
  assert (∀ l s s', I s -> M s -> for_each l body s = Ok s' -> M s') as Hkeep.
  { clear Hin. intros l'. induction l' as [|x l' IH]; simpl; intros s s' HI HM.
    - by intros [= <-].
    - destruct (body s x) as [s1|] eqn:E; [|done].
      destruct (Hstep s x s1 HI E) as [HI1 HM1]. apply IH; auto. }
  induction l as [|x l IH]; [done|]. simpl. intros s s' HI.
  destruct (body s x) as [s1|] eqn:E; [|done].
  destruct (Hstep s x s1 HI E) as [HI1 HM1].
  destruct Hin as [->|Hin].
  - apply Hkeep; [done|]. exact (Hx0 s s1 HI E).
  - by apply IH.
Qed.

Section ScanMore.
Import mdCATH.
Implicit Types (cfg : Config) (root : Root) (s : Scan).

Lemma process_data_source_domains cfg root :
  process_data_source cfg root
  = for_each (domains cfg root) (domain_body cfg (source root))
      {| scan_to_download := []; scan_num_conformers := 0; scan_temp := None |}.
Proof. reflexivity. Qed.

Lemma replica_body_keeps cfg pdb temp pdb_group s replica s' pdb0 p0 :
  replica_body cfg pdb temp pdb_group s replica = Ok s' ->
  recorded (scan_to_download s) pdb0 p0 -> recorded (scan_to_download s') pdb0 p0.
Proof.
  intros Hbody (pairs & Hget & Hin).
  apply replica_body_Ok in Hbody
    as (group & a & _ & _ & [[_ ->]|(_ & _ & _ & _ & Htd)]); [by exists pairs|].
  destruct (record_pair (scan_to_download s) pdb (temp, replica)) as [_ Hchar].
  cbv zeta in Hchar, Htd. unfold recorded. rewrite Htd, Hchar. case_decide as Hk.
  - subst pdb0. rewrite Hget. simpl. eexists. split; [done|]. apply in_or_app. by left.
  - by exists pairs.
Qed.

Lemma domain_body_keeps cfg (f : dict string SourceDomain) s pdb s' pdb0 p0 :
  domain_body cfg f s pdb = Ok s' ->
  recorded (scan_to_download s) pdb0 p0 -> recorded (scan_to_download s') pdb0 p0.
Proof.
  intros Hbody Hrec.
  apply domain_body_Ok in Hbody
    as (pdb_group & _ & [[_ ->]|(_ & temp & group & _ & _ & Hreplicas)]); [done|].
  revert Hreplicas.
  apply (for_each_inv (fun s1 => recorded (scan_to_download s1) pdb0 p0)); [|done].
  intros s1 replica s1' _ Hs1 Hb. by eapply replica_body_keeps.
Qed.

(** The keys of the qualifying set are candidate domains. *)
Lemma scan_keys_in_domains cfg root s :
  process_data_source cfg root = Ok s ->
  ∀ pdb, In pdb (dict_keys (scan_to_download s)) -> In pdb (domains cfg root).
Proof.
  rewrite process_data_source_domains.
  apply (for_each_inv (fun s =>
    ∀ pdb, In pdb (dict_keys (scan_to_download s)) -> In pdb (domains cfg root)));
    [|done].
  intros s0 pdb s1 Hpdb Hs0 Hbody.
  apply domain_body_Ok in Hbody
    as (pdb_group & _ & [[_ ->]|(_ & temp & group & _ & _ & Hreplicas)]); [done|].
  revert Hreplicas.
  apply (for_each_inv (fun s =>
    ∀ pdb, In pdb (dict_keys (scan_to_download s)) -> In pdb (domains cfg root)));
    [|done].
  intros s2 replica s3 _ Hs2 Hb.
  apply replica_body_Ok in Hb
    as (group' & a & _ & _ & [[_ ->]|(_ & _ & _ & _ & Htd)]); [done|].
  destruct (record_pair (scan_to_download s2) pdb (temp, replica)) as [_ Hchar].
  cbv zeta in Hchar, Htd. intros k [v Hk]%dict_get_keys.
  rewrite Htd, Hchar in Hk. case_decide; [by subst|].
  apply Hs2. apply dict_mem_keys. unfold dict_mem. by rewrite Hk.
Qed.

(** A candidate unit that passes every test is recorded. *)
Lemma scanned_is_recorded cfg root s pdb temp replica :
  process_data_source cfg root = Ok s ->
  In pdb (domains cfg root) -> scanned cfg root (pdb, (temp, replica)) ->
  recorded (scan_to_download s) pdb (temp, replica).
Proof.
  intros Hscan Hdom (pdb_group & group & a & Hg & Hrej & Hlast & Hgroup & Ha & Hrep).
  revert Hscan. rewrite process_data_source_domains.
  apply (for_each_reaches (fun _ => True)
           (fun s => recorded (scan_to_download s) pdb (temp, replica))
           _ _ pdb Hdom); [| |done].
  - intros s0 x s1 _ Hb. split; [done|]. by eapply domain_body_keeps.
  - intros s0 s1 _ Hb.
    apply domain_body_Ok in Hb
      as (pdb_group' & Hg' & [[Hrej' _]|(_ & temp' & group' & Hloop & Hgroup' & Hreplicas)]);
      [congruence|].
    assert (pdb_group' = pdb_group) as -> by congruence.
    rewrite temperature_loop_last, Hlast in Hloop. injection Hloop as <-.
    assert (group' = group) as -> by congruence.
    revert Hreplicas.
    apply (for_each_reaches (fun _ => True)
             (fun s => recorded (scan_to_download s) pdb (temp, replica))
             _ _ replica); [| | |done].
    + apply dict_get_Some_In in Ha. apply (in_map fst) in Ha. exact Ha.
    + intros s2 x s3 _ Hb. split; [done|]. by eapply replica_body_keeps.
    + intros s2 s3 _ Hb.
      apply replica_body_Ok in Hb
        as (group' & a' & Hgroup'' & Ha' & [[Hrep' _]|(_ & _ & _ & _ & Htd)]).
      { assert (group' = group) as -> by congruence. congruence. }
      destruct (record_pair (scan_to_download s2) pdb (temp, replica)) as [_ Hchar].
      cbv zeta in Hchar, Htd. unfold recorded. rewrite Htd. eexists. rewrite Hchar.
      rewrite decide_True by done. split; [done|]. apply in_or_app. right. by left.
Qed.

(** X7. When the scan returns, the qualifying set holds exactly the units
    the code qualifies: a (domain, label, replica) triple is recorded if and
    only if the domain is a candidate (a key of the source file, or a member
    of [pdb_list]), it passes the three domain-level tests, the label is the
    last requested one, the replica is in the source file under that label,
    and it passes the replica-level tests. *)
Theorem scan_records_exactly (cfg : mdCATH.Config) (root : mdCATH.Root)
    (self : mdCATH.t) (u : string * (string * string)) :
  mdCATH.init cfg root = Ok self ->
  In u (mdCATH.units (mdCATH.to_download self))
  <-> In (fst u) (mdCATH.domains cfg root) ∧ mdCATH.scanned cfg root u.
Proof.
  intros (s & Hscan & ->)%init_Ok. simpl.
  destruct (scan_facts cfg root s Hscan) as (Hnd & Hpairs & _).
  destruct u as [pdb [temp replica]]. simpl fst. split.
  - intros (pairs & Hin & Hp)%In_units. split.
    + eapply scan_keys_in_domains; [done|]. apply (in_map fst) in Hin. exact Hin.
    + apply In_dict_get_NoDup in Hin; [|done]. by apply (Hpairs pdb pairs).
  - intros [Hdom Hscanned].
    destruct (scanned_is_recorded cfg root s pdb temp replica Hscan Hdom Hscanned)
      as (pairs & Hget & Hp).
    apply In_units. exists pairs. split; [by apply dict_get_Some_In|done].
Qed.

Lemma scan_records_exactly_witness :
  In ("1abc", ("348", "1"))%string
    (mdCATH.units (mdCATH.to_download (IndexerScenario.indexer 1)))
  ∧ ¬ mdCATH.scanned (IndexerScenario.cfg ["348"%string] 1) IndexerScenario.root
        ("1abc", ("320", "0"))%string.
Proof.
  pose proof (scan_records_exactly (IndexerScenario.cfg ["348"%string] 1)
                IndexerScenario.root (IndexerScenario.indexer 1)) as H.
  split.
  - apply (H ("1abc", ("348", "1"))%string eq_refl). split; [simpl; tauto|].
    do 3 eexists. split_and!; reflexivity.
  - intros Hs.
    assert (In ("1abc", ("320", "0"))%string
              (mdCATH.units (mdCATH.to_download (IndexerScenario.indexer 1)))) as Hin.
    { apply (H ("1abc", ("320", "0"))%string eq_refl). split; [simpl; tauto|done]. }
    simpl in Hin. destruct Hin as [[=]|[[=]|[]]].
Defined.

Lemma init_raises cfg root :
  (∀ s, process_data_source cfg root = Ok s -> False) ->
  ∃ e, init cfg root = Raise e.
Proof.
  intros Hno. unfold init.
  destruct (process_data_source cfg root) as [s|e]; [by destruct (Hno s)|by exists e].
Qed.

(** X8. Nothing is recorded without a label and a stride: when the list
    of temperatures is empty or the stride is 0, a construction that returns
    has an empty qualifying set and length 0; and it does not return at all
    when, with no temperature, a candidate domain passes the domain-level
    tests (the local [temp] is then unbound), or when, with the stride 0, a
    candidate unit passes every test (the frame count is then divided by
    zero). *)
Theorem scan_needs_label_and_stride (cfg : mdCATH.Config) (root : mdCATH.Root) :
  mdCATH.temperatures cfg = [] ∨ mdCATH.skipFrames cfg = 0 ->
  (∀ self, mdCATH.init cfg root = Ok self ->
     mdCATH.to_download self = [] ∧ mdCATH.num_conformers self = 0)
  ∧ (mdCATH.temperatures cfg = [] ->
     ∀ pdb pdb_group,
       In pdb (mdCATH.domains cfg root) ->
       dict_get (mdCATH.source root) pdb = Some pdb_group ->
       mdCATH.domain_rejected cfg pdb_group = false ->
       ∃ e, mdCATH.init cfg root = Raise e)
  ∧ (mdCATH.skipFrames cfg = 0 ->
     ∀ u, In (fst u) (mdCATH.domains cfg root) -> mdCATH.scanned cfg root u ->
          ∃ e, mdCATH.init cfg root = Raise e).
Proof.
  intros Hcfg.
  assert (∀ s, process_data_source cfg root = Ok s ->
               scan_to_download s = [] ∧ scan_num_conformers s = 0) as Hempty.
  { apply (scan_induction cfg root (fun td n => td = [] ∧ n = 0)); [done|].
    intros td n pdb pdb_group temp group replica a _ _ Hlast _ _ _ Hskip _.
    destruct Hcfg as [Hts|H0]; [by rewrite Hts in Hlast|done]. }
  split_and!.
  - intros self (s & Hscan & ->)%init_Ok. by apply Hempty.
  - intros Hts pdb pdb_group Hdom Hg Hrej. apply init_raises.
    intros s. rewrite process_data_source_domains.
    apply (for_each_reaches (fun s => scan_temp s = None) (fun _ => False)
             _ _ pdb Hdom); [| |done].
    + intros s0 x s1 Hnone Hb. split; [|done].
      apply domain_body_Ok in Hb
        as (g & _ & [[_ ->]|(_ & temp & group & Hloop & _)]); [done|].
      rewrite temperature_loop_last, Hts in Hloop. simpl in Hloop. congruence.
    + intros s0 s1 Hnone Hb.
      apply domain_body_Ok in Hb
        as (g & Hg' & [[Hrej' _]|(_ & temp & group & Hloop & _)]); [congruence|].
      rewrite temperature_loop_last, Hts in Hloop. simpl in Hloop. congruence.
  - intros H0 [pdb [temp replica]] Hdom Hscanned. apply init_raises.
    intros s Hscan.
    destruct (scanned_is_recorded cfg root s pdb temp replica Hscan Hdom Hscanned)
      as (pairs & Hget & _).
    destruct (Hempty s Hscan) as [Htd _]. by rewrite Htd in Hget.
Qed.

Lemma scan_needs_label_and_stride_witness :
  (∃ e, mdCATH.init (IndexerScenario.cfg [] 1) IndexerScenario.root = Raise e)
  ∧ (∃ e, mdCATH.init (IndexerScenario.cfg ["348"%string] 0) IndexerScenario.root
          = Raise e).
Proof.
  split.
  - destruct (scan_needs_label_and_stride (IndexerScenario.cfg [] 1)
                IndexerScenario.root (or_introl eq_refl)) as (_ & Hraise & _).
    apply (Hraise eq_refl "1abc"%string IndexerScenario.domain_1abc);
      [simpl; tauto|reflexivity|reflexivity].
  - destruct (scan_needs_label_and_stride (IndexerScenario.cfg ["348"%string] 0)
                IndexerScenario.root (or_intror eq_refl)) as (_ & _ & Hraise).
    apply (Hraise eq_refl ("1abc", ("348", "0"))%string); [simpl; tauto|].
    do 3 eexists. split_and!; reflexivity.
Defined.

(** X9. A candidate domain that is not a group of the source file (a
    member of [pdb_list] the file does not hold) makes the construction
    raise instead of being left out. *)
Theorem unknown_domain_raises (cfg : mdCATH.Config) (root : mdCATH.Root)
    (pdb : string) :
  In pdb (mdCATH.domains cfg root) ->
  dict_get (mdCATH.source root) pdb = None ->
  ∃ e, mdCATH.init cfg root = Raise e.
Proof.
  intros Hdom Hnone. apply init_raises.
  intros s. rewrite process_data_source_domains.
  apply (for_each_reaches (fun _ => True) (fun _ => False) _ _ pdb Hdom); [| |done].
  - intros s0 x s1 _ _. done.
  - intros s0 s1 _ Hb. apply domain_body_Ok in Hb as (g & Hg & _). congruence.
Qed.

Lemma unknown_domain_raises_witness :
  ∃ e, mdCATH.init (IndexerScenarioMore.cfg_listed ["1abc"; "2xyz"]%string)
         IndexerScenario.root = Raise e.
Proof.
  apply (unknown_domain_raises _ _ "2xyz"%string); [simpl; tauto|reflexivity].
Defined.

End ScanMore.

(** ** Phase 2: rebuilding, caching, bounds and the shape of the flat index *)

Section IndexMore.
Import mdCATH.
Implicit Types (self : t) (cfg : Config) (root : Root).

Lemma _setup_idx_same_counts root self self' :
  same_counts self self' -> _setup_idx root self' = _setup_idx root self.
Proof.
  destruct self, self'. unfold same_counts. simpl. intros (-> & -> & ->). reflexivity.
Qed.

(** X10. [_setup_idx] starts from an empty list, so what it builds and
    whether it raises depend on the configuration, the qualifying set and the
    count only, never on a flat index built before; in particular building
    again after a first build gives the same object and the same outcome. *)
Theorem setup_idx_rebuilds_the_same (root : mdCATH.Root) (self : mdCATH.t) :
  (∀ self', mdCATH.same_counts self self' ->
            mdCATH._setup_idx root self' = mdCATH._setup_idx root self)
  ∧ (∀ self1 r, mdCATH._setup_idx root self = (self1, r) ->
                mdCATH._setup_idx root self1 = (self1, r)).
Proof.
  split.
  - intros self'. apply _setup_idx_same_counts.
  - intros self1 r Hsetup.
    rewrite (_setup_idx_same_counts root self self1); [done|].
    by apply _setup_idx_spec in Hsetup as [Hsame _].
Qed.

Lemma setup_idx_rebuilds_the_same_witness :
  mdCATH._setup_idx IndexerScenario.root
    (fst (mdCATH._setup_idx IndexerScenario.root (IndexerScenario.indexer 2)))
  = mdCATH._setup_idx IndexerScenario.root (IndexerScenario.indexer 2).
Proof.
  destruct (setup_idx_rebuilds_the_same IndexerScenario.root (IndexerScenario.indexer 2))
    as [_ Hagain].
  destruct (mdCATH._setup_idx IndexerScenario.root (IndexerScenario.indexer 2))
    as [self1 r] eqn:E.
  simpl. exact (Hagain self1 r eq_refl).
Defined.

(** X11. Phase 2 runs at most once.  After a [get] that returned, every
    later [get] leaves the object as it is, and returns or raises what the
    same [get] does on the object as it was before the first one: a sample
    does not depend on whether the flat index was already built. *)
Theorem get_builds_once (root : mdCATH.Root) (self self1 : mdCATH.t) (i : Z)
    (d : mdCATH.Data) :
  mdCATH.get root i self = (self1, Ok d) ->
  ∀ j, mdCATH.get root j self1 = (self1, snd (mdCATH.get root j self))
       ∧ fst (mdCATH.get root j self) = self1.
Proof.
  intros Hget j.
  destruct (idx self) as [l|] eqn:Hidx.
  - rewrite (get_built root i self l Hidx) in Hget. injection Hget as <- _.
    by rewrite (get_built root j self l Hidx).
  - rewrite get_unbuilt in Hget by done. rewrite (get_unbuilt root j self) by done.
    destruct (_setup_idx root self) as [s1 r1] eqn:Hsetup.
    pose proof (_setup_idx_spec root self s1 r1 Hsetup) as (_ & l & Hl & _).
    destruct r1 as [[]|e]; [|done].
    rewrite (get_built root i s1 l Hl) in Hget. injection Hget as <- _.
    by rewrite (get_built root j s1 l Hl).
Qed.

Lemma get_builds_once_witness :
  let self1 := fst (mdCATH.get IndexerScenario.root 0 (IndexerScenario.indexer 2)) in
  mdCATH.get IndexerScenario.root 1 self1
  = (self1, snd (mdCATH.get IndexerScenario.root 1 (IndexerScenario.indexer 2))).
Proof.
  cbv zeta.
  destruct (mdCATH.get IndexerScenario.root 0 (IndexerScenario.indexer 2))
    as [self1 r] eqn:E.
  assert (∃ d, r = Ok d) as [d ->].
  { assert (Py.is_Ok r = true) as Hok.
    { replace r with (snd (mdCATH.get IndexerScenario.root 0 (IndexerScenario.indexer 2)))
        by (by rewrite E). vm_compute. reflexivity. }
    destruct r; [by eexists|done]. }
  exact (proj1 (get_builds_once IndexerScenario.root (IndexerScenario.indexer 2)
                  self1 0 d E 1)).
Defined.



(** X13. When nothing qualifies, the dataset is empty and stays usable:
    its length is 0, and whatever the domain files hold, every [get] leaves
    an empty flat index and raises [IndexError]. *)
Theorem empty_dataset (cfg : mdCATH.Config) (root : mdCATH.Root) (self : mdCATH.t) :
  mdCATH.init cfg root = Ok self ->
  mdCATH.to_download self = [] ->
  mdCATH.len self = (self, Ok 0)
  ∧ ∀ i, ∃ self', mdCATH.get root i self = (self', Raise IndexError)
                  ∧ mdCATH.idx self' = Some []
                  ∧ mdCATH.same_counts self self'.
Proof.
  intros (s & Hscan & ->)%init_Ok. simpl. intros Htd.
  destruct (scan_facts cfg root s Hscan) as (_ & _ & Hn).
  rewrite Htd in Hn. change (frame_total cfg root (units [])) with 0 in Hn.
  rewrite Htd, Hn. split; [done|].
  intros i. rewrite get_unbuilt by done.
  change (_setup_idx root _)
    with ({| config := cfg; idx := Some []; to_download := [];
             num_conformers := 0 |}, Ok tt).
  exists {| config := cfg; idx := Some []; to_download := []; num_conformers := 0 |}.
  split; [|split; [reflexivity|by split_and!]].
  erewrite get_built by reflexivity.
  rewrite py_index_out_of_range; [done|]. simpl. lia.
Qed.

Lemma empty_dataset_witness :
  mdCATH.len (IndexerScenarioMore.empty_indexer) = (IndexerScenarioMore.empty_indexer, Ok 0)
  ∧ snd (mdCATH.get IndexerScenario.root 0 IndexerScenarioMore.empty_indexer)
    = Raise IndexError.
Proof.
  destruct (empty_dataset (IndexerScenarioMore.cfg_listed []) IndexerScenario.root
              IndexerScenarioMore.empty_indexer eq_refl eq_refl) as [Hlen Hget].
  split; [exact Hlen|].
  destruct (Hget 0) as (self' & -> & _). reflexivity.
Defined.

End IndexMore.

Section FlatIndexShape.
Import mdCATH.
Implicit Types (self : t) (cfg : Config) (root : Root).

(** A loop that ends, and whose iterations each append a block related to
    their item, appends the blocks of its items in order. *)
Lemma for__blocks {A} (R : A -> list Entry -> Prop) (body : A -> method unit)
    (l : list A) :
  (∀ x self self' k, In x l -> body x self = (self', Ok tt) -> idx self = Some k ->
     ∃ b, R x b ∧ idx self' = Some (k ++ b)) ->
  ∀ self self' k, for_ l body self = (self', Ok tt) -> idx self = Some k ->
    ∃ bs, Forall2 R l bs ∧ idx self' = Some (k ++ concat bs).
Proof.
  induction l as [|x l IH]; intros Hbody self self' k.
  - intros [= <-] Hk. exists []. split; [constructor|by rewrite app_nil_r].
  - rewrite for__cons. destruct (body x self) as [self1 [[]|e]] eqn:E; [|done].
    intros Hfor Hk.
    destruct (Hbody x self self1 k (or_introl eq_refl) E Hk) as (b & Hb & Hk1).
    destruct (IH (fun y s s' k' Hy => Hbody y s s' k' (or_intror Hy)) self1 self'
                (k ++ b) Hfor Hk1) as (bs & Hbs & Hk').
    exists (b :: bs). split; [by constructor|]. simpl. by rewrite app_assoc.
Qed.

Lemma units_blocks (R : string * (string * string) -> list Entry -> Prop) (k : Z)
    (td : dict string (list (string * string))) (Bs : list (list Entry)) :
  Forall2 (fun '(i, (pdb, group_info)) B =>
             ∃ bs, Forall2 (fun p b => R (pdb, p) b) group_info bs ∧ B = concat bs)
          (enumerate_from k td) Bs ->
  ∃ blocks, Forall2 R (units td) blocks ∧ concat Bs = concat blocks.
Proof.
  revert k Bs; induction td as [|[pdb group_info] td IH]; intros k Bs H.
  - inversion H; subst. exists []. split; [constructor|done].
  - simpl in H. inversion H as [|? B ? Bs' HB Hrest]; subst.
    cbv beta iota in HB. destruct HB as (bs & Hbs & ->).
    destruct (IH _ _ Hrest) as (blocks & Hblocks & Heq).
    exists (bs ++ blocks). rewrite units_cons. split.
    + apply Forall2_app; [|done]. clear -Hbs.
      induction Hbs; simpl; constructor; auto.
    + simpl. by rewrite concat_app, Heq.
Qed.

(** X14. The flat index [_setup_idx] leaves when it returns is the
    concatenation, in the order of the qualifying set (domains in insertion
    order, pairs in the order they were recorded), of one block per unit: the
    entries read for that unit from the domain file [cath_dataset_<pdb>.h5]. *)
Theorem flat_index_is_concatenation (root : mdCATH.Root) (self self' : mdCATH.t) :
  mdCATH._setup_idx root self = (self', Ok tt) ->
  ∃ blocks,
    Forall2 (fun u b => mdCATH.unit_entries (mdCATH.config self) root u = Ok b)
      (mdCATH.units (mdCATH.to_download self)) blocks
    ∧ mdCATH.idx self' = Some (concat blocks).
Proof.
  rewrite _setup_idx_unfold. cbv zeta.
  destruct (idx_build _ _ _ _ _) as [self1 r1] eqn:Hbuild.
  destruct r1 as [[]|e]; [|done]. intros Hcheck.
  assert (self' = self1) as ->.
  { unfold idx_check in Hcheck. destruct (idx self1); by injection Hcheck as <-. }
  clear Hcheck. unfold idx_build in Hbuild.
  set (R := fun (x : Z * (string * list (string * string))) (B : list Entry) =>
    let '(i, (pdb, group_info)) := x in
    ∃ bs, Forall2 (fun p b => unit_entries (config self) root (pdb, p) = Ok b)
            group_info bs ∧ B = concat bs).
  match type of Hbuild with for_ _ ?b _ = _ => set (body := b) in * end.
  assert (∀ x s s' k, In x (enumerate (to_download self)) ->
            body x s = (s', Ok tt) -> idx s = Some k ->
            ∃ b, R x b ∧ idx s' = Some (k ++ b)) as Hstep.
  { intros [i [pdb group_info]] s s' k Hx Hfor Hk. subst body R. cbv beta iota in *.
    apply enumerate_from_In in Hx as (n & -> & Hn).
    destruct (for__blocks
      (fun p b => unit_entries (config self) root (pdb, p) = Ok b)
      (extend_unit (config self) root
         (map file_name (dict_keys (to_download self))) (0 + Z.of_nat n) pdb)
      group_info) with (self := s) (self' := s') (k := k) as (bs & Hbs & Hk');
      [|done|done|by exists (concat bs); eauto].
    intros [temp replica] s1 s1' k1 _ Hunit Hk1.
    apply extend_unit_spec in Hunit
      as [[_ [e [=]]]|(l & file & data & entries & Hl & Hfile & Hdata & Hentries & _ & _ & Hl')].
    assert (file = file_name pdb) as ->.
    { assert (py_index (map file_name (dict_keys (to_download self))) (0 + Z.of_nat n)
              = Ok (file_name pdb)) as Hf; [|congruence].
      apply py_index_lookup; [lia|]. unfold dict_keys.
      rewrite !lookup_map. replace (Z.to_nat (0 + Z.of_nat n)) with n by lia.
      by rewrite Hn. }
    exists entries. split; [|congruence].
    unfold unit_entries. by rewrite Hdata. }
  destruct (for__blocks R body _ Hstep _ _ [] Hbuild eq_refl) as (Bs & HBs & Hidx).
  assert (Forall2 (fun '(i, (pdb, group_info)) B =>
             ∃ bs, Forall2 (fun p b => unit_entries (config self) root (pdb, p) = Ok b)
                     group_info bs ∧ B = concat bs)
            (enumerate_from 0 (to_download self)) Bs) as HBs'.
  { eapply Forall2_impl; [exact HBs|]. by intros [i [pdb group_info]] B HB. }
  apply (units_blocks (fun u b => unit_entries (config self) root u = Ok b))
    in HBs' as (blocks & Hblocks & Heq).
  exists blocks. split; [done|]. by rewrite Hidx, <- Heq.
Qed.

Lemma flat_index_is_concatenation_witness :
  ∃ b0 b1,
    mdCATH.unit_entries (IndexerScenario.cfg ["348"%string] 2) IndexerScenario.root
      ("1abc", ("348", "0"))%string = Ok b0
    ∧ mdCATH.unit_entries (IndexerScenario.cfg ["348"%string] 2) IndexerScenario.root
        ("1abc", ("348", "1"))%string = Ok b1
    ∧ mdCATH.idx (fst (mdCATH._setup_idx IndexerScenario.root (IndexerScenario.indexer 2)))
      = Some (b0 ++ b1).
Proof.
  destruct (mdCATH._setup_idx IndexerScenario.root (IndexerScenario.indexer 2))
    as [self' r] eqn:E.
  assert (r = Ok tt) as ->.
  { replace r with (snd (mdCATH._setup_idx IndexerScenario.root (IndexerScenario.indexer 2)))
      by (by rewrite E). vm_compute. reflexivity. }
  destruct (flat_index_is_concatenation IndexerScenario.root (IndexerScenario.indexer 2)
              self' E) as (blocks & Hblocks & Hidx).
  simpl in Hblocks.
  inversion Hblocks as [|? b0 ? bs0 H0 Hrest]; subst.
  inversion Hrest as [|? b1 ? bs1 H1 Hnil]; subst.
  inversion Hnil; subst.
  exists b0, b1. split_and!; [exact H0|exact H1|].
  simpl in Hidx. by rewrite app_nil_r in Hidx.
Defined.

End FlatIndexShape.

Section UnitEntries.
Import mdCATH.
Implicit Types (cfg : Config) (root : Root).

(** Element [k] of a strided slice is element [c + k s] of the list. *)
Lemma lookup_stride_from {A} (s c k : nat) (l : list A) :
  (0 < s)%nat -> stride_from s c l !! k = l !! (c + k * s)%nat.
Proof.
  intros Hs. revert c k; induction l as [|x l IH]; intros c k; [done|].
  destruct c as [|c]; simpl stride_from.
  - destruct k as [|k]; [done|]. cbn [lookup list_lookup]. rewrite IH.
    replace (0 + S k * s)%nat with (S (Nat.pred s + k * s)) by lia. done.
  - rewrite IH. done.
Qed.

Lemma py_assert_bind_Ok {A} (b : bool) (k : result A) (a : A) :
  (_ ← py_assert b; k) = Ok a -> b = true ∧ k = Ok a.
Proof. by destruct b. Qed.

(** What [process_specific_group] has read and checked when it returns. *)
Lemma process_specific_group_Ok cfg root pdb file temp replica z0 c f :
  process_specific_group cfg root pdb file (temp, replica) = Ok (z0, c, f) ->
  ∃ h5 dom sim group,
    dict_get (files root) file = Some h5
    ∧ dict_get h5 pdb = Some dom
    ∧ dict_get (sims dom) ("sims" +:+ temp +:+ "K") = Some sim
    ∧ dict_get sim replica = Some group
    ∧ z0 = z dom
    ∧ slice_step (arr_frames (value (coords group))) (skipFrames cfg) = Ok (arr_frames c)
    ∧ slice_step (arr_frames (value (forces group))) (skipFrames cfg) = Ok (arr_frames f)
    ∧ shape0 c = shape0 f
    ∧ arr_shape1 (value (coords group)) = Z.of_nat (length (z dom))
    ∧ arr_shape1 (value (forces group)) = Z.of_nat (length (z dom))
    ∧ unit_attr (coords group) = "Angstrom"
    ∧ unit_attr (forces group) = "kcal/mol/Angstrom".
Proof.
  unfold process_specific_group. intros H.
  destruct (dict_get (files root) file) as [h5|] eqn:Hh5; [|done]. simpl in H.
  destruct (dict_getitem h5 pdb) as [dom|] eqn:Hdom; [|done].
  apply dict_getitem_Ok in Hdom. simpl in H.
  destruct (dict_getitem (sims dom) _) as [sim|] eqn:Hsim; [|done].
  apply dict_getitem_Ok in Hsim. simpl in H.
  destruct (dict_getitem sim replica) as [group|] eqn:Hgroup; [|done].
  apply dict_getitem_Ok in Hgroup. simpl in H.
  unfold array_slice_step in H.
  destruct (slice_step (arr_frames (value (coords group))) _) as [cs|] eqn:Hcs; [|done].
  simpl in H.
  destruct (slice_step (arr_frames (value (forces group))) _) as [fs|] eqn:Hfs; [|done].
  simpl in H.
  apply py_assert_bind_Ok in H as [H1 H]. apply py_assert_bind_Ok in H as [H2 H].
  apply py_assert_bind_Ok in H as [H3 H]. apply py_assert_bind_Ok in H as [H4 H].
  apply py_assert_bind_Ok in H as [H5 H]. injection H as <- <- <-.
  apply Z.eqb_eq in H1, H2, H3. apply String.eqb_eq in H4, H5.
  exists h5, dom, sim, group. simpl in *. by split_and!.
Qed.

Lemma conformer_entries_Ok (z0 : list Z) (c f : Array3) (b : list Entry) :
  conformer_entries (z0, c, f) = Ok b ->
  Z.of_nat (length b) = shape0 c
  ∧ ∀ j e, b !! j = Some e ->
      ∃ cj fj, arr_frames c !! j = Some cj ∧ arr_frames f !! j = Some fj
               ∧ e = (z0, cj, fj, [Z.of_nat j]).
Proof.
  unfold conformer_entries. intros H.
  pose proof (length_mapM _ _ _ H) as Hlen.
  apply mapM_Ok in H. split.
  - etrans; [exact (f_equal Z.of_nat Hlen)|]. unfold range. rewrite length_seqZ.
    unfold shape0. lia.
  - intros j e Hj.
    destruct (Forall2_lookup_r _ _ _ _ _ H Hj) as (x & Hx & Hfx).
    unfold range in Hx. apply lookup_seqZ in Hx as [-> _].
    destruct (py_index (arr_frames c) (0 + Z.of_nat j)) as [cj|] eqn:Hc; [|done].
    simpl in Hfx.
    destruct (py_index (arr_frames f) (0 + Z.of_nat j)) as [fj|] eqn:Hf; [|done].
    injection Hfx as <-.
    apply py_index_Ok in Hc as [_ Hc]. apply py_index_Ok in Hf as [_ Hf].
    destruct (Z.ltb_spec (0 + Z.of_nat j) 0); [lia|].
    replace (Z.to_nat (0 + Z.of_nat j)) with j in Hc, Hf by lia.
    exists cj, fj. by split_and!.
Qed.

(** X15. For a positive stride, the block of a unit is read from validated
    data: the domain file, the domain group, the group [sims<temp>K] and the
    replica are there, the units are exactly [Angstrom] and
    [kcal/mol/Angstrom], and both arrays have one row per atomic number.  The
    block has ceil(frames / stride) entries, and entry [j] holds the
    atomic-number array of the domain, frame [j * stride] of the stored
    coordinates, frame [j * stride] of the stored forces, and the list [[j]]. *)
Theorem unit_entries_are_strided_frames (cfg : mdCATH.Config) (root : mdCATH.Root)
    (pdb temp replica : string) (b : list mdCATH.Entry) :
  0 < mdCATH.skipFrames cfg ->
  mdCATH.unit_entries cfg root (pdb, (temp, replica)) = Ok b ->
  ∃ h5 dom sim group,
    dict_get (mdCATH.files root) (mdCATH.file_name pdb) = Some h5
    ∧ dict_get h5 pdb = Some dom
    ∧ dict_get (mdCATH.sims dom) ("sims" +:+ temp +:+ "K") = Some sim
    ∧ dict_get sim replica = Some group
    ∧ mdCATH.unit_attr (mdCATH.coords group) = "Angstrom"
    ∧ mdCATH.unit_attr (mdCATH.forces group) = "kcal/mol/Angstrom"
    ∧ arr_shape1 (mdCATH.value (mdCATH.coords group)) = Z.of_nat (length (mdCATH.z dom))
    ∧ arr_shape1 (mdCATH.value (mdCATH.forces group)) = Z.of_nat (length (mdCATH.z dom))
    ∧ Z.of_nat (length b)
      = ceil_div (shape0 (mdCATH.value (mdCATH.coords group))) (mdCATH.skipFrames cfg)
    ∧ Z.of_nat (length b)
      = ceil_div (shape0 (mdCATH.value (mdCATH.forces group))) (mdCATH.skipFrames cfg)
    ∧ ∀ j e, b !! j = Some e ->
        ∃ cj fj,
          arr_frames (mdCATH.value (mdCATH.coords group))
            !! (j * Z.to_nat (mdCATH.skipFrames cfg))%nat = Some cj
          ∧ arr_frames (mdCATH.value (mdCATH.forces group))
              !! (j * Z.to_nat (mdCATH.skipFrames cfg))%nat = Some fj
          ∧ e = (mdCATH.z dom, cj, fj, [Z.of_nat j]).
Proof.
  intros Hskip. unfold unit_entries.
  destruct (process_specific_group _ _ _ _ _) as [[[z0 c] f]|] eqn:Hdata; [|done].
  simpl. intros Hb.
  apply process_specific_group_Ok in Hdata
    as (h5 & dom & sim & group & Hh5 & Hdom & Hsim & Hgroup & -> & Hc & Hf & Hcf
        & Hc1 & Hf1 & Hcu & Hfu).
  apply conformer_entries_Ok in Hb as [Hlen Hentries].
  destruct (length_slice_step (arr_frames (value (coords group))) _ Hskip)
    as (cs & Hcs & Hcslen).
  destruct (length_slice_step (arr_frames (value (forces group))) _ Hskip)
    as (fs & Hfs & Hfslen).
  rewrite Hcs in Hc. rewrite Hfs in Hf. injection Hc as Hc. injection Hf as Hf.
  exists h5, dom, sim, group. split_and!; try done.
  - rewrite Hlen. unfold shape0 at 1. by rewrite <- Hc.
  - rewrite Hlen, Hcf. unfold shape0 at 1. by rewrite <- Hf.
  - intros j e Hj. destruct (Hentries j e Hj) as (cj & fj & Hcj & Hfj & ->).
    exists cj, fj. split_and!; [| |done].
    + rewrite <- Hc in Hcj. unfold slice_step in Hcs.
      destruct (Z.eqb_spec (skipFrames cfg) 0); [lia|].
      destruct (Z.ltb_spec 0 (skipFrames cfg)); [|lia]. injection Hcs as <-.
      by rewrite lookup_stride_from in Hcj by lia.
    + rewrite <- Hf in Hfj. unfold slice_step in Hfs.
      destruct (Z.eqb_spec (skipFrames cfg) 0); [lia|].
      destruct (Z.ltb_spec 0 (skipFrames cfg)); [|lia]. injection Hfs as <-.
      by rewrite lookup_stride_from in Hfj by lia.
Qed.

Lemma unit_entries_are_strided_frames_witness :
  ∃ b e, mdCATH.unit_entries (IndexerScenario.cfg ["348"%string] 2) IndexerScenario.root
           ("1abc", ("348", "1"))%string = Ok b
         ∧ Z.of_nat (length b) = 3
         ∧ b !! 2%nat = Some e
         ∧ e = ([6; 1], IndexerScenario.flat_frame 4, IndexerScenario.flat_frame 4, [2]).
Proof.
  destruct (mdCATH.unit_entries (IndexerScenario.cfg ["348"%string] 2)
              IndexerScenario.root ("1abc", ("348", "1"))%string) as [b|] eqn:E;
    [|by vm_compute in E].
  destruct (unit_entries_are_strided_frames (IndexerScenario.cfg ["348"%string] 2)
              IndexerScenario.root "1abc" "348" "1" b eq_refl E)
    as (h5 & dom & sim & group & Hh5 & Hdom & Hsim & Hgroup & _ & _ & _ & _
        & Hlen & _ & Hentries).
  injection Hh5 as <-. injection Hdom as <-. injection Hsim as <-.
  injection Hgroup as <-.
  assert (Z.of_nat (length b) = 3) as Hlen3 by (rewrite Hlen; reflexivity).
  destruct (lookup_lt_is_Some_2 b 2) as [e He]; [lia|].
  exists b, e. split_and!; [done|done|done|].
  destruct (Hentries 2%nat e He) as (cj & fj & Hcj & Hfj & ->).
  vm_compute in Hcj, Hfj. by injection Hcj as <-; injection Hfj as <-.
Defined.

End UnitEntries.

(** ** File names and downloads *)

Section FileNames.
Import mdCATH.

Lemma string_length_app (a b : string) :
  String.length (a +:+ b) = (String.length a + String.length b)%nat.
Proof.
  induction a as [|c a IH]; [done|].
  change (String c a +:+ b) with (String c (a +:+ b)). simpl. by rewrite IH.
Qed.

Lemma string_app_inj_r (a b t : string) : a +:+ t = b +:+ t -> a = b.
Proof.
  revert b; induction a as [|c a IH]; intros [|c' b] H; [done| | |].
  - apply (f_equal String.length) in H.
    rewrite !string_length_app in H. simpl in H. lia.
  - apply (f_equal String.length) in H.
    rewrite !string_length_app in H. simpl in H. lia.
  - change (String c a +:+ t) with (String c (a +:+ t)) in H.
    change (String c' b +:+ t) with (String c' (b +:+ t)) in H.
    injection H as -> H. f_equal. by apply IH.
Qed.

Lemma file_name_inj (a b : string) : file_name a = file_name b -> a = b.
Proof.
  unfold file_name. intros H. apply String.app_inj in H.
  by apply string_app_inj_r in H.
Qed.

Lemma path_join_url_file_name (pdb_id : string) :
  path_join url (file_name pdb_id) = url +:+ file_name pdb_id.
Proof. reflexivity. Qed.

Lemma NoDup_map_inj {A B} (f : A -> B) (l : list A) :
  (∀ x y, f x = f y -> x = y) -> NoDup l -> NoDup (map f l).
Proof.
  intros Hinj. induction 1 as [|x l Hx Hl IH]; simpl; constructor; [|done].
  rewrite list_elem_of_In, in_map_iff. intros (y & Hy & Hin).
  apply Hinj in Hy as ->. by apply Hx, list_elem_of_In.
Qed.

(** X16. After construction [raw_file_names] lists one file
    [cath_dataset_<pdb>.h5] per qualifying domain, in the order of the
    qualifying set and without repetition.  When that set is not empty,
    [download] requests exactly these files under the base URL, in the same
    order; when it is empty, [raw_file_names] is empty and [download]
    requests the source file [mdCATH_source.h5]. *)
Theorem raw_file_names_and_download (cfg : mdCATH.Config) (root : mdCATH.Root)
    (self : mdCATH.t) :
  mdCATH.init cfg root = Ok self ->
  let names := mdCATH.raw_file_names (Some self) in
  NoDup names
  ∧ names = map mdCATH.file_name (dict_keys (mdCATH.to_download self))
  ∧ (∀ pdb, In (mdCATH.file_name pdb) names
            <-> In pdb (dict_keys (mdCATH.to_download self)))
  ∧ (mdCATH.to_download self ≠ [] ->
     mdCATH.download (Some self) = map (fun name => mdCATH.url +:+ name) names)
  ∧ (mdCATH.to_download self = [] ->
     names = []
     ∧ mdCATH.download (Some self) = [mdCATH.url +:+ "mdCATH_source.h5"]).
Proof.
  intros (s & Hscan & ->)%init_Ok names. subst names. simpl.
  destruct (scan_facts cfg root s Hscan) as (Hnd & _ & _).
  split_and!.
  - apply NoDup_map_inj; [apply file_name_inj|done].
  - done.
  - intros pdb. rewrite in_map_iff. split.
    + by intros (pdb' & ->%file_name_inj & Hin).
    + intros Hin. by exists pdb.
  - intros Hne. unfold download. simpl.
    destruct (scan_to_download s) as [|kv td]; [done|].
    rewrite map_map. apply map_ext. intros pdb. apply path_join_url_file_name.
  - intros ->. done.
Qed.

Lemma raw_file_names_and_download_witness :
  mdCATH.raw_file_names (Some (IndexerScenario.indexer 1))
  = ["cath_dataset_1abc.h5"%string]
  ∧ mdCATH.download (Some (IndexerScenario.indexer 1))
    = map (fun name => mdCATH.url +:+ name)
        (mdCATH.raw_file_names (Some (IndexerScenario.indexer 1))).
Proof.
  destruct (raw_file_names_and_download (IndexerScenario.cfg ["348"%string] 1)
              IndexerScenario.root (IndexerScenario.indexer 1) eq_refl)
    as (_ & Hnames & _ & Hdl & _).
  split; [rewrite Hnames; reflexivity|].
  apply Hdl. discriminate.
Defined.

End FileNames.

(** ** The qualifying set as a comprehension *)

Lemma for_each_prefix {S A} (P : list A -> S -> Prop) (body : S -> A -> result S)
    (l : list A) :
  (∀ pre x post s s', l = pre ++ x :: post -> P pre s -> body s x = Ok s' ->
                      P (pre ++ [x]) s') ->
  ∀ s s', P [] s -> for_each l body s = Ok s' -> P l s'.
Proof.
  intros Hstep.
  assert (∀ rest pre s s', l = pre ++ rest -> P pre s ->
            for_each rest body s = Ok s' -> P l s') as Hgen.
  { induction rest as [|x rest IH]; intros pre s s' Hl HP; simpl.
    - intros [= <-]. by rewrite Hl, app_nil_r.
    - destruct (body s x) as [s1|] eqn:E; [|done].
      apply (IH (pre ++ [x])); [by rewrite <- app_assoc|].
      by eapply Hstep. }
  intros s s'. by apply (Hgen l []).
Qed.

Section ScanExact.
Import mdCATH.
Implicit Types (cfg : Config) (root : Root) (s : Scan).
Implicit Types (base : dict string (list (string * string))).

Lemma dict_set_absent base pdb (v : list (string * string)) :
  dict_get base pdb = None -> dict_set base pdb v = base ++ [(pdb, v)].
Proof.
  induction base as [|[k w] base IH]; simpl; [done|].
  case_decide; [done|]. intros Hb. by rewrite IH.
Qed.

Lemma dict_get_snoc base pdb (v : list (string * string)) :
  dict_get base pdb = None -> dict_get (base ++ [(pdb, v)]) pdb = Some v.
Proof.
  induction base as [|[k w] base IH]; simpl; [by rewrite decide_True|].
  case_decide; [done|]. apply IH.
Qed.

Lemma dict_set_snoc base pdb (v v' : list (string * string)) :
  dict_get base pdb = None ->
  dict_set (base ++ [(pdb, v)]) pdb v' = base ++ [(pdb, v')].
Proof.
  induction base as [|[k w] base IH]; simpl; [by rewrite decide_True|].
  case_decide; [done|]. intros Hb. by rewrite IH.
Qed.

(** The three lines that record a pair, on a set whose last key is the
    current domain or which does not hold it yet. *)
Lemma record_pair_exact base pdb (ps : list (string * string)) (p : string * string) :
  dict_get base pdb = None ->
  let td := with_pairs base pdb ps in
  dict_set (if negb (dict_mem td pdb) then dict_set td pdb [] else td) pdb
    (default [] (dict_get td pdb) ++ [p])
  = with_pairs base pdb (ps ++ [p]).
Proof.
  intros Hnone. cbv zeta. unfold dict_mem. destruct ps as [|q ps]; simpl with_pairs.
  - rewrite Hnone. simpl. rewrite (dict_set_absent base pdb []) by done.
    by rewrite dict_set_snoc.
  - rewrite dict_get_snoc by done. simpl. by rewrite dict_set_snoc.
Qed.

Lemma replica_loop_exact cfg pdb temp pdb_group group base (ks : list string) :
  dict_get base pdb = None ->
  dict_get (children pdb_group) temp = Some group ->
  ∀ s s' ps,
    scan_to_download s = with_pairs base pdb ps ->
    for_each ks (replica_body cfg pdb temp pdb_group) s = Ok s' ->
    scan_temp s' = scan_temp s
    ∧ scan_to_download s'
      = with_pairs base pdb
          (ps ++ map (pair temp)
                   (List.filter
                      (fun replica =>
                         match dict_get group replica with
                         | Some a => negb (replica_rejected cfg a)
                         | None => false
                         end) ks)).
Proof.
  intros Hnone Hgroup. induction ks as [|r ks IH]; intros s s' ps Htd; simpl.
  - intros [= <-]. by rewrite app_nil_r.
  - destruct (replica_body cfg pdb temp pdb_group s r) as [s1|] eqn:Hb; [|done].
    intros Hrest.
    apply replica_body_Ok in Hb
      as (group' & a & Hgroup' & Ha & [[Hrej ->]|(Hrej & _ & Ht & _ & Htd1)]).
    + assert (group' = group) as -> by congruence.
      rewrite Ha, Hrej. simpl. by apply IH.
    + assert (group' = group) as -> by congruence.
      rewrite Ha, Hrej. simpl.
      rewrite Htd in Htd1. cbv zeta in Htd1.
      rewrite (record_pair_exact base pdb ps (temp, r) Hnone) in Htd1.
      destruct (IH s1 s' (ps ++ [(temp, r)]) Htd1 Hrest) as [Ht' ->].
      split; [congruence|]. by rewrite <- app_assoc.
Qed.

Lemma expected_keys cfg root (pre : list string) (k : string) :
  In k (dict_keys (expected_to_download cfg root pre)) -> In k pre.
Proof.
  unfold expected_to_download, dict_keys. rewrite in_map_iff.
  intros ([k' v] & <- & Hin). apply in_flat_map in Hin as (pdb & Hpdb & Hin).
  destruct (qualifying_pairs cfg root pdb); simpl in Hin; [done|].
  by destruct Hin as [[= <- _]|[]].
Qed.

Lemma expected_snoc cfg root (pre : list string) (x : string) :
  expected_to_download cfg root (pre ++ [x])
  = with_pairs (expected_to_download cfg root pre) x (qualifying_pairs cfg root x).
Proof.
  unfold expected_to_download. rewrite flat_map_app. simpl. rewrite app_nil_r.
  destruct (qualifying_pairs cfg root x); simpl; [by rewrite app_nil_r|done].
Qed.

(** X17. When the candidate domains are pairwise distinct, the qualifying
    set of a construction that returns is the comprehension over the
    candidates, in their order: each candidate with a non-empty list of
    passing pairs contributes its key once, followed by nothing else, and its
    list holds the last requested label paired with the passing replicas in
    the order of the source file. *)
Theorem scan_is_comprehension (cfg : mdCATH.Config) (root : mdCATH.Root)
    (self : mdCATH.t) :
  mdCATH.init cfg root = Ok self ->
  NoDup (mdCATH.domains cfg root) ->
  mdCATH.to_download self
  = mdCATH.expected_to_download cfg root (mdCATH.domains cfg root).
Proof.
  intros (s & Hscan & ->)%init_Ok Hnd. simpl.
  rewrite process_data_source_domains in Hscan.
  enough (scan_to_download s = expected_to_download cfg root (domains cfg root)
          ∧ (scan_temp s = None ∨ scan_temp s = last (temperatures cfg))) as [? _]
    by done.
  revert Hscan.
  apply (for_each_prefix (fun pre s =>
    scan_to_download s = expected_to_download cfg root pre
    ∧ (scan_temp s = None ∨ scan_temp s = last (temperatures cfg)))); [|by split; auto].
  intros pre x post s0 s1 Hl [Htd Htemp] Hbody.
  assert (dict_get (expected_to_download cfg root pre) x = None) as Hnone.
  { destruct (dict_get _ x) as [v|] eqn:E; [|done].
    apply dict_get_Some_In in E. apply (in_map fst) in E. apply expected_keys in E.
    rewrite Hl in Hnd. apply NoDup_app in Hnd as (_ & Hdisj & _).
    destruct (Hdisj x); [by apply list_elem_of_In|]. by left. }
  rewrite expected_snoc. unfold qualifying_pairs.
  apply domain_body_Ok in Hbody
    as (pdb_group & Hg & [[Hrej ->]|(Hrej & temp & group & Hloop & Hgroup & Hreplicas)]).
  - rewrite Hg, Hrej. split; [|done]. by destruct (last (temperatures cfg)).
  - rewrite temperature_loop_last in Hloop.
    assert (last (temperatures cfg) = Some temp) as Hlast.
    { destruct (last (temperatures cfg)); [done|]. destruct Htemp; congruence. }
    rewrite Hg, Hlast, Hrej, Hgroup.
    eapply (replica_loop_exact cfg x temp pdb_group group
              (expected_to_download cfg root pre) (dict_keys group) Hnone Hgroup
              _ s1 []) in Hreplicas as [Ht ->]; [|exact Htd].
    split; [done|]. right. by rewrite Ht.
Qed.

Lemma scan_is_comprehension_witness :
  mdCATH.to_download (IndexerScenario.indexer 1)
  = mdCATH.expected_to_download (IndexerScenario.cfg ["348"%string] 1)
      IndexerScenario.root ["1abc"%string].
Proof.
  apply (scan_is_comprehension (IndexerScenario.cfg ["348"%string] 1)
           IndexerScenario.root (IndexerScenario.indexer 1) eq_refl).
  simpl. repeat constructor. rewrite list_elem_of_In. simpl. tauto.
Defined.

End ScanExact.

(** ** Negative indices: what the two lookups hand to [get] *)

(** X19. Neither [get] checks its index before the lookup, and both
    lookups read an index [i] of [-length(), -1] from the end.  For the
    aggregator, the row at position [length() + i] names a configured
    sub-dataset [k] and the local index [j] that position has after the
    sub-datasets before [k], inside that sub-dataset's length, and [get(i)]
    is that sub-dataset's item [j], as [get(length() + i)] is.  For the
    selective indexer, between calls that returned, [get(i)] is
    [get(length() + i)], and once the flat index is built it gives what the
    entry [(z, c, f, js)] at position [length() + i] gives: the atomic
    numbers, the coordinate rows and the force rows taken at [js], the two
    latter as 32-bit floats, or the exception of the first of these three
    lookups that fails. *)
Theorem negative_index_reads_from_end :
  (∀ (Sample : Type) (subs : list (COMP6v1.Subset Sample)) (i : Z),
     let agg := COMP6v1.init subs in
     - COMP6v1.len agg <= i <= -1 ->
     ∃ k j sub,
       COMP6v1.subset_indices agg !! Z.to_nat (COMP6v1.len agg + i) = Some (k, j)
       ∧ COMP6v1.resolve agg i = Ok (k, j)
       ∧ 0 <= k
       ∧ subs !! Z.to_nat k = Some sub
       ∧ 0 <= j < Z.of_nat (COMP6v1.sub_len sub)
       ∧ COMP6v1.len agg + i
         = Zsum (COMP6v1.lengths (take (Z.to_nat k) subs)) + j
       ∧ COMP6v1.get agg i = COMP6v1.sub_getitem sub j
       ∧ COMP6v1.get agg (COMP6v1.len agg + i) = COMP6v1.sub_getitem sub j)
  ∧ (∀ (root : mdCATH.Root) (self : mdCATH.t) (i : Z),
       let n := mdCATH.num_conformers self in
       mdCATH.settled self -> - n <= i <= -1 ->
       mdCATH.get root i self = mdCATH.get root (n + i) self
       ∧ (∀ l, mdCATH.idx self = Some l ->
            ∃ z c f js,
              l !! Z.to_nat (n + i) = Some (z, c, f, js)
              ∧ mdCATH.get root i self
                = (self,
                   zs ← np_take z js;
                   pos ← np_take c js;
                   neg_dy ← np_take f js;
                   Ok {| mdCATH.data_z := zs;
                         mdCATH.data_pos := frame_map to_float32 pos;
                         mdCATH.data_neg_dy := frame_map to_float32 neg_dy |}))
       ∧ (mdCATH.idx self = None ->
          ∀ self1, mdCATH._setup_idx root self = (self1, Ok tt) ->
            ∃ l z c f js,
              mdCATH.idx self1 = Some l
              ∧ l !! Z.to_nat (n + i) = Some (z, c, f, js)
              ∧ mdCATH.get root i self
                = (self1,
                   zs ← np_take z js;
                   pos ← np_take c js;
                   neg_dy ← np_take f js;
                   Ok {| mdCATH.data_z := zs;
                         mdCATH.data_pos := frame_map to_float32 pos;
                         mdCATH.data_neg_dy := frame_map to_float32 neg_dy |}))).
Proof.
  split.
  - intros Sample subs i agg Hi. subst agg.
    set (p := COMP6v1.len (COMP6v1.init subs) + i).
    assert (0 <= p < Zsum (COMP6v1.lengths subs)) as Hp
      by (unfold p; rewrite <- len_init; lia).
    assert (COMP6v1.resolve (COMP6v1.init subs) i
            = COMP6v1.resolve (COMP6v1.init subs) p) as Hip
      by (apply resolve_from_end; lia).
    destruct (row_of_index subs p Hp) as (pre & sub & post & j & Hsubs & Hj & Hpj).
    assert (COMP6v1.resolve (COMP6v1.init subs) p = Ok (Z.of_nat (length pre), j))
      as Hrow by (rewrite Hsubs, Hpj; by apply resolve_row).
    exists (Z.of_nat (length pre)), j, sub. rewrite Nat2Z.id.
    split_and!.
    + unfold COMP6v1.resolve in Hrow. apply py_index_Ok in Hrow as [_ Hlook].
      destruct (Z.ltb_spec p 0); [lia|done].
    + by rewrite Hip.
    + lia.
    + rewrite Hsubs. by rewrite list_lookup_middle.
    + lia.
    + lia.
    + rewrite Hsubs, take_app_length. exact Hpj.
    + rewrite (get_resolve _ i p Hip), Hsubs, Hpj. by apply get_row.
    + rewrite Hsubs, Hpj. by apply get_row.
  - intros root self i n. subst n. intros Hset Hi. split_and!.
    + by apply get_from_end.
    + intros l Hl.
      destruct (get_built_from_end root i self l Hl) as ([[[z c] f] js] & Hentry & Hget);
        [|done|by exists z, c, f, js].
      unfold mdCATH.settled in Hset. by rewrite Hl in Hset.
    + intros Hnone self1 Hsetup.
      pose proof (_setup_idx_spec root self self1 (Ok tt) Hsetup)
        as ((_ & _ & Hn) & l & Hl & Hok & _).
      destruct (get_built_from_end root i self1 l Hl)
        as ([[[z c] f] js] & Hentry & Hget).
      { rewrite Hn. by apply Hok. }
      { by rewrite Hn. }
      exists l, z, c, f, js. rewrite Hn in Hentry. split_and!; [done|done|].
      rewrite get_unbuilt, Hsetup by done. exact Hget.
Qed.

Lemma negative_index_reads_from_end_witness :
  COMP6v1.get Scenario.agg34 (-1) = Ok ("b"%string, 3)
  ∧ snd (mdCATH.get IndexerScenario.root (-2) (IndexerScenario.indexer 2))
    = Ok {| mdCATH.data_z := [1];
            mdCATH.data_pos := [[2; 2; 2]]%float;
            mdCATH.data_neg_dy := [[2; 2; 2]]%float |}
  ∧ mdCATH.get IndexerScenario.root (-2) (IndexerScenario.indexer 2)
    = mdCATH.get IndexerScenario.root (8 + -2) (IndexerScenario.indexer 2).
Proof.
  destruct negative_index_reads_from_end as [Hagg Hidx].
  split_and!.
  - destruct (Hagg _ [Scenario.listed "a" 3; Scenario.listed "b" 4] (-1))
      as (k & j & sub & Hrow & _ & _ & Hsub & _ & _ & Hget & _).
    { vm_compute. split; discriminate. }
    vm_compute in Hrow. injection Hrow as <- <-.
    vm_compute in Hsub. injection Hsub as <-.
    exact Hget.
  - destruct (Hidx IndexerScenario.root (IndexerScenario.indexer 2) (-2) I)
      as (_ & _ & Hnone).
    { vm_compute. split; discriminate. }
    destruct (Hnone eq_refl
                (fst (mdCATH._setup_idx IndexerScenario.root (IndexerScenario.indexer 2))))
      as (l & z & c & f & js & Hl & Hentry & Hget).
    { vm_compute. reflexivity. }
    vm_compute in Hl. injection Hl as <-.
    vm_compute in Hentry. injection Hentry as <- <- <- <-.
    rewrite Hget. vm_compute. reflexivity.
  - destruct (Hidx IndexerScenario.root (IndexerScenario.indexer 2) (-2) I)
      as (Heq & _).
    { vm_compute. split; discriminate. }
    exact Heq.
Defined.
